(** * Query translation of the App Engine backend: [SelectCommand]

    A shallow embedding of [djangae/db/backends/appengine/commands.py]
    ([SelectCommand] with [__init__], [parse_where_and_check_projection],
    [execute], [_do_fetch] and [_run_query], and the commands of the write
    path) and the properties of it that the specification states.

    Python objects become records, [dict]s become [gmap]s, [set]s become
    [gset]s.  Attribute mutation on [self] is explicit state passing; an
    exception is a [Raise] result that keeps the state reached when it was
    raised.  What lives outside the file (the connection's
    [prep_lookup_value], [djangae.indexing], the datastore library with
    the checks it makes on filters, the datastore, the cache and its
    helpers) is passed in as records of functions. *)

From Stdlib Require Import ZArith String Ascii List Bool Lia.
From stdpp Require Import base gmap strings list fin_maps.

Set Warnings "-register-all".
Local Open Scope string_scope.
Local Open Scope list_scope.

(** ** Values *)

(** Python values that occur as lookup values: [None], integers, strings,
    and lists or tuples of them; [isinstance(value, (list, tuple))] is a
    match on [Seq]. *)
Inductive scalar := PyNone | PyInt (z : Z) | PyStr (s : string).
Inductive Value := Scalar (x : scalar) | Seq (xs : list scalar).

#[global] Instance scalar_eq_dec : EqDecision scalar.
Proof. solve_decision. Defined.
#[global] Instance Value_eq_dec : EqDecision Value.
Proof. solve_decision. Defined.

(** [value is None] *)
Definition is_None (v : Value) : bool :=
  match v with Scalar PyNone => true | _ => false end.

(** [x in (a, b, ...)] on strings *)
Definition str_in (x : string) (l : list string) : bool :=
  existsb (String.eqb x) l.

(** ** Exceptions and results *)

Inductive Exception :=
| DatabaseError (msg : string)
| RuntimeError (msg : string)
| NotImplementedError (msg : string)
| TypeError (msg : string)
| AttributeError (msg : string)
| AssertionError
| LibraryError (class_name : string).

Inductive Res (A : Type) := Ok (a : A) | Raise (e : Exception).
Arguments Ok {A} a.
Arguments Raise {A} e.

Definition res_bind {A B} (r : Res A) (k : A -> Res B) : Res B :=
  match r with Ok a => k a | Raise e => Raise e end.

(** The error kinds of the specification, as the exceptions the code raises. *)
Definition UnsupportedCombinator : Exception :=
  DatabaseError "Only AND filters are supported".
Definition MultipleInequalityFilters : Exception :=
  RuntimeError "You can only specify one inequality filter per query".
Definition UnsupportedNegatedOperator (op : string) : Exception :=
  RuntimeError ("Unsupported negated lookup: " +:+ op).

(** ** Django side: fields, models, where trees, queries *)

(** [db_type] is [f.db_type(connection)] for the connection in use. *)
Record Field := {
  column : string;
  primary_key : bool;
  db_type : string
}.

(** [model._meta]: [parents] lists the keys of [_meta.parents];
    [meta_ordering] is [opts.ordering]; [model_str] is [str(model)]. *)
Inductive Model := mkModel {
  model_str : string;
  db_table : string;
  abstract : bool;
  proxy : bool;
  parents : list Model;
  fields : list Field;
  pk : Field;
  meta_ordering : list string
}.

Record Constraint := { col : string; field : Field }.

Inductive Connector := AND | OR.

Definition Connector_eqb (a b : Connector) : bool :=
  match a, b with AND, AND | OR, OR => true | _, _ => false end.

(** A where node has a connector, a [negated] flag and children; a child is
    a tuple [(constraint, op, annotation, value)] or another node.  The
    annotation is never read and is left out. *)
Inductive WhereNode :=
| mkWhere (connector : Connector) (negated : bool) (children : list Child)
with Child :=
| Leaf (constraint : Constraint) (op : string) (value : Value)
| Sub (node : WhereNode).

(** An entry of [query.select]: a tuple [x] read as [x[1]] (Django < 1.6)
    or an object read as [x.col[1]]. *)
Inductive SelectItem :=
| SelTuple (alias : string) (column : string)
| SelInfo (alias : string) (column : string).

Record DjangoQuery := {
  q_model : Model;
  default_ordering : bool;
  order_by : list string;
  select : list SelectItem;
  aggregates : list string;
  extra_select : list string;
  q_where : WhereNode
}.

Record Connection := {
  prep_lookup_value : Model -> scalar -> Field -> scalar
}.

(** ** Datastore side *)

Definition Entity := gmap string scalar.

Inductive Direction := ASCENDING | DESCENDING.

(** [datastore.Query] is a [dict] from filter strings such as ["col ="] to
    values, with a kind, an optional projection and orderings. *)
Record datastore_Query := {
  kind : string;
  ds_projection : option (gset string);
  filters : gmap string Value;
  orderings : list (string * Direction)
}.

Inductive CompiledQuery :=
| Query (q : datastore_Query)
| MultiQuery (queries : list datastore_Query) (ordering : list (string * Direction)).

Inductive Results :=
| Entities (l : list Entity)
| Count (n : Z).

(** A normalized predicate [(column, op, value)]. *)
Definition Filter : Type := string * string * Value.

(** ** [OPERATORS_MAP] *)

Definition OPERATORS_MAP : list (string * option string) :=
  [ ("exact", Some "=");
    ("gt", Some ">");
    ("gte", Some ">=");
    ("lt", Some "<");
    ("lte", Some "<=");
    ("isnull", None);
    ("in", None);
    ("startswith", None);
    ("range", None);
    ("year", None);
    ("gt_and_lt", None);
    ("iexact", None) ].

(** [d.get(k)]: [None] both for a missing key and for a key bound to [None]. *)
Fixpoint dict_get (d : list (string * option string)) (k : string) : option string :=
  match d with
  | [] => None
  | (k', v) :: d' => if String.eqb k k' then v else dict_get d' k
  end.

(** ** [get_field_from_column] *)

Fixpoint find_field (fs : list Field) (c : string) : option Field :=
  match fs with
  | [] => None
  | f :: fs' => if String.eqb (column f) c then Some f else find_field fs' c
  end.

Definition get_field_from_column (m : Model) (c : string) : option Field :=
  find_field (fields m) c.

(** ** [SelectCommand] *)

Record SelectCommand := {
  ordering : list string;
  queried_fields : list string;
  connection : Connection;
  pk_col : string;
  model : Model;
  is_count : list string;
  keys_only : bool;
  included_pks : list scalar;
  excluded_pks : list Value;
  has_inequality_filter : bool;
  all_filters : list Filter;
  results : option Results;
  query_can_never_return_results : bool;
  cmd_extra_select : list string;
  projection : option (gset string);
  where_ : list Filter;
  query : option CompiledQuery;
  query_done : bool;
  aggregate_type : option string
}.

(** Attribute assignment [self.f = v], one setter per assigned attribute. *)

Definition set_queried_fields (v : list string) (self : SelectCommand) : SelectCommand :=
  {| ordering := ordering self; queried_fields := v;
     connection := connection self; pk_col := pk_col self;
     model := model self; is_count := is_count self;
     keys_only := keys_only self; included_pks := included_pks self;
     excluded_pks := excluded_pks self;
     has_inequality_filter := has_inequality_filter self;
     all_filters := all_filters self; results := results self;
     query_can_never_return_results := query_can_never_return_results self;
     cmd_extra_select := cmd_extra_select self;
     projection := projection self; where_ := where_ self;
     query := query self; query_done := query_done self;
     aggregate_type := aggregate_type self |}.

Definition set_keys_only (v : bool) (self : SelectCommand) : SelectCommand :=
  {| ordering := ordering self; queried_fields := queried_fields self;
     connection := connection self; pk_col := pk_col self;
     model := model self; is_count := is_count self; keys_only := v;
     included_pks := included_pks self; excluded_pks := excluded_pks self;
     has_inequality_filter := has_inequality_filter self;
     all_filters := all_filters self; results := results self;
     query_can_never_return_results := query_can_never_return_results self;
     cmd_extra_select := cmd_extra_select self;
     projection := projection self; where_ := where_ self;
     query := query self; query_done := query_done self;
     aggregate_type := aggregate_type self |}.

Definition set_included_pks (v : list scalar) (self : SelectCommand) : SelectCommand :=
  {| ordering := ordering self; queried_fields := queried_fields self;
     connection := connection self; pk_col := pk_col self;
     model := model self; is_count := is_count self;
     keys_only := keys_only self; included_pks := v;
     excluded_pks := excluded_pks self;
     has_inequality_filter := has_inequality_filter self;
     all_filters := all_filters self; results := results self;
     query_can_never_return_results := query_can_never_return_results self;
     cmd_extra_select := cmd_extra_select self;
     projection := projection self; where_ := where_ self;
     query := query self; query_done := query_done self;
     aggregate_type := aggregate_type self |}.

Definition set_excluded_pks (v : list Value) (self : SelectCommand) : SelectCommand :=
  {| ordering := ordering self; queried_fields := queried_fields self;
     connection := connection self; pk_col := pk_col self;
     model := model self; is_count := is_count self;
     keys_only := keys_only self; included_pks := included_pks self;
     excluded_pks := v; has_inequality_filter := has_inequality_filter self;
     all_filters := all_filters self; results := results self;
     query_can_never_return_results := query_can_never_return_results self;
     cmd_extra_select := cmd_extra_select self;
     projection := projection self; where_ := where_ self;
     query := query self; query_done := query_done self;
     aggregate_type := aggregate_type self |}.

Definition set_has_inequality_filter (v : bool) (self : SelectCommand) : SelectCommand :=
  {| ordering := ordering self; queried_fields := queried_fields self;
     connection := connection self; pk_col := pk_col self;
     model := model self; is_count := is_count self;
     keys_only := keys_only self; included_pks := included_pks self;
     excluded_pks := excluded_pks self; has_inequality_filter := v;
     all_filters := all_filters self; results := results self;
     query_can_never_return_results := query_can_never_return_results self;
     cmd_extra_select := cmd_extra_select self;
     projection := projection self; where_ := where_ self;
     query := query self; query_done := query_done self;
     aggregate_type := aggregate_type self |}.

Definition set_results (v : option Results) (self : SelectCommand) : SelectCommand :=
  {| ordering := ordering self; queried_fields := queried_fields self;
     connection := connection self; pk_col := pk_col self;
     model := model self; is_count := is_count self;
     keys_only := keys_only self; included_pks := included_pks self;
     excluded_pks := excluded_pks self;
     has_inequality_filter := has_inequality_filter self;
     all_filters := all_filters self; results := v;
     query_can_never_return_results := query_can_never_return_results self;
     cmd_extra_select := cmd_extra_select self;
     projection := projection self; where_ := where_ self;
     query := query self; query_done := query_done self;
     aggregate_type := aggregate_type self |}.

Definition set_query_can_never_return_results (v : bool) (self : SelectCommand) : SelectCommand :=
  {| ordering := ordering self; queried_fields := queried_fields self;
     connection := connection self; pk_col := pk_col self;
     model := model self; is_count := is_count self;
     keys_only := keys_only self; included_pks := included_pks self;
     excluded_pks := excluded_pks self;
     has_inequality_filter := has_inequality_filter self;
     all_filters := all_filters self; results := results self;
     query_can_never_return_results := v;
     cmd_extra_select := cmd_extra_select self;
     projection := projection self; where_ := where_ self;
     query := query self; query_done := query_done self;
     aggregate_type := aggregate_type self |}.

Definition set_projection (v : option (gset string)) (self : SelectCommand) : SelectCommand :=
  {| ordering := ordering self; queried_fields := queried_fields self;
     connection := connection self; pk_col := pk_col self;
     model := model self; is_count := is_count self;
     keys_only := keys_only self; included_pks := included_pks self;
     excluded_pks := excluded_pks self;
     has_inequality_filter := has_inequality_filter self;
     all_filters := all_filters self; results := results self;
     query_can_never_return_results := query_can_never_return_results self;
     cmd_extra_select := cmd_extra_select self; projection := v;
     where_ := where_ self; query := query self;
     query_done := query_done self; aggregate_type := aggregate_type self |}.

Definition set_where (v : list Filter) (self : SelectCommand) : SelectCommand :=
  {| ordering := ordering self; queried_fields := queried_fields self;
     connection := connection self; pk_col := pk_col self;
     model := model self; is_count := is_count self;
     keys_only := keys_only self; included_pks := included_pks self;
     excluded_pks := excluded_pks self;
     has_inequality_filter := has_inequality_filter self;
     all_filters := all_filters self; results := results self;
     query_can_never_return_results := query_can_never_return_results self;
     cmd_extra_select := cmd_extra_select self;
     projection := projection self; where_ := v; query := query self;
     query_done := query_done self; aggregate_type := aggregate_type self |}.

Definition set_query (v : option CompiledQuery) (self : SelectCommand) : SelectCommand :=
  {| ordering := ordering self; queried_fields := queried_fields self;
     connection := connection self; pk_col := pk_col self;
     model := model self; is_count := is_count self;
     keys_only := keys_only self; included_pks := included_pks self;
     excluded_pks := excluded_pks self;
     has_inequality_filter := has_inequality_filter self;
     all_filters := all_filters self; results := results self;
     query_can_never_return_results := query_can_never_return_results self;
     cmd_extra_select := cmd_extra_select self;
     projection := projection self; where_ := where_ self; query := v;
     query_done := query_done self; aggregate_type := aggregate_type self |}.

Definition set_query_done (v : bool) (self : SelectCommand) : SelectCommand :=
  {| ordering := ordering self; queried_fields := queried_fields self;
     connection := connection self; pk_col := pk_col self;
     model := model self; is_count := is_count self;
     keys_only := keys_only self; included_pks := included_pks self;
     excluded_pks := excluded_pks self;
     has_inequality_filter := has_inequality_filter self;
     all_filters := all_filters self; results := results self;
     query_can_never_return_results := query_can_never_return_results self;
     cmd_extra_select := cmd_extra_select self;
     projection := projection self; where_ := where_ self;
     query := query self; query_done := v;
     aggregate_type := aggregate_type self |}.

Definition set_aggregate_type (v : option string) (self : SelectCommand) : SelectCommand :=
  {| ordering := ordering self; queried_fields := queried_fields self;
     connection := connection self; pk_col := pk_col self;
     model := model self; is_count := is_count self;
     keys_only := keys_only self; included_pks := included_pks self;
     excluded_pks := excluded_pks self;
     has_inequality_filter := has_inequality_filter self;
     all_filters := all_filters self; results := results self;
     query_can_never_return_results := query_can_never_return_results self;
     cmd_extra_select := cmd_extra_select self;
     projection := projection self; where_ := where_ self;
     query := query self; query_done := query_done self;
     aggregate_type := v |}.

(** ** Methods that mutate [self]: state passing with exceptions

    A method body is a function from the object to a result and the object
    as the body left it; an exception keeps the mutations made before it. *)

Definition Cmd (A : Type) : Type := SelectCommand -> Res A * SelectCommand.

Definition ret {A} (a : A) : Cmd A := fun self => (Ok a, self).

Definition raise {A} (e : Exception) : Cmd A := fun self => (Raise e, self).

Definition bind {A B} (c : Cmd A) (k : A -> Cmd B) : Cmd B :=
  fun self =>
    match c self with
    | (Ok a, self') => k a self'
    | (Raise e, self') => (Raise e, self')
    end.

Definition get {A} (f : SelectCommand -> A) : Cmd A :=
  fun self => (Ok (f self), self).

Definition assign (f : SelectCommand -> SelectCommand) : Cmd unit :=
  fun self => (Ok tt, f self).

Definition when (b : bool) (c : Cmd unit) : Cmd unit :=
  if b then c else ret tt.

Notation "x <- c ;; k" := (bind c (fun x => k))
  (at level 100, c at next level, right associativity).
Notation "c ;; k" := (bind c (fun _ => k))
  (at level 100, right associativity).

(** ** [parse_where_and_check_projection] *)

(** The value of a leaf after [connection.ops.prep_lookup_value], applied
    elementwise to a list or tuple. *)
Definition prep_value (conn : Connection) (m : Model) (f : Field) (v : Value) : Value :=
  match v with
  | Seq xs => Seq (map (fun x => prep_lookup_value conn m x f) xs)
  | Scalar x => Scalar (prep_lookup_value conn m x f)
  end.

(** [self.projection and constraint.col in self.projection] *)
Definition in_projection (p : option (gset string)) (c : string) : bool :=
  match p with
  | Some s => bool_decide (c ∈ s)
  | None => false
  end.

(** [included_pks.extend(list(value))] for a sequence, [append(value)] otherwise *)
Definition pk_values (v : Value) : list scalar :=
  match v with Seq l => l | Scalar x => [x] end.

(** The body of the loop of [parse_where_and_check_projection] for a child
    that is a tuple; the result is what the body adds to [result]. *)
Definition parse_leaf (constraint : Constraint) (op : string) (value0 : Value)
    (negated : bool) : Cmd (list Filter) :=
  conn <- get connection ;;
  m <- get model ;;
  let value := prep_value conn m (field constraint) value0 in
  proj <- get projection ;;
  when (in_projection proj (col constraint) && str_in op ["exact"; "in"; "isnull"])
       (assign (set_projection None)) ;;
  if negated then
    when (str_in op ["exact"; "in"] && primary_key (field constraint))
         (xs <- get excluded_pks ;; assign (set_excluded_pks (xs ++ [value]))) ;;
    if String.eqb op "exact" then
      ineq <- get has_inequality_filter ;;
      if ineq : bool then raise MultipleInequalityFilters
      else
        assign (set_has_inequality_filter true) ;;
        ret [(col constraint, "gt_and_lt", value)]
    else raise (UnsupportedNegatedOperator op)
  else
    when (primary_key (field constraint))
         (if (is_None value && String.eqb op "exact") || String.eqb op "isnull" then
            assign (set_query_can_never_return_results true)
          else if str_in op ["exact"; "in"] then
            xs <- get included_pks ;;
            assign (set_included_pks (xs ++ pk_values value))
          else ret tt) ;;
    ret [(col constraint, op, value)].

(** The method itself.  For a connector other than [AND] outside negation
    the source raises [DatabaseError], a name its module does not import; the
    exception is kept under the name the source gives it. *)
Fixpoint parse_where_and_check_projection (w : WhereNode) (negated : bool)
    {struct w} : Cmd (list Filter) :=
  match w with
  | mkWhere connector w_negated children =>
    let negated := if w_negated then negb negated else negated in
    if negb negated && negb (Connector_eqb connector AND)
    then raise UnsupportedCombinator
    else
      (fix for_children (cs : list Child) : Cmd (list Filter) :=
         match cs with
         | [] => ret []
         | child :: rest =>
           r <- parse_child child negated ;;
           rs <- for_children rest ;;
           ret (r ++ rs)
         end) children
  end
with parse_child (child : Child) (negated : bool) {struct child} : Cmd (list Filter) :=
  match child with
  | Leaf constraint op value => parse_leaf constraint op value negated
  | Sub node => parse_where_and_check_projection node negated
  end.

(** The [for child in where.children] loop on its own. *)
Fixpoint parse_children (cs : list Child) (negated : bool) : Cmd (list Filter) :=
  match cs with
  | [] => ret []
  | child :: rest =>
    r <- parse_child child negated ;;
    rs <- parse_children rest negated ;;
    ret (r ++ rs)
  end.

(** ** [SelectCommand.__init__] *)

Definition select_column (x : SelectItem) : string :=
  match x with
  | SelTuple _ c => c
  | SelInfo _ c => c
  end.

(** The loop that fills [projection_fields]: the primary key is skipped, a
    column without a field fails the [assert], a [bytes] or [text] column
    empties the list and leaves the loop. *)
Fixpoint projection_fields_loop (m : Model) (pk_column : string)
    (fs : list string) (projection_fields : list string) : Res (list string) :=
  match fs with
  | [] => Ok projection_fields
  | f :: rest =>
    if String.eqb f pk_column then
      projection_fields_loop m pk_column rest projection_fields
    else
      match get_field_from_column m f with
      | None => Raise AssertionError
      | Some fld =>
        if str_in (db_type fld) ["bytes"; "text"] then Ok []
        else projection_fields_loop m pk_column rest (projection_fields ++ [f])
      end
  end.

(** [list(set(projection_fields)) or None] *)
Definition projection_of (projection_fields : list string) : option (gset string) :=
  match projection_fields with
  | [] => None
  | _ => Some (list_to_set projection_fields)
  end.

(** [l.index(x)], [None] standing for [ValueError] *)
Fixpoint list_index (x : string) (l : list string) : option nat :=
  match l with
  | [] => None
  | y :: l' => if String.eqb y x then Some 0%nat else S <$> list_index x l'
  end.

(** [self.queried_fields] before the primary key is switched to [__key__]. *)
Definition initial_queried_fields (q : DjangoQuery) (keys_only_arg all_fields : bool)
  : list string :=
  let opts := q_model q in
  let selected :=
    if keys_only_arg then [column (pk opts)]
    else if negb all_fields then map select_column (select q)
    else [] in
  match selected with
  | [] => map column (fields opts)
  | s => s
  end.

(** The object as it is when [parse_where_and_check_projection] is called. *)
Definition init_fields (conn : Connection) (q : DjangoQuery)
    (keys_only_arg all_fields : bool) (projection_fields : list string) : SelectCommand :=
  let opts := q_model q in
  {| ordering :=
       if negb (default_ordering q) then order_by q
       else match order_by q with [] => meta_ordering opts | o => o end;
     queried_fields := initial_queried_fields q keys_only_arg all_fields;
     connection := conn;
     pk_col := column (pk opts);
     model := q_model q;
     is_count := aggregates q;
     keys_only := false;
     included_pks := [];
     excluded_pks := [];
     has_inequality_filter := false;
     all_filters := [];
     results := None;
     query_can_never_return_results := false;
     cmd_extra_select := extra_select q;
     projection :=
       match parents opts with
       | [] => projection_of projection_fields
       | _ => None
       end;
     where_ := [];
     query := None;
     query_done := false;
     aggregate_type := None |}.

(** The [try] block that ends [__init__]. *)
Definition switch_pk_to_key (self : SelectCommand) : SelectCommand :=
  match list_index (pk_col self) (queried_fields self) with
  | Some pk_index =>
    let qf := <[pk_index := "__key__"]> (queried_fields self) in
    set_keys_only (Nat.eqb (List.length qf) 1) (set_queried_fields qf self)
  | None => self
  end.

(** The fields the projection loop runs over: none with [all_fields]. *)
Definition projection_input (q : DjangoQuery) (keys_only_arg all_fields : bool)
  : list string :=
  if all_fields then [] else initial_queried_fields q keys_only_arg all_fields.

Definition __init__ (conn : Connection) (q : DjangoQuery)
    (keys_only_arg all_fields : bool) : Res SelectCommand :=
  match projection_fields_loop (q_model q) (column (pk (q_model q)))
          (projection_input q keys_only_arg all_fields) [] with
  | Raise e => Raise e
  | Ok projection_fields =>
    let self := init_fields conn q keys_only_arg all_fields projection_fields in
    match parse_where_and_check_projection (q_where q) false self with
    | (Raise e, _) => Raise e
    | (Ok w, self') => Ok (switch_pk_to_key (set_where w self'))
    end
  end.

(** ** Collaborators of [execute]

    [djangae.indexing] is not part of the translated file: its table and
    its two functions are parameters.  The registry of special indexes is
    represented by what [special_indexes_for_column] answers, and
    [add_special_index] is any transformation of it. *)

Record Indexer := {
  indexed_column_name : string -> string;
  prep_value_for_query : Value -> Value
}.

Definition Registry : Type := Model -> string -> list string.

Definition special_indexes_for_column (reg : Registry) (m : Model) (c : string)
  : list string := reg m c.

Record Indexing := {
  REQUIRES_SPECIAL_INDEXES : list (string * Indexer);
  add_special_index : Registry -> Model -> string -> string -> Registry
}.

(** [op in REQUIRES_SPECIAL_INDEXES] and [REQUIRES_SPECIAL_INDEXES[op]] *)
Fixpoint special_indexer (d : list (string * Indexer)) (op : string) : option Indexer :=
  match d with
  | [] => None
  | (k, v) :: d' => if String.eqb op k then Some v else special_indexer d' op
  end.

(** The datastore, the cache and the helpers of the unique-lookup path. *)
Record Backend := {
  Run : CompiledQuery -> list Entity;
  Count_ : CompiledQuery -> Z;
  get_uniques_from_model : Model -> list (list string);
  generate_unique_key : Model -> list (string * Value) -> string;
  get_entity_from_cache : string -> option Entity
}.

(** What [execute] asks of the datastore and of the cache, in order. *)
Inductive Event :=
| StoreRun (q : CompiledQuery)
| StoreCount (q : CompiledQuery)
| CacheGet (key : string).

(** ** The datastore library

    [google.appengine.api.datastore] is not part of the translated file.
    Its [Query] is a [dict] of filters that validates what is put into it:
    [query[key] = value] and [query.update(other)] raise when the library
    refuses a filter or a value (an inequality on a second property, an
    integer that does not fit, a [__key__] that is no key), and so can
    [query.Order] and the [MultiQuery] constructor.  What the library
    refuses, and with which exception, is a parameter; a call that is
    accepted stores what it was given.  [LibraryError] stands for the
    exceptions of the library, by the name of their class. *)
Record Sdk := {
  check_filter : datastore_Query -> string -> Value -> option Exception;
  check_update : datastore_Query -> datastore_Query -> option Exception;
  check_order : datastore_Query -> list (string * Direction) -> option Exception;
  check_multi : list datastore_Query -> list (string * Direction) -> option Exception
}.

(** [dict.__setitem__(query, key, value)], the store of an accepted
    assignment *)
Definition dict_setitem (key : string) (value : Value) (q : datastore_Query)
  : datastore_Query :=
  {| kind := kind q; ds_projection := ds_projection q;
     filters := <[key := value]> (filters q); orderings := orderings q |}.

(** [query[key] = value] *)
Definition set_filter (sdk : Sdk) (key : string) (value : Value) (q : datastore_Query)
  : Res datastore_Query :=
  match check_filter sdk q key value with
  | Some e => Raise e
  | None => Ok (dict_setitem key value q)
  end.

(** [query.update(other)]: the filters of [other] are put on [query]. *)
Definition update (sdk : Sdk) (other q : datastore_Query) : Res datastore_Query :=
  match check_update sdk q other with
  | Some e => Raise e
  | None =>
    Ok {| kind := kind q; ds_projection := ds_projection q;
          filters := filters other ∪ filters q; orderings := orderings q |}
  end.

(** [query.Order], called with the compiled ordering *)
Definition Order (sdk : Sdk) (o : list (string * Direction)) (q : datastore_Query)
  : Res datastore_Query :=
  match check_order sdk q o with
  | Some e => Raise e
  | None =>
    Ok {| kind := kind q; ds_projection := ds_projection q;
          filters := filters q; orderings := o |}
  end.

(** [datastore.MultiQuery(queries, ordering)] *)
Definition datastore_MultiQuery (sdk : Sdk) (queries : list datastore_Query)
    (ordering : list (string * Direction)) : Res CompiledQuery :=
  match check_multi sdk queries ordering with
  | Some e => Raise e
  | None => Ok (MultiQuery queries ordering)
  end.

(** [datastore.Query(kind, projection=projection)] *)
Definition datastore_Query_new (kind0 : string) (projection0 : option (gset string))
  : datastore_Query :=
  {| kind := kind0; ds_projection := projection0; filters := ∅; orderings := [] |}.

(** A loop that collects what its body returns and stops at the first
    exception. *)
Fixpoint for_each {A B} (body : A -> Res B) (l : list A) : Res (list B) :=
  match l with
  | [] => Ok []
  | x :: rest =>
    res_bind (body x) (fun y =>
    res_bind (for_each body rest) (fun ys => Ok (y :: ys)))
  end.

(** ** [SelectCommand.execute] *)

(** ["%s %s" % (column, op)] *)
Definition filter_key (column op : string) : string := column +:+ " " +:+ op.

(** [_meta.get_parent_list()]: every ancestor, parents first. *)
Fixpoint get_parent_list (m : Model) : list Model :=
  match m with
  | mkModel _ _ _ _ ps _ _ _ =>
    (fix ancestors (l : list Model) : list Model :=
       match l with
       | [] => []
       | p :: l' => p :: get_parent_list p ++ ancestors l'
       end) ps
  end.

Definition concrete_parents (m : Model) : list Model :=
  filter (fun x => abstract x = false) (parents m).

Definition is_empty {A} (l : list A) : bool :=
  match l with [] => true | _ => false end.

(** The last ancestor without parents, when there is a concrete parent. *)
Definition inheritance_root (m : Model) : Model :=
  if is_empty (concrete_parents m) then m
  else fold_left (fun root parent => if is_empty (parents parent) then parent else root)
                 (get_parent_list m) m.

(** The query [execute] starts from, with the class filter. *)
Definition base_query (sdk : Sdk) (self : SelectCommand) : Res datastore_Query :=
  let query := datastore_Query_new (db_table (inheritance_root (model self)))
                                   (projection self) in
  if negb (is_empty (concrete_parents (model self))) && negb (proxy (model self))
  then set_filter sdk "class =" (Scalar (PyStr (db_table (model self)))) query
  else Ok query.

Definition newline : string := String "010"%char EmptyString.
Definition tab : string := String "009"%char EmptyString.

Definition missing_index_message (m : Model) (column op : string) : string :=
  "There is a missing index in your djangaeidx.yaml - " +:+ newline +:+ newline
  +:+ model_str m +:+ ":" +:+ newline +:+ tab +:+ column +:+ ": [" +:+ op +:+ "]".

Definition MissingSpecialIndex (m : Model) (column op : string) : Exception :=
  RuntimeError (missing_index_message m column op).

(** The body of [for column, op, value in self.where]: the query, the
    combined filters and the registry before and after one predicate. *)
Definition where_step (sdk : Sdk) (ix : Indexing) (self : SelectCommand)
    (query : datastore_Query) (combined_filters : list Filter) (reg : Registry)
    (f : Filter) : Res (datastore_Query * list Filter) * Registry :=
  let '(column0, op, value) := f in
  let column := if String.eqb column0 (pk_col self) then "__key__" else column0 in
  let put key value :=
    res_bind (set_filter sdk key value query)
             (fun query => Ok (query, combined_filters)) in
  match dict_get OPERATORS_MAP op with
  | None =>
    match special_indexer (REQUIRES_SPECIAL_INDEXES ix) op with
    | Some indexer =>
      let reg := add_special_index ix reg (model self) column op in
      if negb (str_in op (special_indexes_for_column reg (model self) column)) then
        (Raise (MissingSpecialIndex (model self) column op), reg)
      else
        let column := indexed_column_name indexer column in
        let value := prep_value_for_query indexer value in
        (put (column +:+ " =") value, reg)
    | None =>
      if String.eqb op "in" then
        (Ok (query, combined_filters ++ [(column, op, value)]), reg)
      else if String.eqb op "gt_and_lt" then
        (Ok (query, combined_filters ++ [(column, op, value)]), reg)
      else if String.eqb op "isnull" then
        (put (column +:+ " =") (Scalar PyNone), reg)
      else
        (Raise (NotImplementedError ("Unimplemented operator " +:+ op)), reg)
    end
  | Some final_op => (put (filter_key column final_op) value, reg)
  end.

Fixpoint where_loop (sdk : Sdk) (ix : Indexing) (self : SelectCommand)
    (query : datastore_Query) (combined_filters : list Filter) (reg : Registry)
    (w : list Filter) : Res (datastore_Query * list Filter) * Registry :=
  match w with
  | [] => (Ok (query, combined_filters), reg)
  | f :: rest =>
    match where_step sdk ix self query combined_filters reg f with
    | (Ok (query', combined_filters'), reg') =>
      where_loop sdk ix self query' combined_filters' reg' rest
    | (Raise e, reg') => (Raise e, reg')
    end
  end.

(** [order.lstrip("-")] *)
Fixpoint lstrip_dash (s : string) : string :=
  match s with
  | String "-"%char s' => lstrip_dash s'
  | _ => s
  end.

Definition startswith_dash (s : string) : bool :=
  match s with
  | String "-"%char _ => true
  | _ => false
  end.

Definition order_entry (self : SelectCommand) (order : string) : string * Direction :=
  let direction := if startswith_dash order then DESCENDING else ASCENDING in
  let order := lstrip_dash order in
  let order := if String.eqb order (column (pk (model self))) then "__key__" else order in
  (order, direction).

Definition compiled_ordering (self : SelectCommand) : list (string * Direction) :=
  map (order_entry self) (ordering self).

(** [new_query = datastore.Query(self.model._meta.db_table)] followed by
    [new_query.update(query)], which copies the filters of [query]. *)
Definition new_query_from (sdk : Sdk) (self : SelectCommand) (query : datastore_Query)
  : Res datastore_Query :=
  update sdk query (datastore_Query_new (db_table (model self)) None).

(** The three lines that make one member:
    [new_query = datastore.Query(...)], [new_query.update(query)] and
    [new_query[key] = value]. *)
Definition new_member (sdk : Sdk) (self : SelectCommand) (query : datastore_Query)
    (key : string) (value : Value) : Res datastore_Query :=
  res_bind (new_query_from sdk self query) (set_filter sdk key value).

(** [for val in value]: a list or tuple gives its elements, a string its
    characters, anything else is not iterable. *)
Definition iter_value (v : Value) : Res (list scalar) :=
  match v with
  | Seq l => Ok l
  | Scalar (PyStr s) =>
    Ok (map (fun c => PyStr (String c EmptyString)) (list_ascii_of_string s))
  | Scalar _ => Raise (TypeError "object is not iterable")
  end.

(** The body of [for query in queries] for one combined filter. *)
Definition expand_query (sdk : Sdk) (self : SelectCommand) (f : Filter)
    (query : datastore_Query) : Res (list datastore_Query) :=
  let '(column, op, value) := f in
  if String.eqb op "in" then
    res_bind (iter_value value) (fun vals =>
      for_each (fun val => new_member sdk self query (column +:+ " =") (Scalar val))
               vals)
  else if String.eqb op "gt_and_lt" then
    for_each (fun tmp_op => new_member sdk self query (filter_key column tmp_op) value)
             ["<"; ">"]
  else Ok [].

Fixpoint expand_queries (sdk : Sdk) (self : SelectCommand) (f : Filter)
    (queries : list datastore_Query) : Res (list datastore_Query) :=
  match queries with
  | [] => Ok []
  | query :: rest =>
    res_bind (expand_query sdk self f query) (fun new_queries =>
    res_bind (expand_queries sdk self f rest) (fun more =>
      Ok (new_queries ++ more)))
  end.

(** [for column, op, value in combined_filters] *)
Fixpoint expand_all (sdk : Sdk) (self : SelectCommand) (combined_filters : list Filter)
    (queries : list datastore_Query) : Res (list datastore_Query) :=
  match combined_filters with
  | [] => Ok queries
  | f :: rest =>
    res_bind (expand_queries sdk self f queries) (fun new_queries =>
      expand_all sdk self rest new_queries)
  end.

(** Lines 182 to 267 of [execute]: the query, single or multiple, that is
    stored in [self.query]. *)
Definition compile_query (sdk : Sdk) (ix : Indexing) (reg : Registry)
    (self : SelectCommand) : Res CompiledQuery * Registry :=
  match base_query sdk self with
  | Raise e => (Raise e, reg)
  | Ok query =>
    match where_loop sdk ix self query [] reg (where_ self) with
    | (Raise e, reg') => (Raise e, reg')
    | (Ok (query, combined_filters), reg') =>
      let ordering := compiled_ordering self in
      match combined_filters with
      | [] => (res_bind (Order sdk ordering query) (fun query => Ok (Query query)), reg')
      | _ =>
        (res_bind (expand_all sdk self combined_filters [query])
                  (fun queries => datastore_MultiQuery sdk queries ordering), reg')
      end
    end
  end.

(** ** [_run_query] and [_do_fetch] *)

Definition _run_query (b : Backend) (self : SelectCommand) (q : CompiledQuery)
    (aggregate_type_arg : option string) : Res Results * list Event :=
  match aggregate_type_arg with
  | None => (Ok (Entities (Run b q)), [StoreRun q])
  | Some _ =>
    if bool_decide (aggregate_type self = Some "count")
    then (Ok (Count (Count_ b q)), [StoreCount q])
    else (Raise (RuntimeError "Unsupported query type"), [])
  end.

(** [lookup = { x[0]:x[2] for x in exact_filters }] *)
Definition exact_lookup (filters : list Filter) : gmap string Value :=
  fold_left (fun (m : gmap string Value) (x : Filter) =>
               if String.eqb (snd (fst x)) "=" then <[fst (fst x) := snd x]> m else m)
            filters ∅.

(** The inner loop over the fields of one combination: [Some] is the
    [else] of the [for], [None] its [break]. *)
Fixpoint collect_key (lookup : gmap string Value) (fields : list string)
    (final_key : list (string * Value)) : option (list (string * Value)) :=
  match fields with
  | [] => Some final_key
  | f :: rest =>
    match lookup !! f with
    | Some v => collect_key lookup rest (final_key ++ [(f, v)])
    | None => None
    end
  end.

(** [for fields in unique_combinations]: every full match asks the cache. *)
Fixpoint unique_loop (b : Backend) (m : Model) (lookup : gmap string Value)
    (unique_combinations : list (list string)) (entity_from_cache : option Entity)
  : option Entity * list Event :=
  match unique_combinations with
  | [] => (entity_from_cache, [])
  | fields :: rest =>
    match collect_key lookup fields [] with
    | Some final_key =>
      let unique_key := generate_unique_key b m final_key in
      let '(e, t) := unique_loop b m lookup rest (get_entity_from_cache b unique_key) in
      (e, CacheGet unique_key :: t)
    | None => unique_loop b m lookup rest entity_from_cache
    end
  end.

Definition res_map_self {A} (r : Res A) (f : A -> SelectCommand) : Res SelectCommand :=
  match r with Ok a => Ok (f a) | Raise e => Raise e end.

(** The truth value of [self.results]: [None], an empty list and [0] are false. *)
Definition truthy (r : option Results) : bool :=
  match r with
  | None => false
  | Some (Entities []) => false
  | Some (Entities (_ :: _)) => true
  | Some (Count n) => negb (Z.eqb n 0)
  end.

Definition _do_fetch (b : Backend) (self : SelectCommand)
  : Res SelectCommand * list Event :=
  if truthy (results self) then (Raise AssertionError, [])
  else
    match query self with
    | None => (Raise (AttributeError "query"), [])
    | Some (MultiQuery qs o) =>
      let '(r, t) := _run_query b self (MultiQuery qs o) (aggregate_type self) in
      (res_map_self r (fun x => set_query_done true (set_results (Some x) self)), t)
    | Some (Query q) =>
      let '(entity_from_cache, t) :=
        if negb (is_empty (all_filters self)) then
          unique_loop b (model self) (exact_lookup (all_filters self))
                      (get_uniques_from_model b (model self)) None
        else (None, []) in
      match entity_from_cache with
      | None =>
        let '(r, t') := _run_query b self (Query q) (aggregate_type self) in
        (res_map_self r (fun x => set_results (Some x) self), t ++ t')
      | Some e => (Ok (set_results (Some (Entities [e])) self), t)
      end
    end.

(** [execute]: the object after the call and the datastore and cache
    requests made, or the exception; the registry is threaded through. *)
Definition execute (sdk : Sdk) (ix : Indexing) (b : Backend) (reg : Registry)
    (self : SelectCommand) : Res SelectCommand * list Event * Registry :=
  if query_can_never_return_results self then
    (Ok (set_results (Some (Entities [])) self), [], reg)
  else
    match compile_query sdk ix reg self with
    | (Raise e, reg') => (Raise e, [], reg')
    | (Ok q, reg') =>
      let self := set_query (Some q) self in
      let self := set_results None self in
      let self := set_query_done false self in
      let self := set_aggregate_type
                    (if is_empty (is_count self) then None else Some "count") self in
      let '(r, t) := _do_fetch b self in
      (r, t, reg')
    end.

(** ** The leaves of a where tree

    Every leaf with the negation flag under which the walk reaches it, and
    trees built from plain leaves. *)

Definition TaggedLeaf : Type := bool * Constraint * string * Value.

Fixpoint tagged_leaves (w : WhereNode) (negated : bool) {struct w} : list TaggedLeaf :=
  match w with
  | mkWhere _ w_negated children =>
    let negated := if w_negated then negb negated else negated in
    (fix of_children (cs : list Child) : list TaggedLeaf :=
       match cs with
       | [] => []
       | child :: rest => child_leaves child negated ++ of_children rest
       end) children
  end
with child_leaves (child : Child) (negated : bool) {struct child} : list TaggedLeaf :=
  match child with
  | Leaf constraint op value => [(negated, constraint, op, value)]
  | Sub node => tagged_leaves node negated
  end.

Fixpoint children_leaves (cs : list Child) (negated : bool) : list TaggedLeaf :=
  match cs with
  | [] => []
  | child :: rest => child_leaves child negated ++ children_leaves rest negated
  end.

(** The flag a node hands to its children. *)
Definition flip (w_negated negated : bool) : bool :=
  if w_negated then negb negated else negated.

(** The walk from [s] to [s'] ran the step of leaf [t] with success, at a
    point related to both ends by [R]. *)
Definition visited (R : SelectCommand -> SelectCommand -> Prop)
    (s s' : SelectCommand) (t : TaggedLeaf) : Prop :=
  let '(n, k, op, v) := t in
  exists s1 r1 s2,
    R s s1 /\ parse_leaf k op v n s1 = (Ok r1, s2) /\ R s2 s'.

Definition leaf_of (t : Constraint * string * Value) : Child :=
  let '(k, op, v) := t in Leaf k op v.

(** An equality predicate, as a leaf to be. *)
Definition equality (p : Constraint * Value) : Constraint * string * Value :=
  (fst p, "exact", snd p).

(** The predicate a plain leaf is normalized into. *)
Definition normalized (conn : Connection) (m : Model) (t : Constraint * string * Value)
  : Filter :=
  let '(k, op, v) := t in (col k, op, prep_value conn m (field k) v).

(** An equality pair after [prep_lookup_value]: its column and its value. *)
Definition normalized_equality (conn : Connection) (m : Model) (p : Constraint * Value)
  : string * Value :=
  (col (fst p), prep_value conn m (field (fst p)) (snd p)).

(** The condition under which a node is walked: it is under negation or
    its connector is [AND]. *)
Definition walked (connector : Connector) (w_negated negated : bool) : Prop :=
  negb (flip w_negated negated) && negb (Connector_eqb connector AND) = false.

(** [arrives w negated s k op v n s1]: the walk of [w] that starts from [s]
    with flag [negated] comes to the leaf [(k, op, v)] with flag [n] and the
    object [s1], every child before the leaf having been normalized. *)
Inductive arrives :
  WhereNode -> bool -> SelectCommand ->
  Constraint -> string -> Value -> bool -> SelectCommand -> Prop :=
| arrives_at_child connector w_negated negated pre post s r k op v :
    walked connector w_negated negated ->
    fst (parse_children pre (flip w_negated negated) s) = Ok r ->
    arrives (mkWhere connector w_negated (pre ++ Leaf k op v :: post)) negated s
            k op v (flip w_negated negated)
            (snd (parse_children pre (flip w_negated negated) s))
| arrives_below connector w_negated negated pre post s r node k op v n s1 :
    walked connector w_negated negated ->
    fst (parse_children pre (flip w_negated negated) s) = Ok r ->
    arrives node (flip w_negated negated)
            (snd (parse_children pre (flip w_negated negated) s)) k op v n s1 ->
    arrives (mkWhere connector w_negated (pre ++ Sub node :: post)) negated s
            k op v n s1.

(** ** Projection feasibility, as the specification words it *)

(** The candidate columns: the queried fields without the primary key, and
    none when all fields are asked for. *)
Definition projection_candidates (q : DjangoQuery) (keys_only_arg all_fields : bool)
  : list string :=
  List.filter (fun c => negb (String.eqb c (column (pk (q_model q)))))
              (projection_input q keys_only_arg all_fields).

(** The column has a field whose store type is [bytes] or [text]. *)
Definition unindexed (m : Model) (c : string) : bool :=
  match get_field_from_column m c with
  | Some f => str_in (db_type f) ["bytes"; "text"]
  | None => false
  end.

Definition equality_op (op : string) : bool := str_in op ["exact"; "in"; "isnull"].

(** The leaf is an [exact], [in] or [isnull] on column [c]. *)
Definition equality_on (c : string) (t : TaggedLeaf) : bool :=
  let '(_, k, op, _) := t in String.eqb (col k) c && equality_op op.

(** Some leaf of the tree, negated or not, is an equality filter on [c]. *)
Definition filters_by_equality (w : WhereNode) (c : string) : bool :=
  existsb (equality_on c) (tagged_leaves w false).

(** What one leaf does to the projection. *)
Definition drop_on (p : option (gset string)) (t : TaggedLeaf) : option (gset string) :=
  let '(_, k, op, _) := t in
  if in_projection p (col k) && equality_op op then None else p.

(** The conditions under which [__init__] leaves no projection before the
    where tree is walked: no candidate, a [bytes] or [text] candidate, or a
    model with parents. *)
Definition projection_blocked (q : DjangoQuery) (keys_only_arg all_fields : bool)
  : bool :=
  let cands := projection_candidates q keys_only_arg all_fields in
  is_empty cands || existsb (unindexed (q_model q)) cands
  || negb (is_empty (parents (q_model q))).

(** The tree without the leaves that filter a column of [cands] by equality. *)
Fixpoint without_equality_on (cands : list string) (w : WhereNode) {struct w}
  : WhereNode :=
  match w with
  | mkWhere connector w_negated children =>
    mkWhere connector w_negated
      ((fix of_children (cs : list Child) : list Child :=
          match cs with
          | [] => []
          | child :: rest => child_without_equality_on cands child ++ of_children rest
          end) children)
  end
with child_without_equality_on (cands : list string) (child : Child) {struct child}
  : list Child :=
  match child with
  | Leaf k op v => if str_in (col k) cands && equality_op op then [] else [Leaf k op v]
  | Sub node => [Sub (without_equality_on cands node)]
  end.

Definition set_q_where (w : WhereNode) (q : DjangoQuery) : DjangoQuery :=
  {| q_model := q_model q; default_ordering := default_ordering q;
     order_by := order_by q; select := select q; aggregates := aggregates q;
     extra_select := extra_select q; q_where := w |}.

(** Two objects that the walk treats alike: the second has recorded an
    inequality only if the first has. *)
Definition at_least_as_free (s t : SelectCommand) : Prop :=
  connection t = connection s /\ model t = model s /\
  (has_inequality_filter t = true -> has_inequality_filter s = true).

(** ** What a datastore query selects

    The datastore is not part of the translated file.  What it stores is
    read here as rows: an entity of a kind, under a key.  A query selects
    the rows of its kind that satisfy every filter of it; a filter
    ["col op" = v] holds of a row that has a value for [col] which compares
    with [v] as [op] says, [__key__] being the key of the row; values are
    ordered by type first ([None], then integers, then strings). *)

Record Row := {
  row_kind : string;
  row_key : scalar;
  row_entity : Entity
}.

Definition type_rank (x : scalar) : Z :=
  match x with PyNone => 0 | PyInt _ => 1 | PyStr _ => 2 end.

Definition scalar_lt (x y : scalar) : bool :=
  match x, y with
  | PyInt a, PyInt b => Z.ltb a b
  | PyStr a, PyStr b => match String.compare a b with Lt => true | _ => false end
  | _, _ => Z.ltb (type_rank x) (type_rank y)
  end.

Definition compare_with (op : string) (x y : scalar) : bool :=
  if String.eqb op "=" then bool_decide (x = y)
  else if String.eqb op "<" then scalar_lt x y
  else if String.eqb op ">" then scalar_lt y x
  else if String.eqb op "<=" then negb (scalar_lt y x)
  else if String.eqb op ">=" then negb (scalar_lt x y)
  else false.

(** The value a filter on [column] is compared with. *)
Definition row_value (r : Row) (column : string) : option scalar :=
  if String.eqb column "__key__" then Some (row_key r) else row_entity r !! column.

Definition holds (r : Row) (column op : string) (v : Value) : bool :=
  match row_value r column, v with
  | Some x, Scalar y => compare_with op x y
  | _, _ => false
  end.

Definition store_ops : list string := ["="; "<"; ">"; "<="; ">="].

Definition satisfies (r : Row) (fs : gmap string Value) : Prop :=
  forall column op v,
    In op store_ops -> fs !! filter_key column op = Some v -> holds r column op v = true.

Definition selects (q : datastore_Query) (r : Row) : Prop :=
  row_kind r = kind q /\ satisfies r (filters q).



(** ** Notions used by the properties *)

(** The column name [execute] works with: [__key__] for the primary key. *)
Definition datastore_column (self : SelectCommand) (c : string) : string :=
  if String.eqb c (pk_col self) then "__key__" else c.

(** The query after the equality predicates [eqs] were put on [q]. *)
Definition with_equalities (self : SelectCommand) (eqs : list (string * Value))
    (q : datastore_Query) : datastore_Query :=
  fold_left (fun q p => dict_setitem (filter_key (datastore_column self (fst p)) "=")
                                     (snd p) q) eqs q.

(** A leaf outside negation, with its flag. *)
Definition plain (t : Constraint * string * Value) : TaggedLeaf :=
  let '(k, op, v) := t in (false, k, op, v).

(** The copy of [query] on the model's own table that every member of an
    expansion starts from, and the member with one more filter. *)
Definition own_table_copy (self : SelectCommand) (query : datastore_Query)
  : datastore_Query :=
  {| kind := db_table (model self); ds_projection := None;
     filters := filters query; orderings := [] |}.

Definition member (self : SelectCommand) (query : datastore_Query)
    (key : string) (value : Value) : datastore_Query :=
  {| kind := db_table (model self); ds_projection := None;
     filters := <[key := value]> (filters query); orderings := [] |}.

(** What an expansion returns: a member of [query] for every alternative
    of the combined filter. *)
Definition members_of (self : SelectCommand) (f : Filter) (query : datastore_Query)
  : list datastore_Query :=
  let '(column, op, value) := f in
  if String.eqb op "in" then
    match iter_value value with
    | Ok vals => map (fun val => member self query (column +:+ " =") (Scalar val)) vals
    | Raise _ => []
    end
  else if String.eqb op "gt_and_lt" then
    [member self query (filter_key column "<") value;
     member self query (filter_key column ">") value]
  else [].

(** The library accepts the two calls that make the member: the copy of
    the filters of [query] onto a new query on the own table, and the
    filter put on the copy. *)
Definition accepts_member (sdk : Sdk) (self : SelectCommand) (query : datastore_Query)
    (key : string) (value : Value) : Prop :=
  check_update sdk (datastore_Query_new (db_table (model self)) None) query = None
  /\ check_filter sdk (own_table_copy self query) key value = None.

(** The store request of a single query: a fetch, or a count for an aggregate. *)
Definition store_call (self : SelectCommand) (q : CompiledQuery) : Event :=
  if is_empty (is_count self) then StoreRun q else StoreCount q.

Definition on_own_table (self : SelectCommand) (q : datastore_Query) : Prop :=
  kind q = db_table (model self).


(** What a leaf leaves unchanged. *)
Definition same_frame (s s' : SelectCommand) : Prop :=
  connection s' = connection s /\ model s' = model s /\ pk_col s' = pk_col s /\
  all_filters s' = all_filters s /\ results s' = results s /\
  query s' = query s /\ ordering s' = ordering s /\ is_count s' = is_count s.

(** The frame is kept and the always-empty flag is never reset. *)
Definition keeps (s s' : SelectCommand) : Prop :=
  same_frame s s' /\
  (query_can_never_return_results s = true ->
   query_can_never_return_results s' = true).

(** ** Example data

    A model [User(id pk, email unique, name, status, priority, bio text)],
    a connection whose [prep_lookup_value] is the identity, a registry
    with one special operator, a datastore that holds nothing, and the
    queries the examples run. *)

Definition f_id : Field :=
  {| column := "id"; primary_key := true; db_type := "integer" |}.
Definition f_email : Field :=
  {| column := "email"; primary_key := false; db_type := "string" |}.
Definition f_name : Field :=
  {| column := "name"; primary_key := false; db_type := "string" |}.
Definition f_status : Field :=
  {| column := "status"; primary_key := false; db_type := "string" |}.
Definition f_priority : Field :=
  {| column := "priority"; primary_key := false; db_type := "integer" |}.
Definition f_bio : Field :=
  {| column := "bio"; primary_key := false; db_type := "text" |}.

Definition User : Model :=
  mkModel "User" "app_user" false false []
          [f_id; f_email; f_name; f_status; f_priority; f_bio] f_id [].

(** A concrete parent and its child, stored in their own tables. *)
Definition Person : Model :=
  mkModel "Person" "app_person" false false [] [f_id; f_name] f_id [].

Definition Employee : Model :=
  mkModel "Employee" "app_employee" false false [Person]
          [f_id; f_name; f_status] f_id [].

Definition on (f : Field) : Constraint := {| col := column f; field := f |}.

Definition plain_connection : Connection :=
  {| prep_lookup_value := fun _ x _ => x |}.

Definition iexact_indexer : Indexer :=
  {| indexed_column_name := fun c => "_idx_iexact_" +:+ c;
     prep_value_for_query := fun v => v |}.

(** An installation where [add_special_index] cannot add anything. *)
Definition static_indexing : Indexing :=
  {| REQUIRES_SPECIAL_INDEXES := [("iexact", iexact_indexer)];
     add_special_index := fun reg _ _ _ => reg |}.

Definition no_indexes : Registry := fun _ _ => [].

(** A library with the checks the datastore is known for: it refuses an
    integer outside 64 bits, an inequality filter on a second property, a
    first sort order that is not on the property of the inequality
    filters, and more than thirty queries in a multi-query. *)
Fixpoint key_property (key : string) : string :=
  match key with
  | EmptyString => EmptyString
  | String c rest =>
    if Ascii.eqb c " "%char then EmptyString else String c (key_property rest)
  end.

Fixpoint key_operator (key : string) : string :=
  match key with
  | EmptyString => EmptyString
  | String c rest => if Ascii.eqb c " "%char then rest else key_operator rest
  end.

Definition inequality_key (key : string) : bool :=
  str_in (key_operator key) ["<"; ">"; "<="; ">="].

Definition inequality_properties (fs : gmap string Value) : list string :=
  map key_property (List.filter inequality_key (map fst (map_to_list fs))).

Definition fits_int64 (x : scalar) : bool :=
  match x with
  | PyInt z => Z.leb (- 2 ^ 63) z && Z.ltb z (2 ^ 63)
  | _ => true
  end.

Definition storable (v : Value) : bool :=
  match v with
  | Scalar x => fits_int64 x
  | Seq xs => forallb fits_int64 xs
  end.

Definition other_than (p : string) (l : list string) : bool :=
  existsb (fun p' => negb (String.eqb p' p)) l.

Definition checking_library : Sdk :=
  {| check_filter := fun q key value =>
       if negb (storable value) then Some (LibraryError "OverflowError")
       else if inequality_key key
               && other_than (key_property key) (inequality_properties (filters q))
       then Some (LibraryError "BadFilterError")
       else None;
     check_update := fun q other =>
       match inequality_properties (filters other) ++ inequality_properties (filters q)
       with
       | [] => None
       | p :: l => if other_than p l then Some (LibraryError "BadFilterError") else None
       end;
     check_order := fun q o =>
       match o, inequality_properties (filters q) with
       | (p, _) :: _, ip :: _ =>
         if String.eqb p ip then None else Some (LibraryError "BadArgumentError")
       | _, _ => None
       end;
     check_multi := fun qs _ =>
       if Nat.ltb 30 (List.length qs) then Some (LibraryError "BadArgumentError")
       else None |}.

Definition name_iexact_index : Registry :=
  fun _ c => if String.eqb c "name" then ["iexact"] else [].

Definition cached_user : Entity :=
  {[ "email" := PyStr "a@b.com"; "name" := PyStr "Ann" ]}.

(** A datastore without entities and a cache that answers every key with
    [cached_user]; [email] is the one unique combination. *)
Definition warm_backend : Backend :=
  {| Run := fun _ => [];
     Count_ := fun _ => 0%Z;
     get_uniques_from_model := fun _ => [["email"]];
     generate_unique_key := fun m key => model_str m +:+ "|email";
     get_entity_from_cache := fun _ => Some cached_user |}.

(** [Model.objects.filter(...)] selecting [columns], with children [cs]
    under one [AND] node. *)
Definition select_where (columns : list string) (cs : list Child) : DjangoQuery :=
  {| q_model := User; default_ordering := true; order_by := [];
     select := map (SelInfo "app_user") columns;
     aggregates := []; extra_select := [];
     q_where := mkWhere AND false cs |}.

(** [.exclude(...)]: a negated [AND] node. *)
Definition exclude (cs : list Child) : Child := Sub (mkWhere AND true cs).

(** [filter(email="a@b.com")] on [User], selecting [name]; the single
    datastore query it compiles to. *)
Definition email_query : DjangoQuery :=
  select_where ["name"] [Leaf (on f_email) "exact" (Scalar (PyStr "a@b.com"))].

Definition email_datastore_query : datastore_Query :=
  {| kind := "app_user"; ds_projection := Some {[ "name" ]};
     filters := {[ "email =" := Scalar (PyStr "a@b.com") ]}; orderings := [] |}.

(** An object as [execute] hands it to [_do_fetch], but with the equality
    filter recorded in [all_filters], which the source never does. *)
Definition with_recorded_filters (fs : list Filter) (self : SelectCommand)
  : SelectCommand :=
  {| ordering := ordering self; queried_fields := queried_fields self;
     connection := connection self; pk_col := pk_col self;
     model := model self; is_count := is_count self;
     keys_only := keys_only self; included_pks := included_pks self;
     excluded_pks := excluded_pks self;
     has_inequality_filter := has_inequality_filter self;
     all_filters := fs; results := results self;
     query_can_never_return_results := query_can_never_return_results self;
     cmd_extra_select := cmd_extra_select self;
     projection := projection self; where_ := where_ self;
     query := query self; query_done := query_done self;
     aggregate_type := aggregate_type self |}.

(** [Employee.objects.filter(status__in=["open", "pending"])] *)
Definition employee_query : DjangoQuery :=
  {| q_model := Employee; default_ordering := true; order_by := [];
     select := []; aggregates := []; extra_select := [];
     q_where := mkWhere AND false
                  [Leaf (on f_status) "in" (Seq [PyStr "open"; PyStr "pending"])] |}.


(** [filter(priority__gt=3)] selecting only the primary key, and a query
    selecting two columns, filtered by equality on one of them. *)
Definition pk_only_query : DjangoQuery :=
  select_where ["id"] [Leaf (on f_priority) "gt" (Scalar (PyInt 3))].

Definition name_email_query : DjangoQuery :=
  select_where ["name"; "email"; "name"]
    [Leaf (on f_priority) "gt" (Scalar (PyInt 3));
     Leaf (on f_name) "exact" (Scalar (PyStr "Ann"))].

(** [filter(status__in=["open", "pending"]).exclude(priority=3)] *)
Definition in_and_exclude_query : DjangoQuery :=
  select_where ["name"]
    [Leaf (on f_status) "in" (Seq [PyStr "open"; PyStr "pending"]);
     exclude [Leaf (on f_priority) "exact" (Scalar (PyInt 3))]].


(** [filter(id=None, status__in=["open", "pending"])] and
    [filter(name="Ann", status__in=["open", "pending"], priority=3)] *)
Definition null_pk_in_query : DjangoQuery :=
  select_where ["name"]
    [Leaf (on f_id) "exact" (Scalar PyNone);
     Leaf (on f_status) "in" (Seq [PyStr "open"; PyStr "pending"])].

Definition name_status_priority_query : DjangoQuery :=
  select_where ["email"]
    (map leaf_of
       (map equality [(on f_name, Scalar (PyStr "Ann"))]
        ++ (on f_status, "in", Seq [PyStr "open"; PyStr "pending"])
        :: map equality [(on f_priority, Scalar (PyInt 3))])).

(** [filter(name="Ann").filter(Q(status__in=["open", "pending"]) & Q(priority=3))]:
    the same leaves, under nested [AND] nodes. *)
Definition nested_conjunction_query : DjangoQuery :=
  select_where ["email"]
    [Leaf (on f_name) "exact" (Scalar (PyStr "Ann"));
     Sub (mkWhere AND false
            [Leaf (on f_status) "in" (Seq [PyStr "open"; PyStr "pending"]);
             Sub (mkWhere AND false
                    [Leaf (on f_priority) "exact" (Scalar (PyInt 3))])])].

(** [filter(priority__gt=3).exclude(status="open")]: inequality filters on
    two properties. *)
Definition range_and_exclude_query : DjangoQuery :=
  select_where ["name"]
    [Leaf (on f_priority) "gt" (Scalar (PyInt 3));
     exclude [Leaf (on f_status) "exact" (Scalar (PyStr "open"))]].

(** [filter(status__in=["open", 2 ** 64])]: a value the datastore cannot
    store. *)
Definition overflow_in_query : DjangoQuery :=
  select_where ["name"]
    [Leaf (on f_status) "in" (Seq [PyStr "open"; PyInt (2 ^ 64)])].

(** The where tree of [filter(name="Ann").exclude(pk__in=[1, 2])]. *)
Definition exclude_pks_where : WhereNode :=
  mkWhere AND false
    ([Leaf (on f_name) "exact" (Scalar (PyStr "Ann"))]
     ++ Sub (mkWhere AND true
               ([Leaf (on f_id) "exact" (Scalar (PyInt 7))]
                ++ Leaf (on f_id) "in" (Seq [PyInt 1; PyInt 2]) :: []))
     :: []).

(** [filter(priority__lt=3).exclude(priority=5)] and
    [filter(status="closed", status__in=["open", "pending"])]: two
    predicates of each query end on the same filter key. *)
Definition range_and_exclude_same_column_query : DjangoQuery :=
  select_where ["name"]
    [Leaf (on f_priority) "lt" (Scalar (PyInt 3));
     exclude [Leaf (on f_priority) "exact" (Scalar (PyInt 5))]].

Definition equality_and_in_same_column_query : DjangoQuery :=
  select_where ["name"]
    [Leaf (on f_status) "exact" (Scalar (PyStr "closed"));
     Leaf (on f_status) "in" (Seq [PyStr "open"; PyStr "pending"])].

(** ** Normalization, leaf by leaf

    The walk as a loop over the leaves in the order it meets them, and what
    each leaf contributes to the attributes of the object. *)

Fixpoint run_leaves (ts : list TaggedLeaf) : Cmd (list Filter) :=
  match ts with
  | [] => ret []
  | (n, k, op, v) :: rest =>
    r <- parse_leaf k op v n ;;
    rs <- run_leaves rest ;;
    ret (r ++ rs)
  end.

(** The predicate of a leaf: the open range for a leaf under negation. *)
Definition normalized_leaf (conn : Connection) (m : Model) (t : TaggedLeaf) : Filter :=
  let '(n, k, op, v) := t in
  (col k, if n : bool then "gt_and_lt" else op, prep_value conn m (field k) v).

Definition is_negated (t : TaggedLeaf) : bool := fst (fst (fst t)).

(** A plain leaf on the primary key that can never match: [exact] with a
    null value, or [isnull]. *)
Definition null_pk_leaf (conn : Connection) (m : Model) (t : TaggedLeaf) : bool :=
  let '(n, k, op, v) := t in
  negb n && primary_key (field k)
  && ((is_None (prep_value conn m (field k) v) && String.eqb op "exact")
      || String.eqb op "isnull").

(** What a leaf adds to [included_pks] and to [excluded_pks]. *)
Definition included_of (conn : Connection) (m : Model) (t : TaggedLeaf) : list scalar :=
  let '(n, k, op, v) := t in
  if negb n && primary_key (field k) && negb (null_pk_leaf conn m t)
     && str_in op ["exact"; "in"]
  then pk_values (prep_value conn m (field k) v) else [].

Definition excluded_of (conn : Connection) (m : Model) (t : TaggedLeaf) : list Value :=
  let '(n, k, op, v) := t in
  if n && str_in op ["exact"; "in"] && primary_key (field k)
  then [prep_value conn m (field k) v] else [].

(** [filter(id__in=[1, 2], id=5, name__gt="a").exclude(id=9)] on [User] *)
Definition key_sets_query : DjangoQuery :=
  select_where ["name"]
    [Leaf (on f_id) "in" (Seq [PyInt 1; PyInt 2]);
     Leaf (on f_id) "exact" (Scalar (PyInt 5));
     Leaf (on f_name) "gt" (Scalar (PyStr "a"));
     exclude [Leaf (on f_id) "exact" (Scalar (PyInt 9))]].

(** Every node of a where tree with the flag it hands to its children. *)
Fixpoint tagged_nodes (w : WhereNode) (negated : bool) {struct w}
  : list (bool * Connector) :=
  match w with
  | mkWhere connector w_negated children =>
    (flip w_negated negated, connector)
    :: (fix of_children (cs : list Child) : list (bool * Connector) :=
          match cs with
          | [] => []
          | child :: rest => child_nodes child (flip w_negated negated) ++ of_children rest
          end) children
  end
with child_nodes (child : Child) (negated : bool) {struct child}
  : list (bool * Connector) :=
  match child with
  | Leaf _ _ _ => []
  | Sub node => tagged_nodes node negated
  end.

(** [self.queried_fields] once the first occurrence of the primary key is
    replaced by [__key__]. *)
Fixpoint replace_first (x y : string) (l : list string) : list string :=
  match l with
  | [] => []
  | z :: l' => if String.eqb z x then y :: l' else z :: replace_first x y l'
  end.

(** [filter(name="Ann") | ...]: an [OR] node outside negation, after a leaf. *)
Definition or_query : DjangoQuery :=
  {| q_model := User; default_ordering := true; order_by := [];
     select := []; aggregates := []; extra_select := [];
     q_where := mkWhere AND false
                  [Leaf (on f_id) "exact" (Scalar (PyInt 5));
                   Sub (mkWhere OR false
                          [Leaf (on f_name) "exact" (Scalar (PyStr "Ann"))])] |}.

(** [exclude(Q(name="Ann") | ...)] with one alternative: [OR] under negation. *)
Definition negated_or_query : DjangoQuery :=
  select_where ["email"]
    [Sub (mkWhere OR true [Leaf (on f_name) "exact" (Scalar (PyStr "Ann"))])].

(** ** Compilation, predicate by predicate *)

(** The operator has a datastore operator in [OPERATORS_MAP]. *)
Definition native_predicate (f : Filter) : bool :=
  match dict_get OPERATORS_MAP (snd (fst f)) with
  | Some _ => true
  | None => false
  end.

(** The number of alternatives of a combined filter: the values of an
    [in], the two sides of an open range. *)
Definition alternatives (f : Filter) : nat :=
  let '(_, op, value) := f in
  if String.eqb op "in" then
    match iter_value value with
    | Ok vals => List.length vals
    | Raise _ => 0
    end
  else if String.eqb op "gt_and_lt" then 2
  else 0.

Definition product (l : list nat) : nat := fold_right Nat.mul 1%nat l.

(** [filter(priority__gte=3, name="Ann").order_by("-priority", "id")] *)
Definition native_query : DjangoQuery :=
  {| q_model := User; default_ordering := true; order_by := ["-priority"; "id"];
     select := [SelInfo "app_user" "email"]; aggregates := []; extra_select := [];
     q_where := mkWhere AND false
                  [Leaf (on f_priority) "gte" (Scalar (PyInt 3));
                   Leaf (on f_name) "exact" (Scalar (PyStr "Ann"))] |}.

(** [filter(name="Ann", email__startswith="a")] *)
Definition startswith_query : DjangoQuery :=
  select_where ["email"]
    [Leaf (on f_name) "exact" (Scalar (PyStr "Ann"));
     Leaf (on f_email) "startswith" (Scalar (PyStr "a"))].

(** [filter(status__in=[...3 values], priority__in=[1, 2]).exclude(name="Ann")] *)
Definition product_query : DjangoQuery :=
  select_where ["email"]
    [Leaf (on f_status) "in" (Seq [PyStr "open"; PyStr "pending"; PyStr "closed"]);
     Leaf (on f_priority) "in" (Seq [PyInt 1; PyInt 2]);
     exclude [Leaf (on f_name) "exact" (Scalar (PyStr "Ann"))]].

(** The exception is one that a check of the library answers. *)
Definition library_refusal (sdk : Sdk) (e : Exception) : Prop :=
  (exists q key value, check_filter sdk q key value = Some e)
  \/ (exists q other, check_update sdk q other = Some e)
  \/ (exists q o, check_order sdk q o = Some e)
  \/ (exists qs o, check_multi sdk qs o = Some e).

(** A predicate that [execute] sets aside for expansion. *)
Definition expansion_predicate (f : Filter) : bool :=
  String.eqb (snd (fst f)) "in" || String.eqb (snd (fst f)) "gt_and_lt".

(** Every filter key of [q] is a filter key of [m]. *)
Definition keeps_filter_keys (q m : datastore_Query) : Prop :=
  forall key, is_Some (filters q !! key) -> is_Some (filters m !! key).

(** [Model.objects.count()] with [filter(status__in=["open", "pending"])] *)
Definition count_query : DjangoQuery :=
  {| q_model := User; default_ordering := true; order_by := [];
     select := []; aggregates := ["id__count"]; extra_select := [];
     q_where := mkWhere AND false
                  [Leaf (on f_status) "in" (Seq [PyStr "open"; PyStr "pending"])] |}.

(** A datastore that answers every fetch with [cached_user] and every
    count with 7. *)
Definition one_user_backend : Backend :=
  {| Run := fun _ => [cached_user];
     Count_ := fun _ => 7%Z;
     get_uniques_from_model := fun _ => [["email"]];
     generate_unique_key := fun m key => model_str m +:+ "|email";
     get_entity_from_cache := fun _ => None |}.

(** A select of a column of another table. *)
Definition cross_table_query : DjangoQuery :=
  select_where ["name"; "title"; "bio"] [].

(** Every field of the combination has an equality filter. *)
Definition covered (lookup : gmap string Value) (fields : list string) : bool :=
  forallb (fun f => bool_decide (is_Some (lookup !! f))) fields.

(** Two unique combinations, the cache knowing the key of the first only. *)
Definition two_uniques_backend : Backend :=
  {| Run := fun _ => [];
     Count_ := fun _ => 0%Z;
     get_uniques_from_model := fun _ => [["email"]; ["name"; "status"]];
     generate_unique_key :=
       fun m key => fold_left (fun acc p => acc +:+ "|" +:+ fst p) key (model_str m);
     get_entity_from_cache :=
       fun key => if String.eqb key "User|email" then Some cached_user else None |}.

(** ** The write path: [FlushCommand], [InsertCommand], [DeleteCommand],
    [UpdateCommand]

    The datastore and the cache are a state [S] with operations that are
    parameters; a command returns its result, the state it leaves and the
    requests it made, in order.  The helpers of [.base]
    ([django_instance_to_entity], [get_datastore_kind],
    [get_prepared_db_value], [cache_entity]) are parameters too. *)

(** [Key.from_path(kind, id_or_name)] *)
Definition Key : Type := string * scalar.

Definition id_or_name (k : Key) : scalar := snd k.

Inductive WriteError :=
| IntegrityError (msg : string)
| KeyError (key : string)
| NotIterable
| BadArgumentError
| SelectError (e : Exception).

Inductive WriteEvent :=
| Read (e : Event)
| DsGet (k : Key)
| DsPut (e : Entity)
| DsPutMulti (l : list Entity)
| DsDelete (l : list Entity)
| DsDeleteKeys (l : list Key)
| DsCount (table : string)
| DsRunKeys (table : string)
| CacheClear
| CacheEntity (m : Model) (e : Entity).

Record Datastore (S : Type) := {
  ds_backend : S -> Backend;
  ds_get : S -> Key -> option Entity;
  ds_put : S -> Entity -> S * Key;
  ds_put_multi : S -> list Entity -> S * list Key;
  ds_delete : S -> list Entity -> S;
  ds_count : S -> string -> Z;
  ds_run_keys : S -> string -> list Key;
  ds_delete_keys : S -> list Key -> S;
  cache_clear : S -> S;
  cache_entity : S -> Model -> Entity -> S
}.
Arguments ds_backend {S}.
Arguments ds_get {S}.
Arguments ds_put {S}.
Arguments ds_put_multi {S}.
Arguments ds_delete {S}.
Arguments ds_count {S}.
Arguments ds_run_keys {S}.
Arguments ds_delete_keys {S}.
Arguments cache_clear {S}.
Arguments cache_entity {S}.

(** *** [FlushCommand] *)

(** [while query.Count(): datastore.Delete(query.Run())], with the number
    of rounds still allowed; [None] when they are used up. *)
Fixpoint flush_loop {S} (ds : Datastore S) (table : string) (rounds : nat) (st : S)
  : option (S * list WriteEvent) :=
  match rounds with
  | O => None
  | Datatypes.S rounds' =>
    if Z.eqb (ds_count ds st table) 0 then Some (st, [DsCount table])
    else
      let keys := ds_run_keys ds st table in
      match flush_loop ds table rounds' (ds_delete_keys ds st keys) with
      | Some (st', t) =>
        Some (st', DsCount table :: DsRunKeys table :: DsDeleteKeys keys :: t)
      | None => None
      end
  end.

Definition FlushCommand_execute {S} (ds : Datastore S) (table : string) (rounds : nat)
    (st : S) : option (S * list WriteEvent) :=
  match flush_loop ds table rounds st with
  | Some (st', t) => Some (cache_clear ds st', t ++ [CacheClear])
  | None => None
  end.

(** *** [InsertCommand] *)

(** A model instance: its primary key and its attribute values. *)
Record Instance := {
  obj_pk : scalar;
  obj_values : gmap string scalar
}.

Record Base := {
  django_instance_to_entity :
    Connection -> Model -> list Field -> bool -> Instance -> Entity;
  get_datastore_kind : Model -> string;
  get_prepared_db_value : Connection -> Field -> scalar -> scalar;
  prep_value_for_database : Indexer -> scalar -> scalar;
  pk_is_relation : Model -> bool
}.

Record InsertCommand := {
  has_pk : bool;
  entities : list Entity;
  included_keys : list Key;
  insert_model : Model
}.

Definition InsertCommand_init (base : Base) (conn : Connection) (m : Model)
    (objs : list Instance) (fields : list Field) (raw : bool) : InsertCommand :=
  let has_pk := existsb primary_key fields in
  {| has_pk := has_pk;
     entities := map (django_instance_to_entity base conn m fields raw) objs;
     included_keys :=
       if has_pk then map (fun obj => (get_datastore_kind base m, obj_pk obj)) objs
       else [];
     insert_model := m |}.

(** The truth value of a property value. *)
Definition truthy_scalar (x : scalar) : bool :=
  match x with
  | PyNone => false
  | PyInt z => negb (Z.eqb z 0)
  | PyStr s => negb (String.eqb s "")
  end.

(** [ent.get('class') and set(existing.keys()).issubset(ent.keys())] *)
Definition existing_is_parent (ent existing : Entity) : bool :=
  match ent !! "class" with
  | Some c => truthy_scalar c && bool_decide (dom existing ⊆ dom ent)
  | None => false
  end.

(** The loop over [zip(self.included_keys, self.entities)]: one
    transaction for every pair. *)
Fixpoint insert_loop {S} (ds : Datastore S) (pairs : list (Key * Entity)) (st : S)
    (results : list Key) : (WriteError + list Key) * S * list WriteEvent :=
  match pairs with
  | [] => (inr results, st, [])
  | (key, ent) :: rest =>
    let conflict :=
      match ds_get ds st key with
      | Some existing => negb (existing_is_parent ent existing)
      | None => false
      end in
    if conflict then
      (inl (IntegrityError "Tried to INSERT with existing key"), st, [DsGet key])
    else
      let '(st', k) := ds_put ds st ent in
      let '(r, st'', t) := insert_loop ds rest st' (results ++ [k]) in
      (r, st'', DsGet key :: DsPut ent :: t)
  end.

Definition InsertCommand_execute {S} (ds : Datastore S) (self : InsertCommand) (st : S)
  : (WriteError + list Key) * S * list WriteEvent :=
  if has_pk self then
    insert_loop ds (combine (included_keys self) (entities self)) st []
  else
    let '(st', keys) := ds_put_multi ds st (entities self) in
    (inr keys, st', [DsPutMulti (entities self)]).

(** *** [DeleteCommand]

    [datastore.Delete] of what is not a list of keys or entities is the
    datastore's [BadArgumentError]. *)

Definition DeleteCommand_init (conn : Connection) (q : DjangoQuery) : Res SelectCommand :=
  __init__ conn q true false.

Definition DeleteCommand_execute {S} (ds : Datastore S) (sdk : Sdk) (ix : Indexing)
    (reg : Registry) (select_ : SelectCommand) (st : S)
  : (WriteError + unit) * S * list WriteEvent * Registry :=
  match execute sdk ix (ds_backend ds st) reg select_ with
  | (Raise e, t, reg') => (inl (SelectError e), st, map Read t, reg')
  | (Ok select', t, reg') =>
    match results select' with
    | Some (Entities l) => (inr tt, ds_delete ds st l, map Read t ++ [DsDelete l], reg')
    | _ => (inl BadArgumentError, st, map Read t, reg')
    end
  end.

(** *** [UpdateCommand] *)

(** [query.values]: the field and the value of every assignment; the
    parameter between them is never read. *)
Record UpdateCommand := {
  update_model : Model;
  update_select : SelectCommand;
  update_values : list (Field * scalar);
  update_connection : Connection
}.

Definition UpdateCommand_init (conn : Connection) (q : DjangoQuery)
    (values : list (Field * scalar)) : Res UpdateCommand :=
  match __init__ conn q false true with
  | Ok select_ =>
    Ok {| update_model := q_model q; update_select := select_;
          update_values := values; update_connection := conn |}
  | Raise e => Raise e
  end.

(** The special indexed fields of one assignment. *)
Fixpoint add_indexed_fields (base : Base) (ix : Indexing) (column0 : string)
    (value : scalar) (indexes : list string) (result : Entity)
  : WriteError + Entity :=
  match indexes with
  | [] => inr result
  | index :: rest =>
    match special_indexer (REQUIRES_SPECIAL_INDEXES ix) index with
    | None => inl (KeyError index)
    | Some indexer =>
      add_indexed_fields base ix column0 value rest
        (<[indexed_column_name indexer column0 :=
             prep_value_for_database base indexer value]> result)
    end
  end.

(** [for field, param, value in self.values] on one result. *)
Fixpoint assign_values (base : Base) (ix : Indexing) (reg : Registry)
    (self : UpdateCommand) (values : list (Field * scalar)) (result : Entity)
  : WriteError + Entity :=
  match values with
  | [] => inr result
  | (field, value) :: rest =>
    let result :=
      <[column field := get_prepared_db_value base (update_connection self) field value]>
        result in
    match add_indexed_fields base ix (column field) value
            (special_indexes_for_column reg (update_model self) (column field))
            result with
    | inl e => inl e
    | inr result => assign_values base ix reg self rest result
    end
  end.

(** [for result in results] *)
Fixpoint update_results (base : Base) (ix : Indexing) (reg : Registry)
    (self : UpdateCommand) (results : list Entity) : WriteError + list Entity :=
  match results with
  | [] => inr []
  | result :: rest =>
    match assign_values base ix reg self (update_values self) result with
    | inl e => inl e
    | inr result' =>
      match update_results base ix reg self rest with
      | inl e => inl e
      | inr entities => inr (result' :: entities)
      end
    end
  end.

(** The column the key is stored under in the cached entity: the primary
    key of the model, or of the last parent whose primary key is not a
    relation. *)
Definition cache_pk_column (base : Base) (m : Model) : string :=
  fold_left (fun pk_column parent =>
               if negb (pk_is_relation base parent) then column (pk parent)
               else pk_column)
            (parents m) (column (pk m)).

(** [for key, entity in itertools.izip(returned_ids, entities)] *)
Fixpoint cache_loop {S} (ds : Datastore S) (base : Base) (m : Model)
    (pairs : list (Key * Entity)) (st : S) : S * list WriteEvent :=
  match pairs with
  | [] => (st, [])
  | (key, entity) :: rest =>
    let entity := <[cache_pk_column base m := id_or_name key]> entity in
    let '(st', t) := cache_loop ds base m rest (cache_entity ds st m entity) in
    (st', CacheEntity m entity :: t)
  end.

Definition UpdateCommand_execute {S} (ds : Datastore S) (base : Base) (sdk : Sdk)
    (ix : Indexing) (reg : Registry) (self : UpdateCommand) (st : S)
  : (WriteError + nat) * S * list WriteEvent * Registry :=
  match execute sdk ix (ds_backend ds st) reg (update_select self) with
  | (Raise e, t, reg') => (inl (SelectError e), st, map Read t, reg')
  | (Ok select', t, reg') =>
    match results select' with
    | Some (Entities results) =>
      match update_results base ix reg' self results with
      | inl e => (inl e, st, map Read t, reg')
      | inr entities =>
        let '(st1, returned_ids) := ds_put_multi ds st entities in
        let '(st2, t') :=
          cache_loop ds base (model select') (combine returned_ids entities) st1 in
        (inr (List.length results), st2,
         map Read t ++ DsPutMulti entities :: t', reg')
      end
    | _ => (inl NotIterable, st, map Read t, reg')
    end
  end.

(** *** Notions used by the properties of the write path *)

Definition is_store_read (ev : WriteEvent) : bool :=
  match ev with
  | Read (StoreRun _) | Read (StoreCount _) => true
  | _ => false
  end.

Definition is_key_deletion (ev : WriteEvent) : bool :=
  match ev with DsDeleteKeys _ => true | _ => false end.

(** The requests of one transaction of an insert that goes through. *)
Definition get_then_put (p : Key * Entity) : list WriteEvent :=
  [DsGet (fst p); DsPut (snd p)].

Definition insert_key (base : Base) (m : Model) (obj : Instance) : Key :=
  (get_datastore_kind base m, obj_pk obj).

(** The entity has no truthy [class], or lacks a property of the stored one. *)
Definition not_a_child_of (ent existing : Entity) : Prop :=
  (forall c, ent !! "class" = Some c -> truthy_scalar c = false)
  \/ exists k, is_Some (existing !! k) /\ ent !! k = None.

(** The properties one assignment of an update writes: the column of the
    field and its special indexed columns. *)
Definition written_columns (ix : Indexing) (reg : Registry) (m : Model) (f : Field)
  : list string :=
  column f
  :: flat_map (fun index =>
                 match special_indexer (REQUIRES_SPECIAL_INDEXES ix) index with
                 | Some indexer => [indexed_column_name indexer (column f)]
                 | None => []
                 end)
              (special_indexes_for_column reg m (column f)).

(** The entity that is cached for a returned key. *)
Definition cached_as (base : Base) (m : Model) (p : Key * Entity) : Entity :=
  <[cache_pk_column base m := id_or_name (fst p)]> (snd p).

(** *** Example data of the write path *)

(** A datastore of one table, as the list of its rows, and a cache, as the
    list of the entities put into it.  A put appends a row under the [id]
    of the entity, or under the next number; [Run] of a keys-only query
    answers in batches of two. *)
Record MemStore := {
  rows : list (Key * Entity);
  cached : list Entity
}.

Definition mem_get (rs : list (Key * Entity)) (key : Key) : option Entity :=
  snd <$> List.find (fun r => bool_decide (fst r = key)) rs.

Definition mem_key (rs : list (Key * Entity)) (e : Entity) : Key :=
  ("app_user", default (PyInt (Z.of_nat (List.length rs) + 1)) (e !! "id")).

Definition mem_put (st : MemStore) (e : Entity) : MemStore * Key :=
  let k := mem_key (rows st) e in
  ({| rows := rows st ++ [(k, e)]; cached := cached st |}, k).

Definition mem_put_multi (st : MemStore) (l : list Entity) : MemStore * list Key :=
  fold_left (fun acc e => let '(st', k) := mem_put (fst acc) e in (st', snd acc ++ [k]))
            l (st, []).

Definition mem_store : Datastore MemStore :=
  {| ds_backend := fun st =>
       {| Run := fun _ => map snd (rows st);
          Count_ := fun _ => Z.of_nat (List.length (rows st));
          get_uniques_from_model := fun _ => [];
          generate_unique_key := fun m _ => model_str m;
          get_entity_from_cache := fun _ => None |};
     ds_get := fun st key => mem_get (rows st) key;
     ds_put := mem_put;
     ds_put_multi := mem_put_multi;
     ds_delete := fun st l =>
       {| rows := List.filter (fun r => negb (bool_decide (snd r ∈ l))) (rows st);
          cached := cached st |};
     ds_count := fun st _ => Z.of_nat (List.length (rows st));
     ds_run_keys := fun st _ => map fst (take 2 (rows st));
     ds_delete_keys := fun st keys =>
       {| rows := drop (List.length keys) (rows st); cached := cached st |};
     cache_clear := fun st => {| rows := rows st; cached := [] |};
     cache_entity := fun st _ e => {| rows := rows st; cached := cached st ++ [e] |} |}.

Definition plain_base : Base :=
  {| django_instance_to_entity := fun _ _ fields _ obj =>
       List.fold_left
         (fun (e : Entity) (f : Field) =>
            match obj_values obj !! column f with
            | Some v => <[column f := v]> e
            | None => e
            end) fields ∅;
     get_datastore_kind := db_table;
     get_prepared_db_value := fun _ _ v => v;
     prep_value_for_database := fun _ v => v;
     pk_is_relation := fun m => String.eqb (column (pk m)) "person_ptr_id" |}.

Definition ann : Instance :=
  {| obj_pk := PyInt 1;
     obj_values := {[ "id" := PyInt 1; "name" := PyStr "Ann" ]} |}.

Definition bob : Instance :=
  {| obj_pk := PyInt 2;
     obj_values := {[ "id" := PyInt 2; "name" := PyStr "Bob" ]} |}.

Definition ann_row : Key * Entity :=
  (("app_user", PyInt 1), {[ "id" := PyInt 1; "name" := PyStr "Ann" ]}).

Definition bob_row : Key * Entity :=
  (("app_user", PyInt 2), {[ "id" := PyInt 2; "name" := PyStr "Bob" ]}).

Definition cid_row : Key * Entity :=
  (("app_user", PyInt 3), {[ "id" := PyInt 3; "name" := PyStr "Cid" ]}).

Definition empty_store : MemStore := {| rows := []; cached := [] |}.

Definition three_users : MemStore :=
  {| rows := [ann_row; bob_row; cid_row]; cached := [cached_user] |}.

(** [User.objects.all()] and [filter(pk=None)]. *)
Definition all_users_query : DjangoQuery := select_where [] [].

Definition null_pk_query : DjangoQuery :=
  select_where [] [Leaf (on f_id) "exact" (Scalar PyNone)].

(** The column the key of a cached entity is stored under: the primary
    key of the last parent whose primary key is no relation, or the one of
    the model. *)
Definition last_own_pk_column (base : Base) (m : Model) : string :=
  List.last (map (fun parent => column (pk parent))
                 (List.filter (fun parent => negb (pk_is_relation base parent))
                              (parents m)))
            (column (pk m)).

(** The requests of the caching loop of an update and the state it leaves. *)
Definition cache_requests (base : Base) (m : Model) (pairs : list (Key * Entity))
  : list WriteEvent :=
  map (fun p => CacheEntity m (cached_as base m p)) pairs.

Definition cache_all {S} (ds : Datastore S) (base : Base) (m : Model)
    (pairs : list (Key * Entity)) (st : S) : S :=
  fold_left (fun s p => cache_entity ds s m (cached_as base m p)) pairs st.

(** A child model whose primary key is the link to its parent. *)
Definition f_ptr : Field :=
  {| column := "person_ptr_id"; primary_key := true; db_type := "integer" |}.

Definition Manager : Model :=
  mkModel "Manager" "app_manager" false false [Person]
          [f_ptr; f_status] f_ptr [].

(** A registry that lists, for [status], an index the installation does
    not know. *)
Definition stale_registry : Registry :=
  fun _ c => if String.eqb c "status" then ["regex"] else [].

(** * Properties *)

(** ** Induction over where trees *)

Section WhereNode_induction.
Variable P : WhereNode -> Prop.
Variable Q : Child -> Prop.
Hypothesis P_node : forall c n cs, Forall Q cs -> P (mkWhere c n cs).
Hypothesis Q_leaf : forall k op v, Q (Leaf k op v).
Hypothesis Q_sub : forall w, P w -> Q (Sub w).

Fixpoint WhereNode_tree_ind (w : WhereNode) : P w :=
  match w with
  | mkWhere c n cs =>
    P_node c n cs
      ((fix all (l : list Child) : Forall Q l :=
          match l with
          | [] => List.Forall_nil Q
          | ch :: l' => @List.Forall_cons _ Q ch l' (Child_tree_ind ch) (all l')
          end) cs)
  end
with Child_tree_ind (ch : Child) : Q ch :=
  match ch with
  | Leaf k op v => Q_leaf k op v
  | Sub w => Q_sub w (WhereNode_tree_ind w)
  end.
End WhereNode_induction.

(** ** Unfolding equations *)

Lemma parse_where_node connector w_negated children negated :
  parse_where_and_check_projection (mkWhere connector w_negated children) negated =
  if negb (flip w_negated negated) && negb (Connector_eqb connector AND)
  then raise UnsupportedCombinator
  else parse_children children (flip w_negated negated).
Proof.
  unfold flip. simpl.
  destruct (negb _ && negb _); [reflexivity|].
  induction children as [|ch rest IH]; simpl; [reflexivity|].
  now rewrite IH.
Qed.

Lemma tagged_leaves_node connector w_negated children negated :
  tagged_leaves (mkWhere connector w_negated children) negated =
  children_leaves children (flip w_negated negated).
Proof.
  unfold flip. simpl.
  induction children as [|ch rest IH]; simpl; [reflexivity|].
  now rewrite IH.
Qed.

Lemma bind_Ok {A B} (c : Cmd A) (k : A -> Cmd B) s b s' :
  bind c k s = (Ok b, s') ->
  exists a s1, c s = (Ok a, s1) /\ k a s1 = (Ok b, s').
Proof.
  unfold bind. destruct (c s) as [[a|e] s1]; [eauto|discriminate].
Qed.

Lemma parse_children_cons ch rest negated s r s' :
  parse_children (ch :: rest) negated s = (Ok r, s') ->
  exists r1 s1 r2,
    parse_child ch negated s = (Ok r1, s1) /\
    parse_children rest negated s1 = (Ok r2, s') /\ r = r1 ++ r2.
Proof.
  simpl. intros H.
  apply bind_Ok in H as (r1 & s1 & H1 & H).
  apply bind_Ok in H as (r2 & s2 & H2 & H).
  unfold ret in H. injection H as <- <-. eauto 6.
Qed.

(** ** The walk visits every leaf

    For a preorder [R] on objects that every leaf step respects, the whole
    walk respects [R], and a walk that returns has run the leaf step of
    every leaf, with success. *)

Section Walk.
Variable R : SelectCommand -> SelectCommand -> Prop.
Hypothesis R_refl : forall s, R s s.
Hypothesis R_trans : forall s1 s2 s3, R s1 s2 -> R s2 s3 -> R s1 s3.
Hypothesis R_leaf : forall k op v n s, R s (snd (parse_leaf k op v n s)).

Lemma parse_children_R cs negated :
  Forall (fun ch => forall n s, R s (snd (parse_child ch n s))) cs ->
  forall s, R s (snd (parse_children cs negated s)).
Proof.
  induction 1 as [|ch rest Hch _ IH]; intros s; simpl; [apply R_refl|].
  unfold bind. specialize (Hch negated s).
  destruct (parse_child ch negated s) as [[r1|e] s1]; simpl in *; [|exact Hch].
  specialize (IH s1).
  destruct (parse_children rest negated s1) as [[r2|e] s2]; simpl in *;
    eapply R_trans; eauto.
Qed.

Lemma parse_where_R w :
  forall n s, R s (snd (parse_where_and_check_projection w n s)).
Proof.
  induction w using WhereNode_tree_ind
    with (Q := fun ch => forall n s, R s (snd (parse_child ch n s))).
  - intros neg s. rewrite parse_where_node.
    destruct (negb _ && negb _); [apply R_refl|].
    now apply parse_children_R.
  - intros neg s. simpl. apply R_leaf.
  - intros neg s. simpl. apply IHw.
Qed.

Lemma parse_child_R ch n s : R s (snd (parse_child ch n s)).
Proof.
  destruct ch; simpl; [apply R_leaf|apply parse_where_R].
Qed.

Lemma parse_children_visits cs negated :
  Forall (fun ch => forall n s r s', parse_child ch n s = (Ok r, s') ->
                      forall t, In t (child_leaves ch n) -> visited R s s' t) cs ->
  forall s r s', parse_children cs negated s = (Ok r, s') ->
    forall t, In t (children_leaves cs negated) -> visited R s s' t.
Proof.
  induction 1 as [|ch rest Hch _ IH]; intros s r s' Hrun t Hin; simpl in Hin;
    [contradiction|].
  apply parse_children_cons in Hrun as (r1 & s1 & r2 & H1 & H2 & _).
  assert (R s s1) as Hs1
    by (pose proof (parse_child_R ch negated s) as HR; now rewrite H1 in HR).
  assert (R s1 s') as Hs2.
  { pose proof (parse_children_R rest negated) as HR.
    specialize (HR ltac:(apply Forall_forall; intros; apply parse_child_R) s1).
    now rewrite H2 in HR. }
  apply in_app_or in Hin as [Hin|Hin].
  - specialize (Hch _ _ _ _ H1 _ Hin).
    destruct t as [[[n k] op] v]. destruct Hch as (a & b & c & Ha & Hb & Hc).
    exists a, b, c. eauto.
  - specialize (IH _ _ _ H2 _ Hin).
    destruct t as [[[n k] op] v]. destruct IH as (a & b & c & Ha & Hb & Hc).
    exists a, b, c. eauto.
Qed.

Lemma parse_where_visits w :
  forall n s r s', parse_where_and_check_projection w n s = (Ok r, s') ->
    forall t, In t (tagged_leaves w n) -> visited R s s' t.
Proof.
  induction w using WhereNode_tree_ind
    with (Q := fun ch => forall n s r s', parse_child ch n s = (Ok r, s') ->
                 forall t, In t (child_leaves ch n) -> visited R s s' t).
  - intros neg s r s' Hrun t Hin.
    rewrite parse_where_node in Hrun. rewrite tagged_leaves_node in Hin.
    destruct (negb _ && negb _); [discriminate|].
    eapply parse_children_visits; eauto.
  - intros neg s r s' Hrun t Hin. simpl in *.
    destruct Hin as [<-|[]]. exists s, r, s'. auto.
  - intros neg s r s' Hrun t Hin. simpl in *. eauto.
Qed.
End Walk.

(** ** One leaf *)

Ltac run_leaf :=
  unfold parse_leaf, bind, get, assign, when, ret, raise; simpl.

Ltac split_ifs :=
  repeat match goal with
         | |- context [if ?b then _ else _] => destruct b eqn:?; simpl
         end.

(** Outside negation a leaf never raises and is kept as it is. *)
Lemma parse_leaf_plain k op v s :
  fst (parse_leaf k op v false s) =
  Ok [(col k, op, prep_value (connection s) (model s) (field k) v)].
Proof. run_leaf. split_ifs; reflexivity. Qed.

(** Under negation only [exact] passes, once. *)
Lemma parse_leaf_negated k op v s :
  fst (parse_leaf k op v true s) =
  if String.eqb op "exact" then
    if has_inequality_filter s then Raise MultipleInequalityFilters
    else Ok [(col k, "gt_and_lt", prep_value (connection s) (model s) (field k) v)]
  else Raise (UnsupportedNegatedOperator op).
Proof. run_leaf. split_ifs; try reflexivity; try discriminate. Qed.

Lemma parse_leaf_frame k op v n s : same_frame s (snd (parse_leaf k op v n s)).
Proof. run_leaf. unfold same_frame. split_ifs; simpl; tauto. Qed.

Lemma parse_leaf_has_inequality k op v s :
  has_inequality_filter (snd (parse_leaf k op v false s)) = has_inequality_filter s.
Proof. run_leaf. split_ifs; reflexivity. Qed.

Lemma parse_leaf_projection k op v n s :
  projection (snd (parse_leaf k op v n s)) =
  if in_projection (projection s) (col k) && str_in op ["exact"; "in"; "isnull"]
  then None else projection s.
Proof.
  run_leaf. destruct (in_projection _ _ && _); simpl; split_ifs; reflexivity.
Qed.

Lemma parse_leaf_never_returns k op v n s :
  query_can_never_return_results s = true ->
  query_can_never_return_results (snd (parse_leaf k op v n s)) = true.
Proof. intros H. run_leaf. split_ifs; simpl; auto. Qed.

Lemma parse_leaf_null_pk k op v s :
  primary_key (field k) = true ->
  (is_None (prep_value (connection s) (model s) (field k) v) && String.eqb op "exact")
    || String.eqb op "isnull" = true ->
  query_can_never_return_results (snd (parse_leaf k op v false s)) = true.
Proof.
  intros Hpk H. run_leaf. rewrite Hpk.
  destruct (in_projection _ _ && _); simpl; rewrite H; reflexivity.
Qed.

Lemma parse_leaf_excluded_in k v s :
  primary_key (field k) = true ->
  excluded_pks (snd (parse_leaf k "in" v true s)) =
  excluded_pks s ++ [prep_value (connection s) (model s) (field k) v].
Proof.
  intros Hpk. run_leaf. rewrite Hpk.
  destruct (in_projection _ _ && _); reflexivity.
Qed.

(** The inequality flag is set by a negated [exact] and by nothing else. *)
Lemma parse_leaf_inequality_after k op v n s :
  has_inequality_filter (snd (parse_leaf k op v n s)) =
  has_inequality_filter s || (n && String.eqb op "exact").
Proof.
  run_leaf.
  destruct (in_projection (projection s) (col k) && _); simpl;
    destruct n; simpl; destruct (String.eqb op "exact"); simpl;
    destruct (primary_key (field k)); simpl;
    try destruct (String.eqb op "in"); simpl;
    try destruct (String.eqb op "isnull"); simpl;
    try destruct (is_None _); simpl;
    destruct (has_inequality_filter s) eqn:Hi; simpl; rewrite ?Hi; reflexivity.
Qed.

(** ** Sequencing of children *)

Lemma parse_children_app pre post negated s :
  parse_children (pre ++ post) negated s =
  match parse_children pre negated s with
  | (Ok r1, s1) =>
    match parse_children post negated s1 with
    | (Ok r2, s2) => (Ok (r1 ++ r2), s2)
    | (Raise e, s2) => (Raise e, s2)
    end
  | (Raise e, s1) => (Raise e, s1)
  end.
Proof.
  revert s. induction pre as [|ch pre IH]; intros s; simpl.
  - unfold ret. destruct (parse_children post negated s) as [[r2|e] s2]; reflexivity.
  - unfold bind. destruct (parse_child ch negated s) as [[r|e] s0]; [|reflexivity].
    rewrite IH.
    destruct (parse_children pre negated s0) as [[r1|e] s1]; [|reflexivity].
    unfold ret; simpl.
    destruct (parse_children post negated s1) as [[r2|e] s2]; [|reflexivity].
    now rewrite app_assoc.
Qed.

Lemma parse_children_cons_eq ch rest negated s :
  parse_children (ch :: rest) negated s =
  match parse_child ch negated s with
  | (Ok r1, s1) =>
    match parse_children rest negated s1 with
    | (Ok r2, s2) => (Ok (r1 ++ r2), s2)
    | (Raise e, s2) => (Raise e, s2)
    end
  | (Raise e, s1) => (Raise e, s1)
  end.
Proof.
  simpl. unfold bind, ret.
  destruct (parse_child ch negated s) as [[r1|e] s1]; [|reflexivity].
  destruct (parse_children rest negated s1) as [[r2|e] s2]; reflexivity.
Qed.

Lemma parse_children_raise ch rest negated s e :
  fst (parse_child ch negated s) = Raise e ->
  parse_children (ch :: rest) negated s = (Raise e, snd (parse_child ch negated s)).
Proof.
  simpl. unfold bind. destruct (parse_child ch negated s) as [[r|e'] s1]; simpl;
    congruence.
Qed.

(** ** C3 *)

(** C3, as stated, fails: [exclude(name__in=[1, 2])] is a negated
    membership-in-set leaf, and normalization does not succeed on it: it
    raises the unsupported-negated-lookup error, and so does [__init__]. *)
Lemma C3_negated_in_is_rejected :
  let q := select_where ["name"]
             [exclude [Leaf (on f_name) "in" (Seq [PyInt 1; PyInt 2])]] in
  let self := init_fields plain_connection q false false ["name"] in
  (~ exists r, fst (parse_where_and_check_projection (q_where q) false self) = Ok r)
  /\ __init__ plain_connection q false false = Raise (UnsupportedNegatedOperator "in").
Proof.
  split; [|vm_compute; reflexivity].
  intros [r Hr]. vm_compute in Hr. discriminate Hr.
Qed.

(** C3 (amended): for every leaf met under negation, normalization of the
    leaf succeeds exactly when the operator is [exact] and no inequality
    filter was recorded before, and then yields the open-range predicate; a
    second negated [exact] raises the one-inequality error; every other
    operator, membership-in-set included, raises the
    unsupported-negated-lookup error. *)
Theorem C3_negated_leaf_outcome (k : Constraint) (op : string) (v : Value)
    (s : SelectCommand) :
  fst (parse_child (Leaf k op v) true s) =
  if String.eqb op "exact" then
    if has_inequality_filter s then Raise MultipleInequalityFilters
    else Ok [(col k, "gt_and_lt", prep_value (connection s) (model s) (field k) v)]
  else Raise (UnsupportedNegatedOperator op).
Proof.
  cbn [parse_child]. run_leaf.
  destruct (in_projection (projection s) (col k) && _); simpl;
    destruct (String.eqb op "exact"); simpl;
    destruct (primary_key (field k)); simpl;
    try destruct (String.eqb op "in"); simpl;
    destruct (has_inequality_filter s); reflexivity.
Qed.

(** ** C10 *)

(** C10: whenever the walk arrives, under negation, at a
    membership-in-set leaf on the primary key, the method raises the
    unsupported-negated-lookup error, and the object it leaves behind has
    the value list of the leaf appended to the [excluded_pks] it had on
    arrival.  The error goes through every node above the leaf with the
    object as the leaf left it. *)
Theorem C10_negated_in_on_pk_mutates_excluded_pks
    (w : WhereNode) (negated : bool) (s s1 : SelectCommand)
    (k : Constraint) (v : Value) :
  arrives w negated s k "in" v true s1 ->
  primary_key (field k) = true ->
  fst (parse_where_and_check_projection w negated s)
    = Raise (UnsupportedNegatedOperator "in")
  /\ excluded_pks (snd (parse_where_and_check_projection w negated s))
    = excluded_pks s1 ++ [prep_value (connection s1) (model s1) (field k) v].
Proof.
  intros Harrives.
  enough (forall op n,
            arrives w negated s k op v n s1 ->
            op = "in" -> n = true -> primary_key (field k) = true ->
            fst (parse_where_and_check_projection w negated s)
              = Raise (UnsupportedNegatedOperator "in")
            /\ excluded_pks (snd (parse_where_and_check_projection w negated s))
              = excluded_pks s1
                ++ [prep_value (connection s1) (model s1) (field k) v]) as Hgen
    by (intros Hpk; exact (Hgen _ _ Harrives eq_refl eq_refl Hpk)).
  clear Harrives. intros op n Harrives.
  induction Harrives as [c wn neg pre post s r k op v Hwalked Hpre
                        |c wn neg pre post s r node k op v n s1 Hwalked Hpre _ IH];
    intros Hop Hn Hpk.
  - subst op. rewrite parse_where_node. unfold walked in Hwalked. rewrite Hwalked.
    rewrite parse_children_app.
    destruct (parse_children pre (flip wn neg) s) as [[r1|e] s1];
      cbn [fst] in Hpre; [|discriminate].
    cbn [snd]. rewrite Hn.
    assert (fst (parse_child (Leaf k "in" v) true s1)
            = Raise (UnsupportedNegatedOperator "in")) as Hleaf
      by (cbn [parse_child]; now rewrite parse_leaf_negated).
    rewrite (parse_children_raise _ post _ _ _ Hleaf). cbn [fst snd parse_child].
    split; [reflexivity|]. now apply parse_leaf_excluded_in.
  - specialize (IH Hop Hn Hpk).
    rewrite parse_where_node. unfold walked in Hwalked. rewrite Hwalked.
    rewrite parse_children_app.
    destruct (parse_children pre (flip wn neg) s) as [[r1|e] s2];
      cbn [fst] in Hpre; [|discriminate].
    cbn [snd] in IH. destruct IH as [IHr IHs].
    rewrite (parse_children_raise (Sub node) post _ _ _ IHr).
    cbn [fst snd parse_child]. split; [reflexivity|exact IHs].
Qed.

Lemma C10_witness :
  let s := init_fields plain_connection (select_where ["name"] []) false false ["name"] in
  let k := on f_id in
  let v := Seq [PyInt 1; PyInt 2] in
  exists s1,
    arrives exclude_pks_where false s k "in" v true s1
    /\ excluded_pks s1 = [Scalar (PyInt 7)]
    /\ primary_key (field k) = true
    /\ fst (parse_where_and_check_projection exclude_pks_where false s)
         = Raise (UnsupportedNegatedOperator "in")
    /\ excluded_pks (snd (parse_where_and_check_projection exclude_pks_where false s))
         = [Scalar (PyInt 7); Seq [PyInt 1; PyInt 2]].
Proof.
  intros s k v.
  set (s0 := snd (parse_children [Leaf (on f_name) "exact" (Scalar (PyStr "Ann"))]
                                 false s)).
  set (s1 := snd (parse_children [Leaf (on f_id) "exact" (Scalar (PyInt 7))] true s0)).
  assert (arrives exclude_pks_where false s k "in" v true s1) as Harrives.
  { unfold exclude_pks_where.
    apply (arrives_below AND false false _ _ s
             [("name", "exact", Scalar (PyStr "Ann"))]);
      [reflexivity|vm_compute; reflexivity|].
    apply (arrives_at_child AND true false
             [Leaf (on f_id) "exact" (Scalar (PyInt 7))] [] s0
             [("id", "gt_and_lt", Scalar (PyInt 7))]);
      [reflexivity|vm_compute; reflexivity]. }
  assert (primary_key (field k) = true) as Hpk by reflexivity.
  exists s1. split; [exact Harrives|].
  split; [vm_compute; reflexivity|]. split; [exact Hpk|].
  destruct (C10_negated_in_on_pk_mutates_excluded_pks _ _ _ _ _ _ Harrives Hpk)
    as [Hraise Hstate].
  split; [exact Hraise|]. rewrite Hstate. vm_compute. reflexivity.
Defined.

(** ** C2 *)

Lemma parse_leaf_plain_run k op v s :
  parse_leaf k op v false s =
  (Ok [(col k, op, prep_value (connection s) (model s) (field k) v)],
   snd (parse_leaf k op v false s)).
Proof.
  rewrite <- parse_leaf_plain. now destruct (parse_leaf k op v false s).
Qed.

(** C2, on the code: a range leaf on one column followed by a negated
    [exact] on another is normalized into two predicates, the range and the
    open range, and no error is raised; the inequality flag is consulted and
    set by negated [exact] leaves only. *)
Theorem C2_range_and_negated_equal_accepted
    (kA kB : Constraint) (opA : string) (vA vB : Value) (s : SelectCommand) :
  has_inequality_filter s = false ->
  fst (parse_where_and_check_projection
         (mkWhere AND false [Leaf kA opA vA; Sub (mkWhere AND true [Leaf kB "exact" vB])])
         false s)
  = Ok [(col kA, opA, prep_value (connection s) (model s) (field kA) vA);
        (col kB, "gt_and_lt", prep_value (connection s) (model s) (field kB) vB)].
Proof.
  intros Hineq.
  pose proof (parse_leaf_frame kA opA vA false s) as (Hc & Hm & _).
  pose proof (parse_leaf_has_inequality kA opA vA s) as Hi.
  rewrite parse_where_node. cbn [flip negb andb Connector_eqb].
  rewrite parse_children_cons_eq. cbn [parse_child].
  rewrite parse_leaf_plain_run.
  set (s1 := snd (parse_leaf kA opA vA false s)) in *.
  rewrite parse_children_cons_eq. cbn [parse_child].
  rewrite parse_where_node. cbn [flip negb andb Connector_eqb].
  rewrite parse_children_cons_eq. cbn [parse_child parse_children].
  pose proof (parse_leaf_negated kB "exact" vB s1) as Hn.
  rewrite Hi, Hineq, Hc, Hm in Hn. cbn [String.eqb Ascii.eqb Bool.eqb] in Hn.
  destruct (parse_leaf kB "exact" vB true s1) as [[r|e] s2]; cbn [fst] in Hn;
    [|discriminate].
  injection Hn as ->. reflexivity.
Qed.

Lemma C2_witness :
  let s := init_fields plain_connection (select_where ["name"] []) false false ["name"] in
  has_inequality_filter s = false
  /\ fst (parse_where_and_check_projection
            (mkWhere AND false
               [Leaf (on f_priority) "gt" (Scalar (PyInt 3));
                exclude [Leaf (on f_status) "exact" (Scalar (PyStr "open"))]])
            false s)
     = Ok [("priority", "gt", Scalar (PyInt 3));
           ("status", "gt_and_lt", Scalar (PyStr "open"))].
Proof.
  intros s. split; [reflexivity|].
  exact (C2_range_and_negated_equal_accepted (on f_priority) (on f_status) "gt"
           (Scalar (PyInt 3)) (Scalar (PyStr "open")) s eq_refl).
Defined.

(** Two negated [exact] leaves, in contrast, do raise the error. *)
Lemma second_negated_equal_raises (kA kB : Constraint) (vA vB : Value)
    (s : SelectCommand) :
  has_inequality_filter s = false ->
  fst (parse_where_and_check_projection
         (mkWhere AND true [Leaf kA "exact" vA; Leaf kB "exact" vB]) false s)
  = Raise MultipleInequalityFilters.
Proof.
  intros Hineq.
  rewrite parse_where_node. cbn [flip negb andb].
  rewrite parse_children_cons_eq. cbn [parse_child].
  pose proof (parse_leaf_negated kA "exact" vA s) as HA.
  pose proof (parse_leaf_inequality_after kA "exact" vA true s) as Hafter.
  rewrite Hineq in HA, Hafter.
  cbn [String.eqb Ascii.eqb Bool.eqb orb andb] in HA, Hafter.
  destruct (parse_leaf kA "exact" vA true s) as [[r|e] s1]; cbn [fst snd] in *;
    [|discriminate].
  rewrite parse_children_cons_eq. cbn [parse_child].
  pose proof (parse_leaf_negated kB "exact" vB s1) as HB.
  rewrite Hafter in HB. cbn [String.eqb Ascii.eqb Bool.eqb] in HB.
  destruct (parse_leaf kB "exact" vB true s1) as [[r'|e] s2]; cbn [fst] in HB;
    [discriminate|].
  injection HB as ->. reflexivity.
Qed.

(** ** What the walk keeps *)

Lemma keeps_refl s : keeps s s.
Proof. unfold keeps, same_frame. tauto. Qed.

Lemma keeps_trans s1 s2 s3 : keeps s1 s2 -> keeps s2 s3 -> keeps s1 s3.
Proof.
  unfold keeps, same_frame.
  intros ((?&?&?&?&?&?&?&?)&?) ((?&?&?&?&?&?&?&?)&?).
  repeat split; try congruence; auto.
Qed.

Lemma keeps_leaf k op v n s : keeps s (snd (parse_leaf k op v n s)).
Proof.
  split; [apply parse_leaf_frame|apply parse_leaf_never_returns].
Qed.

Lemma parse_where_keeps w n s :
  keeps s (snd (parse_where_and_check_projection w n s)).
Proof. apply parse_where_R; [apply keeps_refl|apply keeps_trans|apply keeps_leaf]. Qed.

(** ** [__init__], taken apart *)

Lemma init_Ok conn q k a self :
  __init__ conn q k a = Ok self ->
  exists pf w s',
    projection_fields_loop (q_model q) (column (pk (q_model q)))
                           (projection_input q k a) [] = Ok pf /\
    parse_where_and_check_projection (q_where q) false (init_fields conn q k a pf)
      = (Ok w, s') /\
    self = switch_pk_to_key (set_where w s').
Proof.
  unfold __init__. intros H.
  destruct (projection_fields_loop _ _ _ _) as [pf|e] eqn:Hloop; [|discriminate].
  destruct (parse_where_and_check_projection _ _ _) as [[w|e] s'] eqn:Hparse;
    [|discriminate].
  injection H as <-. exists pf, w, s'. auto.
Qed.

(** The last block of [__init__] touches [queried_fields] and [keys_only] only. *)
Lemma switch_pk_to_key_fields s :
  let s' := switch_pk_to_key s in
  projection s' = projection s /\
  query_can_never_return_results s' = query_can_never_return_results s /\
  all_filters s' = all_filters s /\ where_ s' = where_ s /\
  model s' = model s /\ pk_col s' = pk_col s /\ results s' = results s /\
  query s' = query s.
Proof.
  unfold switch_pk_to_key. destruct (list_index _ _); simpl; tauto.
Qed.

(** ** C6 *)

(** C6: when construction succeeds and the where tree holds, outside
    negation, a leaf on the primary key that is an [exact] with a null value
    or an [isnull], the object is flagged as never returning results, and
    [execute] returns with [results] set to the empty list, without
    compiling a query and without asking the datastore or the cache for
    anything, whatever the library, the indexes and the datastore are. *)
Theorem C6_null_primary_key_is_always_empty
    (conn : Connection) (q : DjangoQuery) (keys_only_arg all_fields : bool)
    (self : SelectCommand) (k : Constraint) (op : string) (v : Value) :
  __init__ conn q keys_only_arg all_fields = Ok self ->
  In (false, k, op, v) (tagged_leaves (q_where q) false) ->
  primary_key (field k) = true ->
  (is_None (prep_value conn (q_model q) (field k) v) && String.eqb op "exact")
    || String.eqb op "isnull" = true ->
  query_can_never_return_results self = true
  /\ forall (sdk : Sdk) (ix : Indexing) (b : Backend) (reg : Registry),
       exists self',
         execute sdk ix b reg self = (Ok self', [], reg)
         /\ results self' = Some (Entities [])
         /\ query self' = None
         /\ self' = set_results (Some (Entities [])) self.
Proof.
  intros Hinit Hin Hpk Hnull.
  apply init_Ok in Hinit as (pf & w & s' & _ & Hparse & ->).
  pose proof (parse_where_keeps (q_where q) false
                (init_fields conn q keys_only_arg all_fields pf)) as Hkeeps.
  rewrite Hparse in Hkeeps. cbn [snd] in Hkeeps.
  destruct Hkeeps as ((_ & _ & _ & _ & _ & Hquery & _) & _).
  assert (query_can_never_return_results s' = true) as Hflag.
  { pose proof (parse_where_visits keeps keeps_refl keeps_trans keeps_leaf
                  _ _ _ _ _ Hparse _ Hin) as (s1 & r1 & s2 & Hs1 & Hleaf & Hs2).
    destruct Hs1 as ((Hc & Hm & _) & _). destruct Hs2 as (_ & Hmono).
    apply Hmono.
    pose proof (parse_leaf_null_pk k op v s1 Hpk) as Hset.
    rewrite Hleaf, Hc, Hm in Hset. apply Hset. exact Hnull. }
  destruct (switch_pk_to_key_fields (set_where w s'))
    as (_ & Hflag' & _ & _ & _ & _ & _ & Hquery').
  cbn [query_can_never_return_results set_where] in Hflag'.
  rewrite Hflag in Hflag'.
  split; [exact Hflag'|].
  intros sdk ix b reg. eexists. unfold execute. rewrite Hflag'.
  split; [reflexivity|]. split; [reflexivity|]. split; [|reflexivity].
  cbn [query set_results]. rewrite Hquery'. cbn [query set_where].
  rewrite Hquery. reflexivity.
Qed.

Lemma C6_witness :
  let q := select_where ["name"]
             [Leaf (on f_name) "exact" (Scalar (PyStr "Ann"));
              Leaf (on f_id) "exact" (Scalar PyNone)] in
  let k := on f_id in
  (exists self self',
     __init__ plain_connection q false false = Ok self
     /\ query_can_never_return_results self = true
     /\ execute checking_library static_indexing warm_backend no_indexes self
        = (Ok self', [], no_indexes)
     /\ results self' = Some (Entities [])
     /\ query self' = None)
  /\ In (false, k, "exact", Scalar PyNone) (tagged_leaves (q_where q) false)
  /\ primary_key (field k) = true
  /\ (is_None (prep_value plain_connection (q_model q) (field k) (Scalar PyNone))
        && String.eqb "exact" "exact") || String.eqb "exact" "isnull" = true.
Proof.
  intros q k.
  assert (In (false, k, "exact", Scalar PyNone) (tagged_leaves (q_where q) false))
    as Hin by (simpl; auto).
  assert (primary_key (field k) = true) as Hpk by reflexivity.
  assert ((is_None (prep_value plain_connection (q_model q) (field k) (Scalar PyNone))
             && String.eqb "exact" "exact") || String.eqb "exact" "isnull" = true)
    as Hnull by reflexivity.
  split; [|split; [exact Hin|split; [exact Hpk|exact Hnull]]].
  destruct (__init__ plain_connection q false false) as [self|e] eqn:Hinit;
    [|vm_compute in Hinit; discriminate Hinit].
  destruct (C6_null_primary_key_is_always_empty plain_connection q false false self
              k "exact" (Scalar PyNone) Hinit Hin Hpk Hnull) as [Hflag Hexec].
  destruct (Hexec checking_library static_indexing warm_backend no_indexes)
    as (self' & Hrun & Hresults & Hquery & _).
  exists self, self'. split; [reflexivity|]. split; [exact Hflag|].
  split; [exact Hrun|]. split; [exact Hresults|exact Hquery].
Defined.

(** ** C1 *)

(** [all_filters] is set to the empty list by [__init__] and is assigned
    nowhere else. *)
Lemma init_all_filters conn q k a self :
  __init__ conn q k a = Ok self -> all_filters self = [].
Proof.
  intros H. apply init_Ok in H as (pf & w & s' & _ & Hparse & ->).
  destruct (switch_pk_to_key_fields (set_where w s')) as (_ & _ & -> & _).
  pose proof (parse_where_keeps (q_where q) false (init_fields conn q k a pf)) as Hk.
  rewrite Hparse in Hk. cbn [snd] in Hk.
  destruct Hk as ((_ & _ & _ & Ha & _) & _). cbn [all_filters set_where].
  rewrite Ha. reflexivity.
Qed.

(** C1, on the code: for every constructed command that is not flagged
    empty and compiles to a single query, [execute] makes exactly one
    datastore request and no cache request, whatever the unique
    combinations of the model and whatever the cache holds.  The
    unique-lookup branch of [_do_fetch] is guarded by [self.all_filters],
    which is always empty. *)
Theorem C1_single_query_never_reads_cache
    (conn : Connection) (q : DjangoQuery) (keys_only_arg all_fields : bool)
    (self : SelectCommand) (sdk : Sdk) (ix : Indexing) (b : Backend)
    (reg reg' : Registry) (dq : datastore_Query) :
  __init__ conn q keys_only_arg all_fields = Ok self ->
  query_can_never_return_results self = false ->
  compile_query sdk ix reg self = (Ok (Query dq), reg') ->
  exists self',
    execute sdk ix b reg self = (Ok self', [store_call self (Query dq)], reg').
Proof.
  intros Hinit Hflag Hcompile.
  pose proof (init_all_filters _ _ _ _ _ Hinit) as Hall.
  unfold execute. rewrite Hflag, Hcompile.
  unfold _do_fetch. cbn [results query set_results set_query set_query_done
                         set_aggregate_type all_filters aggregate_type truthy].
  rewrite Hall. cbn [is_empty negb]. unfold _run_query, store_call.
  cbn [aggregate_type set_aggregate_type set_query_done set_results set_query
       is_count].
  destruct (is_empty (is_count self)); cbn; eauto.
Qed.

Lemma C1_witness :
  exists self,
    __init__ plain_connection email_query false false = Ok self
    /\ query_can_never_return_results self = false
    /\ compile_query checking_library static_indexing no_indexes self
       = (Ok (Query email_datastore_query), no_indexes)
    /\ get_uniques_from_model warm_backend (model self) = [["email"]]
    /\ get_entity_from_cache warm_backend "User|email" = Some cached_user
    /\ exists self',
         execute checking_library static_indexing warm_backend no_indexes self
         = (Ok self', [StoreRun (Query email_datastore_query)], no_indexes).
Proof.
  destruct (__init__ plain_connection email_query false false) as [self|e] eqn:Hinit;
    [|vm_compute in Hinit; discriminate Hinit].
  exists self. split; [reflexivity|].
  pose proof Hinit as Hself. vm_compute in Hself. injection Hself as Hself.
  assert (query_can_never_return_results self = false) as Hflag
    by (rewrite <- Hself; reflexivity).
  assert (compile_query checking_library static_indexing no_indexes self
          = (Ok (Query email_datastore_query), no_indexes)) as Hcompile
    by (rewrite <- Hself; vm_compute; reflexivity).
  split; [exact Hflag|]. split; [exact Hcompile|].
  split; [reflexivity|]. split; [reflexivity|].
  destruct (C1_single_query_never_reads_cache plain_connection email_query false false
              self checking_library static_indexing warm_backend no_indexes no_indexes
              email_datastore_query Hinit Hflag Hcompile) as [self' Hexec].
  exists self'. rewrite Hexec. unfold store_call. rewrite <- Hself. reflexivity.
Defined.

(** The unique-lookup branch itself works: with the equality filter
    recorded in [all_filters], [_do_fetch] asks the cache once and, on a
    hit, returns the cached entity without a datastore request. *)
Lemma do_fetch_reads_cache_when_filters_are_recorded :
  let self :=
    with_recorded_filters [("email", "=", Scalar (PyStr "a@b.com"))]
      (set_query (Some (Query email_datastore_query))
         (init_fields plain_connection email_query false false ["name"])) in
  snd (_do_fetch warm_backend self) = [CacheGet "User|email"]
  /\ (exists self', fst (_do_fetch warm_backend self) = Ok self'
                    /\ results self' = Some (Entities [cached_user])).
Proof.
  split; [vm_compute; reflexivity|].
  eexists. split; [vm_compute; reflexivity|]. vm_compute. reflexivity.
Qed.

(** ** Calls into the library *)

Lemma set_filter_Ok sdk key value q q' :
  set_filter sdk key value q = Ok q' <->
  check_filter sdk q key value = None /\ q' = dict_setitem key value q.
Proof.
  unfold set_filter. destruct (check_filter sdk q key value) as [e|]; split.
  - discriminate.
  - intros [H _]. discriminate H.
  - intros [= <-]. auto.
  - intros [_ ->]. reflexivity.
Qed.

Lemma set_filter_Raise sdk key value q e :
  set_filter sdk key value q = Raise e <-> check_filter sdk q key value = Some e.
Proof.
  unfold set_filter. destruct (check_filter sdk q key value) as [e'|]; split;
    congruence.
Qed.

Lemma new_member_Ok sdk self query key value m :
  new_member sdk self query key value = Ok m <->
  accepts_member sdk self query key value /\ m = member self query key value.
Proof.
  unfold new_member, new_query_from, update, accepts_member, own_table_copy, member,
    datastore_Query_new.
  cbn [kind ds_projection filters orderings].
  rewrite (right_id_L ∅ (∪)).
  destruct (check_update sdk _ query) as [e|]; cbn [res_bind].
  - split; [discriminate|]. intros [[H _] _]. discriminate H.
  - rewrite set_filter_Ok. unfold dict_setitem. cbn [kind ds_projection filters orderings].
    split.
    + intros [H ->]. auto.
    + intros [[_ H] ->]. auto.
Qed.

Lemma for_each_Ok {A B} (body : A -> Res B) (l : list A) :
  forall ys, for_each body l = Ok ys -> Forall2 (fun x y => body x = Ok y) l ys.
Proof.
  induction l as [|x l IH]; intros ys H; cbn [for_each] in H.
  - injection H as <-. constructor.
  - destruct (body x) as [y|e] eqn:Hx; cbn [res_bind] in H; [|discriminate].
    destruct (for_each body l) as [ys'|e]; cbn [res_bind] in H; [|discriminate].
    injection H as <-. constructor; [exact Hx|now apply IH].
Qed.

Lemma for_each_map {A B} (body : A -> Res B) (g : A -> B) (l : list A) :
  (forall x, In x l -> body x = Ok (g x)) -> for_each body l = Ok (map g l).
Proof.
  induction l as [|x l IH]; intros H; [reflexivity|].
  cbn [for_each map]. rewrite (H x) by now left. cbn [res_bind].
  rewrite IH by (intros y Hy; apply H; now right). reflexivity.
Qed.

Lemma for_each_members sdk self query (key : string -> string) (value : string -> Value)
    (l : list string) qs :
  for_each (fun x => new_member sdk self query (key x) (value x)) l = Ok qs ->
  qs = map (fun x => member self query (key x) (value x)) l
  /\ forall x, In x l -> accepts_member sdk self query (key x) (value x).
Proof.
  intros H. apply for_each_Ok in H.
  induction H as [|x m l qs Hx _ IH]; [split; [reflexivity|intros x []]|].
  apply new_member_Ok in Hx as [Hacc ->]. destruct IH as [-> Hall].
  split; [reflexivity|]. intros y [<-|Hy]; auto.
Qed.

Lemma for_each_scalars sdk self query key (vals : list scalar) qs :
  for_each (fun val => new_member sdk self query key (Scalar val)) vals = Ok qs ->
  qs = map (fun val => member self query key (Scalar val)) vals
  /\ forall val, In val vals -> accepts_member sdk self query key (Scalar val).
Proof.
  intros H. apply for_each_Ok in H.
  induction H as [|x m l qs' Hx _ IH]; [split; [reflexivity|intros x []]|].
  apply new_member_Ok in Hx as [Hacc ->]. destruct IH as [-> Hall].
  split; [reflexivity|]. intros y [<-|Hy]; auto.
Qed.

Lemma expand_query_Ok sdk self f query qs :
  expand_query sdk self f query = Ok qs -> qs = members_of self f query.
Proof.
  destruct f as [[c op] v]. unfold expand_query, members_of.
  destruct (String.eqb op "in").
  - destruct (iter_value v) as [vals|e]; cbn [res_bind]; [|discriminate].
    intros H. now apply for_each_scalars in H as [-> _].
  - destruct (String.eqb op "gt_and_lt"); [|now intros [= <-]].
    intros H.
    apply (for_each_members sdk self query (filter_key c) (fun _ => v)) in H
      as [-> _].
    reflexivity.
Qed.

Lemma kind_member self query key value :
  kind (member self query key value) = db_table (model self).
Proof. reflexivity. Qed.

(** ** C9 *)

Lemma members_of_kind self f query :
  Forall (on_own_table self) (members_of self f query).
Proof.
  destruct f as [[c op] v]. unfold members_of.
  destruct (String.eqb op "in").
  - destruct (iter_value v) as [vals|e]; [|constructor].
    apply List.Forall_forall. intros q Hq.
    apply in_map_iff in Hq as (val & <- & _). reflexivity.
  - destruct (String.eqb op "gt_and_lt"); repeat constructor.
Qed.

Lemma expand_query_kind sdk self f query qs :
  expand_query sdk self f query = Ok qs -> Forall (on_own_table self) qs.
Proof. intros H. apply expand_query_Ok in H as ->. apply members_of_kind. Qed.

Lemma expand_queries_kind sdk self f queries qs :
  expand_queries sdk self f queries = Ok qs -> Forall (on_own_table self) qs.
Proof.
  revert qs. induction queries as [|query rest IH]; simpl; intros qs H.
  - injection H as <-. constructor.
  - destruct (expand_query sdk self f query) as [a|e] eqn:Ha; simpl in H;
      [|discriminate].
    destruct (expand_queries sdk self f rest) as [b|e] eqn:Hb; simpl in H;
      [|discriminate].
    injection H as <-. apply Forall_app. split; [eapply expand_query_kind|]; eauto.
Qed.

Lemma expand_all_kind sdk self cf queries qs :
  (cf <> [] \/ Forall (on_own_table self) queries) ->
  expand_all sdk self cf queries = Ok qs -> Forall (on_own_table self) qs.
Proof.
  revert queries. induction cf as [|f rest IH]; simpl; intros queries Hor H.
  - injection H as <-. destruct Hor as [Hne|Hall]; [congruence|exact Hall].
  - destruct (expand_queries sdk self f queries) as [new|e] eqn:Hnew; simpl in H;
      [|discriminate].
    apply (IH new); [right; eapply expand_queries_kind; eauto|exact H].
Qed.

Lemma base_query_kind sdk self q0 :
  base_query sdk self = Ok q0 ->
  kind q0 = db_table (inheritance_root (model self))
  /\ ds_projection q0 = projection self /\ orderings q0 = [].
Proof.
  unfold base_query. destruct (negb _ && negb _).
  - rewrite set_filter_Ok. intros [_ ->]. auto.
  - intros [= <-]. auto.
Qed.

(** What compilation went through when it returned. *)
Lemma compile_query_Ok sdk ix reg self cq reg' :
  compile_query sdk ix reg self = (Ok cq, reg') ->
  exists q0 query cf,
    base_query sdk self = Ok q0
    /\ where_loop sdk ix self q0 [] reg (where_ self) = (Ok (query, cf), reg')
    /\ match cf with
       | [] => exists q', Order sdk (compiled_ordering self) query = Ok q'
                          /\ cq = Query q'
       | _ => exists qs, expand_all sdk self cf [query] = Ok qs
                         /\ check_multi sdk qs (compiled_ordering self) = None
                         /\ cq = MultiQuery qs (compiled_ordering self)
       end.
Proof.
  unfold compile_query. intros H.
  destruct (base_query sdk self) as [q0|e]; [|discriminate].
  destruct (where_loop sdk ix self q0 [] reg (where_ self))
    as [[[query cf]|e] reg1] eqn:Hloop; [|discriminate].
  exists q0, query, cf. split; [reflexivity|].
  destruct cf as [|f rest].
  - destruct (Order sdk (compiled_ordering self) query) as [q'|e] eqn:Ho;
      cbn [res_bind] in H; [|discriminate].
    injection H as <- <-. split; [exact Hloop|]. eauto.
  - destruct (expand_all sdk self (f :: rest) [query]) as [qs|e] eqn:Hex;
      cbn [res_bind] in H; [|discriminate].
    unfold datastore_MultiQuery in H.
    destruct (check_multi sdk qs (compiled_ordering self)) as [e|] eqn:Hm;
      [discriminate|].
    injection H as <- <-. split; [exact Hloop|]. eauto.
Qed.

(** C9: the query [execute] starts from is built on the table of the
    inheritance root, and whenever [execute] compiles a multi-query, every
    member of it is built on the model's own table, whatever the parents of
    the model are and whatever the library accepts. *)
Theorem C9_expanded_queries_use_own_table
    (sdk : Sdk) (ix : Indexing) (reg reg' : Registry) (self : SelectCommand)
    (qs : list datastore_Query) (o : list (string * Direction)) :
  compile_query sdk ix reg self = (Ok (MultiQuery qs o), reg') ->
  (exists q0, base_query sdk self = Ok q0
              /\ kind q0 = db_table (inheritance_root (model self)))
  /\ Forall (fun q => kind q = db_table (model self)) qs.
Proof.
  intros H. apply compile_query_Ok in H as (q0 & query & cf & Hbase & _ & Hcf).
  split.
  - exists q0. split; [exact Hbase|]. now apply base_query_kind in Hbase as [? _].
  - destruct cf as [|f rest].
    + destruct Hcf as (q' & _ & [=]).
    + destruct Hcf as (qs' & Hex & _ & [= -> _]).
      eapply (expand_all_kind sdk self (f :: rest)); [left; discriminate|exact Hex].
Qed.

Lemma C9_witness :
  exists self qs q0,
    __init__ plain_connection employee_query false false = Ok self
    /\ compile_query checking_library static_indexing no_indexes self
       = (Ok (MultiQuery qs []), no_indexes)
    /\ concrete_parents (model self) = [Person]
    /\ List.length qs = 2%nat
    /\ base_query checking_library self = Ok q0
    /\ kind q0 = "app_person"
    /\ Forall (fun q => kind q = "app_employee") qs.
Proof.
  destruct (__init__ plain_connection employee_query false false) as [self|e] eqn:Hinit;
    [|vm_compute in Hinit; discriminate Hinit].
  pose proof Hinit as Hself. vm_compute in Hself. injection Hself as Hself.
  destruct (compile_query checking_library static_indexing no_indexes self)
    as [[[dq|qs o]|e] reg'] eqn:Hcompile;
    try (rewrite <- Hself in Hcompile; vm_compute in Hcompile; discriminate Hcompile).
  pose proof (C9_expanded_queries_use_own_table _ _ _ _ _ _ _ Hcompile)
    as [(q0 & Hbase & Hkind) Hall].
  exists self, qs, q0.
  pose proof Hcompile as Hc. rewrite <- Hself in Hc. vm_compute in Hc.
  injection Hc as Hqs Ho Hreg.
  split; [reflexivity|]. split; [rewrite Hcompile, <- Ho, <- Hreg; reflexivity|].
  split; [rewrite <- Hself; reflexivity|].
  split; [rewrite <- Hqs; reflexivity|].
  split; [exact Hbase|].
  split; [rewrite Hkind, <- Hself; reflexivity|].
  replace "app_employee" with (db_table (model self)) by (rewrite <- Hself; reflexivity).
  exact Hall.
Defined.

(** ** C8 *)

Lemma where_loop_app sdk ix self q cf reg pre post :
  where_loop sdk ix self q cf reg (pre ++ post) =
  match where_loop sdk ix self q cf reg pre with
  | (Ok (q1, cf1), reg1) => where_loop sdk ix self q1 cf1 reg1 post
  | (Raise e, reg1) => (Raise e, reg1)
  end.
Proof.
  revert q cf reg. induction pre as [|f pre IH]; intros q cf reg; simpl; [reflexivity|].
  destruct (where_step sdk ix self q cf reg f) as [[[q1 cf1]|e] reg1];
    [apply IH|reflexivity].
Qed.





(** ** C7 *)

Lemma projection_fields_loop_spec m pkc fs acc pf :
  projection_fields_loop m pkc fs acc = Ok pf ->
  let cands := List.filter (fun c => negb (String.eqb c pkc)) fs in
  (existsb (unindexed m) cands = true /\ pf = [])
  \/ (existsb (unindexed m) cands = false /\ pf = acc ++ cands).
Proof.
  revert acc. induction fs as [|f rest IH]; intros acc; cbn [projection_fields_loop].
  - intros [= <-]. right. simpl. now rewrite app_nil_r.
  - cbn [List.filter]. destruct (String.eqb f pkc); cbn [negb]; [apply IH|].
    cbn [existsb]. unfold unindexed at 1 3.
    destruct (get_field_from_column m f) as [fld|]; [|discriminate].
    destruct (str_in (db_type fld) ["bytes"; "text"]).
    + intros [= <-]. left. auto.
    + intros H. apply IH in H. cbn [orb]. rewrite <- app_assoc in H. exact H.
Qed.

Lemma fold_drop_None ts : fold_left drop_on ts None = None.
Proof.
  induction ts as [|[[[n k] op] v] ts IH]; [reflexivity|exact IH].
Qed.

Lemma fold_drop_Some (S : gset string) ts :
  fold_left drop_on ts (Some S) =
  if existsb (fun t => in_projection (Some S) (col (snd (fst (fst t))))
                       && equality_op (snd (fst t))) ts
  then None else Some S.
Proof.
  induction ts as [|[[[n k] op] v] ts IH]; [reflexivity|].
  cbn [fold_left existsb drop_on fst snd].
  set (b := in_projection (Some S) (col k) && equality_op op).
  destruct b; cbn [orb]; [apply fold_drop_None|exact IH].
Qed.

(** A walk that returns has applied every leaf to the projection. *)
Lemma parse_where_projection w :
  forall n s r s', parse_where_and_check_projection w n s = (Ok r, s') ->
    projection s' = fold_left drop_on (tagged_leaves w n) (projection s).
Proof.
  induction w using WhereNode_tree_ind
    with (Q := fun ch => forall n s r s', parse_child ch n s = (Ok r, s') ->
                 projection s' = fold_left drop_on (child_leaves ch n) (projection s)).
  - intros neg s r s'. rewrite parse_where_node, tagged_leaves_node.
    destruct (negb _ && negb _); [discriminate|].
    generalize (flip n neg). clear neg. intros neg. revert s r.
    induction H as [|ch rest Hch _ IH]; intros s r Hrun.
    + injection Hrun as _ <-. reflexivity.
    + apply parse_children_cons in Hrun as (r1 & s1 & r2 & H1 & H2 & _).
      cbn [children_leaves]. rewrite fold_left_app.
      rewrite <- (Hch _ _ _ _ H1). eapply IH; eauto.
  - intros neg s r s' Hrun. cbn [parse_child child_leaves fold_left drop_on] in *.
    pose proof (parse_leaf_projection k op v neg s) as Hp.
    rewrite Hrun in Hp. exact Hp.
  - intros neg s r s' Hrun. cbn [parse_child child_leaves] in *. eauto.
Qed.

Lemma in_projection_list_to_set (cands : list string) (c : string) :
  in_projection (Some (list_to_set cands)) c = existsb (String.eqb c) cands.
Proof.
  unfold in_projection. apply eq_true_iff_eq. rewrite bool_decide_eq_true.
  rewrite elem_of_list_to_set, list_elem_of_In, existsb_exists.
  split.
  - intros Hin. exists c. split; [exact Hin|apply String.eqb_refl].
  - intros (x & Hin & Heq). apply String.eqb_eq in Heq as ->. exact Hin.
Qed.

Lemma some_leaf_filters_candidate w cands :
  existsb (fun t : TaggedLeaf =>
             in_projection (Some (list_to_set cands)) (col (snd (fst (fst t))))
             && equality_op (snd (fst t))) (tagged_leaves w false)
  = existsb (filters_by_equality w) cands.
Proof.
  apply eq_true_iff_eq. unfold filters_by_equality. rewrite !existsb_exists. split.
  - intros ([[[n k] op] v] & Hin & H). cbn [fst snd] in H.
    apply andb_true_iff in H as [Hc Hop].
    rewrite in_projection_list_to_set in Hc.
    apply existsb_exists in Hc as (c & Hcin & Heq).
    exists c. split; [exact Hcin|]. apply existsb_exists.
    exists (n, k, op, v). split; [exact Hin|]. cbn [equality_on]. now rewrite Heq, Hop.
  - intros (c & Hcin & H). apply existsb_exists in H as ([[[n k] op] v] & Hin & H).
    cbn [equality_on] in H. apply andb_true_iff in H as [Heq Hop].
    exists (n, k, op, v). split; [exact Hin|]. cbn [fst snd].
    rewrite in_projection_list_to_set, Hop, andb_true_r.
    apply existsb_exists. exists c. auto.
Qed.

(** The projection of a constructed command, from the projection the walk
    started with. *)
Lemma init_projection conn q k a self :
  __init__ conn q k a = Ok self ->
  exists pf,
    projection_fields_loop (q_model q) (column (pk (q_model q)))
                           (projection_input q k a) [] = Ok pf
    /\ projection self =
       fold_left drop_on (tagged_leaves (q_where q) false)
                 (match parents (q_model q) with
                  | [] => projection_of pf
                  | _ => None
                  end).
Proof.
  intros H. apply init_Ok in H as (pf & w & s' & Hloop & Hparse & ->).
  exists pf. split; [exact Hloop|].
  destruct (switch_pk_to_key_fields (set_where w s')) as (-> & _).
  cbn [projection set_where].
  now rewrite (parse_where_projection _ _ _ _ _ Hparse).
Qed.

(** *** Removing the equality filters on candidate columns *)

Lemma without_equality_on_node cands connector w_negated children :
  without_equality_on cands (mkWhere connector w_negated children) =
  mkWhere connector w_negated (flat_map (child_without_equality_on cands) children).
Proof.
  reflexivity.
Qed.

Lemma parse_leaf_free k op v n s t r s' :
  at_least_as_free s t ->
  parse_leaf k op v n s = (Ok r, s') ->
  at_least_as_free s' t
  /\ exists r' t', parse_leaf k op v n t = (Ok r', t') /\ at_least_as_free s' t'.
Proof.
  intros (Hc & Hm & Hi) Hrun.
  pose proof (parse_leaf_frame k op v n s) as (Hc' & Hm' & _).
  pose proof (parse_leaf_inequality_after k op v n s) as Hi'.
  rewrite Hrun in Hc', Hm', Hi'. cbn [snd] in Hc', Hm', Hi'.
  split.
  { repeat split; try congruence. intros Ht. rewrite Hi', (Hi Ht). reflexivity. }
  pose proof (parse_leaf_frame k op v n t) as (Hct & Hmt & _).
  pose proof (parse_leaf_inequality_after k op v n t) as Hit.
  assert (exists r', fst (parse_leaf k op v n t) = Ok r') as [r' Hr'].
  { destruct n.
    - pose proof (parse_leaf_negated k op v s) as Hs.
      rewrite Hrun in Hs. cbn [fst] in Hs.
      rewrite parse_leaf_negated.
      destruct (String.eqb op "exact"); [|discriminate].
      destruct (has_inequality_filter s); [discriminate|].
      destruct (has_inequality_filter t); [specialize (Hi eq_refl); discriminate|].
      eauto.
    - rewrite parse_leaf_plain. eauto. }
  destruct (parse_leaf k op v n t) as [rt t'] eqn:Ht. cbn [fst snd] in *. subst rt.
  exists r', t'. split; [reflexivity|].
  repeat split; try congruence.
  rewrite Hit, Hi'. intros H. apply orb_true_iff in H as [H| ->];
    [rewrite (Hi H); reflexivity|apply orb_true_r].
Qed.

Lemma parse_without_equality_on cands w :
  forall n s t r s',
    at_least_as_free s t ->
    parse_where_and_check_projection w n s = (Ok r, s') ->
    exists r' t',
      parse_where_and_check_projection (without_equality_on cands w) n t = (Ok r', t')
      /\ at_least_as_free s' t'.
Proof.
  induction w using WhereNode_tree_ind
    with (Q := fun ch => forall n s t r s',
                 at_least_as_free s t ->
                 parse_child ch n s = (Ok r, s') ->
                 exists r' t',
                   parse_children (child_without_equality_on cands ch) n t = (Ok r', t')
                   /\ at_least_as_free s' t').
  - intros neg s t r s' Hfree.
    rewrite without_equality_on_node, !parse_where_node.
    destruct (negb _ && negb _); [discriminate|].
    generalize (flip n neg). clear neg. intros neg. revert s t r Hfree.
    induction H as [|ch rest Hch _ IH]; intros s t r Hfree Hrun.
    + injection Hrun as _ <-. exists [], t. auto.
    + apply parse_children_cons in Hrun as (r1 & s1 & r2 & H1 & H2 & _).
      destruct (Hch _ _ _ _ _ Hfree H1) as (r1' & t1 & Ht1 & Hfree1).
      destruct (IH _ _ _ Hfree1 H2) as (r2' & t2 & Ht2 & Hfree2).
      exists (r1' ++ r2'), t2. split; [|exact Hfree2].
      cbn [flat_map]. rewrite parse_children_app, Ht1, Ht2. reflexivity.
  - intros neg s t r s' Hfree Hrun. cbn [parse_child child_without_equality_on] in *.
    destruct (parse_leaf_free _ _ _ _ _ _ _ _ Hfree Hrun) as (Hskip & r' & t' & Ht & Hkeep).
    destruct (str_in (col k) cands && equality_op op).
    + exists [], t. auto.
    + exists (r' ++ []), t'. split; [|exact Hkeep].
      rewrite parse_children_cons_eq. cbn [parse_child parse_children].
      rewrite Ht. reflexivity.
  - intros neg s t r s' Hfree Hrun. cbn [parse_child child_without_equality_on] in *.
    destruct (IHw _ _ _ _ _ Hfree Hrun) as (r' & t' & Ht & Hkeep).
    exists (r' ++ []), t'. split; [|exact Hkeep].
    rewrite parse_children_cons_eq. cbn [parse_child parse_children].
    rewrite Ht. reflexivity.
Qed.

Lemma leaves_without_equality_on cands w :
  forall n,
    existsb (fun t : TaggedLeaf =>
               in_projection (Some (list_to_set cands)) (col (snd (fst (fst t))))
               && equality_op (snd (fst t)))
            (tagged_leaves (without_equality_on cands w) n) = false.
Proof.
  induction w using WhereNode_tree_ind
    with (Q := fun ch => forall n,
                 existsb (fun t : TaggedLeaf =>
                            in_projection (Some (list_to_set cands))
                                          (col (snd (fst (fst t))))
                            && equality_op (snd (fst t)))
                         (children_leaves (child_without_equality_on cands ch) n)
                 = false).
  - intros neg. rewrite without_equality_on_node, tagged_leaves_node.
    generalize (flip n neg). clear neg. intros neg.
    induction H as [|ch rest Hch _ IH]; [reflexivity|].
    cbn [flat_map].
    assert (forall a b, children_leaves (a ++ b) neg
                        = children_leaves a neg ++ children_leaves b neg) as Happ.
    { induction a as [|x a IHa]; intros b; cbn [children_leaves app]; [reflexivity|].
      now rewrite IHa, app_assoc. }
    rewrite Happ, existsb_app, Hch, IH. reflexivity.
  - intros neg. cbn [child_without_equality_on].
    destruct (str_in (col k) cands && equality_op op) eqn:Hoff; [reflexivity|].
    cbn [children_leaves child_leaves app existsb fst snd].
    rewrite in_projection_list_to_set. unfold str_in in Hoff. rewrite Hoff. reflexivity.
  - intros neg. cbn [child_without_equality_on children_leaves child_leaves].
    rewrite app_nil_r. apply IHw.
Qed.

(** *** The theorem *)

(** C7, as stated, fails: a query that selects only the primary key has
    no candidate column, so no candidate is [text] or [bytes] and none is
    filtered by equality, and [User] has no parents; yet the command has no
    projection. *)
Lemma C7_no_candidate_no_projection :
  exists self,
    __init__ plain_connection pk_only_query false false = Ok self
    /\ projection self = None
    /\ existsb (unindexed User) (projection_candidates pk_only_query false false) = false
    /\ parents User = []
    /\ existsb (filters_by_equality (q_where pk_only_query))
               (projection_candidates pk_only_query false false) = false.
Proof.
  eexists. split; [vm_compute; reflexivity|]. repeat split.
Qed.

(** C7 (amended): for every constructed command the projection is dropped
    exactly when there is no candidate column, some candidate column has
    store type [text] or [bytes], the model has parents, or some candidate
    column is the column of an [exact], [in] or [isnull] leaf of the where
    tree (under negation or not); otherwise it is the set of the candidate
    columns.  For the same query without the equality leaves on candidate
    columns, construction succeeds as well and the last condition is
    gone. *)
Theorem C7_projection_feasibility
    (conn : Connection) (q : DjangoQuery) (keys_only_arg all_fields : bool)
    (self : SelectCommand) :
  __init__ conn q keys_only_arg all_fields = Ok self ->
  let cands := projection_candidates q keys_only_arg all_fields in
  let blocked := projection_blocked q keys_only_arg all_fields in
  projection self =
    (if blocked || existsb (filters_by_equality (q_where q)) cands
     then None else Some (list_to_set cands))
  /\ exists self',
       __init__ conn (set_q_where (without_equality_on cands (q_where q)) q)
                keys_only_arg all_fields = Ok self'
       /\ projection self' = (if blocked then None else Some (list_to_set cands)).
Proof.
  intros Hinit cands blocked.
  assert (forall pf,
            projection_fields_loop (q_model q) (column (pk (q_model q)))
                                   (projection_input q keys_only_arg all_fields) []
            = Ok pf ->
            match parents (q_model q) with
            | [] => projection_of pf
            | _ => None
            end = if blocked then None else Some (list_to_set cands)) as Hstart.
  { intros pf Hloop. apply projection_fields_loop_spec in Hloop.
    fold (projection_candidates q keys_only_arg all_fields) in Hloop. fold cands in Hloop.
    subst blocked. unfold projection_blocked. fold cands.
    destruct (parents (q_model q)) as [|p ps];
      [|cbn [is_empty negb]; now rewrite orb_true_r].
    cbn [is_empty negb]. rewrite orb_false_r.
    destruct Hloop as [[-> ->]|[-> ->]]; [now rewrite orb_true_r|].
    rewrite orb_false_r. cbn [app]. destruct cands; reflexivity. }
  split.
  - apply init_projection in Hinit as (pf & Hloop & ->).
    rewrite (Hstart pf Hloop).
    destruct blocked; cbn [orb]; [apply fold_drop_None|].
    rewrite fold_drop_Some. now rewrite some_leaf_filters_candidate.
  - apply init_Ok in Hinit as (pf & w & s' & Hloop & Hparse & _).
    set (s0 := init_fields conn q keys_only_arg all_fields pf) in *.
    assert (at_least_as_free s0 s0) as Hfree by (unfold at_least_as_free; tauto).
    destruct (parse_without_equality_on cands _ _ _ _ _ _ Hfree Hparse)
      as (r' & t' & Ht & _).
    exists (switch_pk_to_key (set_where r' t')). split.
    + unfold __init__. cbn [q_model set_q_where q_where].
      change (projection_input (set_q_where (without_equality_on cands (q_where q)) q)
                               keys_only_arg all_fields)
        with (projection_input q keys_only_arg all_fields).
      rewrite Hloop.
      change (init_fields conn (set_q_where (without_equality_on cands (q_where q)) q)
                          keys_only_arg all_fields pf) with s0.
      rewrite Ht. reflexivity.
    + destruct (switch_pk_to_key_fields (set_where r' t')) as (-> & _).
      cbn [projection set_where].
      rewrite (parse_where_projection _ _ _ _ _ Ht).
      subst s0. cbn [projection init_fields]. rewrite (Hstart pf Hloop).
      destruct blocked; [apply fold_drop_None|].
      rewrite fold_drop_Some. now rewrite leaves_without_equality_on.
Qed.

Lemma C7_witness :
  exists self,
    __init__ plain_connection name_email_query false false = Ok self
    /\ projection_candidates name_email_query false false = ["name"; "email"; "name"]
    /\ projection self = None
    /\ exists self',
         __init__ plain_connection
                  (select_where ["name"; "email"; "name"]
                     [Leaf (on f_priority) "gt" (Scalar (PyInt 3))]) false false
         = Ok self'
         /\ projection self' = Some {[ "name"; "email" ]}.
Proof.
  destruct (__init__ plain_connection name_email_query false false) as [self|e] eqn:Hinit;
    [|vm_compute in Hinit; discriminate Hinit].
  exists self. split; [reflexivity|]. split; [reflexivity|].
  destruct (C7_projection_feasibility plain_connection name_email_query false false
              self Hinit) as (Hp & self' & Hinit' & Hp').
  split; [exact Hp|].
  exists self'. split; [exact Hinit'|].
  rewrite Hp'. vm_compute. reflexivity.
Defined.

(** ** The walk as a loop over the leaves *)

Lemma run_leaves_app ts ts' s :
  run_leaves (ts ++ ts') s =
  match run_leaves ts s with
  | (Ok r1, s1) =>
    match run_leaves ts' s1 with
    | (Ok r2, s2) => (Ok (r1 ++ r2), s2)
    | (Raise e, s2) => (Raise e, s2)
    end
  | (Raise e, s1) => (Raise e, s1)
  end.
Proof.
  revert s. induction ts as [|[[[n k] op] v] ts IH]; intros s; cbn [app run_leaves].
  - unfold ret. destruct (run_leaves ts' s) as [[r2|e] s2]; reflexivity.
  - unfold bind. destruct (parse_leaf k op v n s) as [[r|e] s0]; [|reflexivity].
    rewrite IH.
    destruct (run_leaves ts s0) as [[r1|e] s1]; [|reflexivity].
    unfold ret; cbn [fst snd].
    destruct (run_leaves ts' s1) as [[r2|e] s2]; [|reflexivity].
    now rewrite app_assoc.
Qed.

(** A walk that returns is the loop over its leaves. *)
Lemma parse_where_run_leaves w :
  forall n s r s', parse_where_and_check_projection w n s = (Ok r, s') ->
    run_leaves (tagged_leaves w n) s = (Ok r, s').
Proof.
  induction w using WhereNode_tree_ind
    with (Q := fun ch => forall n s r s', parse_child ch n s = (Ok r, s') ->
                 run_leaves (child_leaves ch n) s = (Ok r, s')).
  - intros neg s r s'. rewrite parse_where_node, tagged_leaves_node.
    destruct (negb _ && negb _); [discriminate|].
    generalize (flip n neg). clear neg. intros neg. revert s r.
    induction H as [|ch rest Hch _ IH]; intros s r Hrun.
    + exact Hrun.
    + apply parse_children_cons in Hrun as (r1 & s1 & r2 & H1 & H2 & ->).
      cbn [children_leaves]. rewrite run_leaves_app.
      rewrite (Hch _ _ _ _ H1), (IH _ _ H2). reflexivity.
  - intros neg s r s' Hrun. cbn [parse_child child_leaves run_leaves] in *.
    unfold bind, ret. rewrite Hrun. now rewrite app_nil_r.
  - intros neg s r s' Hrun. cbn [parse_child child_leaves] in *. eauto.
Qed.

Lemma run_leaves_cons n k op v rest s r s' :
  run_leaves ((n, k, op, v) :: rest) s = (Ok r, s') ->
  exists r1 s1 r2,
    parse_leaf k op v n s = (Ok r1, s1)
    /\ run_leaves rest s1 = (Ok r2, s') /\ r = r1 ++ r2.
Proof.
  cbn [run_leaves]. intros H.
  apply bind_Ok in H as (r1 & s1 & H1 & H).
  apply bind_Ok in H as (r2 & s2 & H2 & H).
  unfold ret in H. injection H as <- <-. eauto 6.
Qed.

(** What a leaf that is accepted returns, and when a negated one is. *)
Lemma parse_leaf_Ok k op v n s r s' :
  parse_leaf k op v n s = (Ok r, s') ->
  r = [normalized_leaf (connection s) (model s) (n, k, op, v)]
  /\ (n = true -> op = "exact" /\ has_inequality_filter s = false).
Proof.
  intros H. destruct n.
  - pose proof (parse_leaf_negated k op v s) as Hn. rewrite H in Hn. cbn [fst] in Hn.
    destruct (String.eqb op "exact") eqn:Hop; [|discriminate].
    destruct (has_inequality_filter s); [discriminate|].
    injection Hn as ->. apply String.eqb_eq in Hop. auto.
  - pose proof (parse_leaf_plain k op v s) as Hp. rewrite H in Hp. cbn [fst] in Hp.
    injection Hp as ->. split; [reflexivity|discriminate].
Qed.

Lemma parse_leaf_included k op v n s :
  included_pks (snd (parse_leaf k op v n s))
  = included_pks s ++ included_of (connection s) (model s) (n, k, op, v).
Proof.
  run_leaf. unfold included_of, null_pk_leaf. simpl.
  destruct (in_projection (projection s) (col k) && _); simpl;
    destruct n; simpl; destruct (primary_key (field k)); simpl;
    destruct (String.eqb op "exact"); simpl;
    try destruct (has_inequality_filter s); simpl;
    try destruct (is_None _); simpl;
    try destruct (String.eqb op "isnull"); simpl;
    try destruct (String.eqb op "in"); simpl;
    try destruct (has_inequality_filter s); simpl;
    rewrite ?app_nil_r; reflexivity.
Qed.

Lemma parse_leaf_excluded k op v n s :
  excluded_pks (snd (parse_leaf k op v n s))
  = excluded_pks s ++ excluded_of (connection s) (model s) (n, k, op, v).
Proof.
  run_leaf. unfold excluded_of. simpl.
  destruct (in_projection (projection s) (col k) && _); simpl;
    destruct n; simpl; destruct (primary_key (field k)); simpl;
    destruct (String.eqb op "exact"); simpl;
    try destruct (has_inequality_filter s); simpl;
    try destruct (is_None _); simpl;
    try destruct (String.eqb op "isnull"); simpl;
    try destruct (String.eqb op "in"); simpl;
    try destruct (has_inequality_filter s); simpl;
    rewrite ?app_nil_r; reflexivity.
Qed.

Lemma parse_leaf_flag k op v n s :
  query_can_never_return_results (snd (parse_leaf k op v n s))
  = query_can_never_return_results s
    || null_pk_leaf (connection s) (model s) (n, k, op, v).
Proof.
  run_leaf. unfold null_pk_leaf. simpl.
  destruct (in_projection (projection s) (col k) && _); simpl;
    destruct n; simpl; destruct (primary_key (field k)); simpl;
    destruct (String.eqb op "exact"); simpl;
    try destruct (has_inequality_filter s); simpl;
    try destruct (is_None _); simpl;
    try destruct (String.eqb op "isnull"); simpl;
    try destruct (String.eqb op "in"); simpl;
    try destruct (has_inequality_filter s); simpl;
    rewrite ?orb_false_r, ?orb_true_r; reflexivity.
Qed.

(** Everything the loop over the leaves does to the object, when it returns. *)
Lemma run_leaves_Ok ts :
  forall s r s', run_leaves ts s = (Ok r, s') ->
    r = map (normalized_leaf (connection s) (model s)) ts
    /\ included_pks s'
       = included_pks s ++ flat_map (included_of (connection s) (model s)) ts
    /\ excluded_pks s'
       = excluded_pks s ++ flat_map (excluded_of (connection s) (model s)) ts
    /\ query_can_never_return_results s'
       = query_can_never_return_results s
         || existsb (null_pk_leaf (connection s) (model s)) ts
    /\ has_inequality_filter s' = has_inequality_filter s || existsb is_negated ts
    /\ List.Forall (fun t => is_negated t = true -> snd (fst t) = "exact") ts
    /\ (List.length (List.filter is_negated ts)
        + (if has_inequality_filter s then 1 else 0) <= 1)%nat.
Proof.
  induction ts as [|[[[n k] op] v] ts IH]; intros s r s' Hrun.
  - injection Hrun as <- <-. cbn [map flat_map existsb List.filter List.length].
    rewrite !app_nil_r, !orb_false_r.
    split; [reflexivity|]. split; [reflexivity|]. split; [reflexivity|].
    split; [reflexivity|]. split; [reflexivity|]. split; [constructor|].
    destruct (has_inequality_filter s); cbn; lia.
  - apply run_leaves_cons in Hrun as (r1 & s1 & r2 & H1 & H2 & ->).
    destruct (parse_leaf_Ok _ _ _ _ _ _ _ H1) as [-> Hneg].
    pose proof (parse_leaf_frame k op v n s) as (Hc & Hm & _).
    pose proof (parse_leaf_included k op v n s) as Hinc.
    pose proof (parse_leaf_excluded k op v n s) as Hexc.
    pose proof (parse_leaf_flag k op v n s) as Hflag.
    pose proof (parse_leaf_inequality_after k op v n s) as Hineq.
    rewrite H1 in Hc, Hm, Hinc, Hexc, Hflag, Hineq.
    cbn [snd] in Hc, Hm, Hinc, Hexc, Hflag, Hineq.
    destruct (IH _ _ _ H2) as (-> & Hi & He & Hf & Hh & Hall & Hcount).
    rewrite Hc, Hm in *. rewrite Hi, He, Hf, Hh, Hinc, Hexc, Hflag, Hineq.
    cbn [map flat_map existsb app is_negated fst snd List.filter].
    rewrite <- !app_assoc, <- !orb_assoc.
    split; [reflexivity|]. split; [reflexivity|]. split; [reflexivity|].
    split; [reflexivity|].
    assert (n && String.eqb op "exact" = n) as Hnop.
    { destruct n; [|reflexivity]. destruct (Hneg eq_refl) as [-> _]. reflexivity. }
    rewrite Hnop. split; [reflexivity|]. split.
    + constructor; [|exact Hall]. cbn [is_negated fst snd]. intros ->.
      now destruct (Hneg eq_refl).
    + rewrite Hineq, Hnop in Hcount.
      destruct n; cbn [orb List.length] in *.
      * destruct (Hneg eq_refl) as [_ ->]. rewrite orb_true_r in Hcount. lia.
      * rewrite orb_false_r in Hcount. exact Hcount.
Qed.

Lemma switch_pk_to_key_sets s :
  let s' := switch_pk_to_key s in
  included_pks s' = included_pks s /\ excluded_pks s' = excluded_pks s /\
  has_inequality_filter s' = has_inequality_filter s /\
  connection s' = connection s /\ ordering s' = ordering s /\
  is_count s' = is_count s.
Proof.
  unfold switch_pk_to_key. destruct (list_index _ _); simpl; tauto.
Qed.

(** A constructed command, as the loop over the leaves left it. *)
Lemma init_run_leaves conn q k a self :
  __init__ conn q k a = Ok self ->
  exists pf w s',
    run_leaves (tagged_leaves (q_where q) false) (init_fields conn q k a pf)
    = (Ok w, s')
    /\ self = switch_pk_to_key (set_where w s').
Proof.
  intros H. apply init_Ok in H as (pf & w & s' & _ & Hparse & ->).
  exists pf, w, s'. split; [|reflexivity].
  now apply parse_where_run_leaves.
Qed.

(** ** Filter keys and the order of values *)

Lemma no_space_in_store_op (op a b : string) :
  In op store_ops -> op <> a +:+ " " +:+ b.
Proof.
  intros Hop Heq. unfold store_ops in Hop. simpl in Hop.
  destruct a as [|x [|y [|z a]]];
    repeat (destruct Hop as [<-|Hop]; [discriminate Heq|]); exact Hop.
Qed.

Lemma filter_key_inj c op c' op' :
  In op store_ops -> In op' store_ops ->
  filter_key c op = filter_key c' op' -> c = c' /\ op = op'.
Proof.
  unfold filter_key. intros Hop Hop'. revert c'.
  induction c as [|x c IH]; intros [|x' c'] H.
  - injection H as H. auto.
  - injection H as _ H. exfalso. exact (no_space_in_store_op _ _ _ Hop H).
  - injection H as _ H. exfalso. symmetry in H.
    exact (no_space_in_store_op _ _ _ Hop' H).
  - injection H as -> H. destruct (IH _ H) as [-> ->]. auto.
Qed.






(** ** The where loop of [execute] *)

Ltac split_puts :=
  repeat match goal with
         | |- context [set_filter ?s ?k ?v ?q] => destruct (set_filter s k v q)
         end;
  cbn [res_bind]; rewrite ?app_nil_r; try reflexivity.

Lemma where_step_cf sdk ix self q cf reg f :
  where_step sdk ix self q cf reg f =
  match where_step sdk ix self q [] reg f with
  | (Ok (q', added), reg') => (Ok (q', cf ++ added), reg')
  | (Raise e, reg') => (Raise e, reg')
  end.
Proof.
  destruct f as [[c op] v]. unfold where_step.
  destruct (dict_get OPERATORS_MAP op); [split_puts|].
  destruct (special_indexer _ op).
  - destruct (negb _); [reflexivity|split_puts].
  - destruct (String.eqb op "in"); [reflexivity|].
    destruct (String.eqb op "gt_and_lt"); [reflexivity|].
    destruct (String.eqb op "isnull"); [split_puts|reflexivity].
Qed.

(** The combined filters only grow, and what is added does not depend on
    what was there. *)
Lemma where_loop_cf sdk ix self w :
  forall q cf reg,
    where_loop sdk ix self q cf reg w =
    match where_loop sdk ix self q [] reg w with
    | (Ok (q', added), reg') => (Ok (q', cf ++ added), reg')
    | (Raise e, reg') => (Raise e, reg')
    end.
Proof.
  induction w as [|f rest IH]; intros q cf reg; cbn [where_loop].
  - now rewrite app_nil_r.
  - rewrite where_step_cf.
    destruct (where_step sdk ix self q [] reg f) as [[[q' added]|e] reg'];
      [|reflexivity].
    rewrite (IH q' (cf ++ added)), (IH q' added).
    destruct (where_loop sdk ix self q' [] reg' rest) as [[[q'' added']|e] reg''];
      [|reflexivity].
    now rewrite app_assoc.
Qed.


Lemma where_step_in sdk ix self q cf reg c v :
  special_indexer (REQUIRES_SPECIAL_INDEXES ix) "in" = None ->
  where_step sdk ix self q cf reg (c, "in", v)
  = (Ok (q, cf ++ [(datastore_column self c, "in", v)]), reg).
Proof. intros H. unfold where_step. cbn. rewrite H. reflexivity. Qed.

Lemma where_step_exact sdk ix self q cf reg c v :
  where_step sdk ix self q cf reg (c, "exact", v)
  = (res_bind (set_filter sdk (filter_key (datastore_column self c) "=") v q)
              (fun q' => Ok (q', cf)), reg).
Proof. reflexivity. Qed.

(** A predicate that is set aside for the expansion can be taken out of
    the loop: the query is the one the other predicates compile into. *)
Lemma where_loop_set_aside sdk ix self q0 reg reg' pre post f f' q :
  (forall q1 cf1 reg1,
      where_step sdk ix self q1 cf1 reg1 f = (Ok (q1, cf1 ++ [f']), reg1)) ->
  where_loop sdk ix self q0 [] reg (pre ++ post) = (Ok (q, []), reg') ->
  where_loop sdk ix self q0 [] reg (pre ++ f :: post) = (Ok (q, [f']), reg').
Proof.
  intros Hstep Hrest. rewrite where_loop_app in Hrest. rewrite where_loop_app.
  destruct (where_loop sdk ix self q0 [] reg pre) as [[[q1 cf1]|e] reg1] eqn:Hpre;
    [|discriminate].
  cbn [where_loop]. rewrite Hstep.
  rewrite where_loop_cf in Hrest. rewrite where_loop_cf.
  destruct (where_loop sdk ix self q1 [] reg1 post) as [[[q2 added]|e] reg2] eqn:Hpost;
    [|discriminate].
  injection Hrest as -> Hcf ->. apply app_eq_nil in Hcf as [-> ->].
  reflexivity.
Qed.

(** After a multi-query is compiled, [execute] stores it and asks the
    datastore once. *)
Lemma execute_multi sdk ix b reg reg' self qs o :
  query_can_never_return_results self = false ->
  compile_query sdk ix reg self = (Ok (MultiQuery qs o), reg') ->
  exists self',
    execute sdk ix b reg self = (Ok self', [store_call self (MultiQuery qs o)], reg')
    /\ query self' = Some (MultiQuery qs o).
Proof.
  intros Hflag Hcompile. unfold execute. rewrite Hflag, Hcompile.
  unfold _do_fetch, _run_query, store_call.
  cbn [results query aggregate_type set_aggregate_type set_query_done set_results
       set_query is_count truthy].
  destruct (is_empty (is_count self)); cbn; eauto.
Qed.

(** ** The expansion of one combined filter *)


Lemma expand_query_in sdk self query column (vals : list scalar) :
  (forall val, In val vals ->
               accepts_member sdk self query (column +:+ " =") (Scalar val)) ->
  expand_query sdk self (column, "in", Seq vals) query
  = Ok (map (fun val => member self query (column +:+ " =") (Scalar val)) vals).
Proof.
  intros Hall. unfold expand_query. cbn [String.eqb Ascii.eqb Bool.eqb iter_value res_bind].
  apply for_each_map. intros val Hval. apply new_member_Ok. auto.
Qed.

(** Compilation of a command with one combined filter, when the library
    accepts the members and the multi-query. *)
Lemma compile_one_combined sdk ix reg reg' self q0 q f members :
  base_query sdk self = Ok q0 ->
  where_loop sdk ix self q0 [] reg (where_ self) = (Ok (q, [f]), reg') ->
  expand_query sdk self f q = Ok members ->
  check_multi sdk members (compiled_ordering self) = None ->
  compile_query sdk ix reg self
  = (Ok (MultiQuery members (compiled_ordering self)), reg').
Proof.
  intros Hbase Hloop Hexpand Hmulti. unfold compile_query.
  rewrite Hbase, Hloop. cbn [expand_all expand_queries]. rewrite Hexpand.
  cbn [res_bind]. rewrite app_nil_r. unfold datastore_MultiQuery.
  rewrite Hmulti. reflexivity.
Qed.

(** ** C4 *)




(** Outside the amended claim: an inequality filter on another column.
    With a library that makes the check the datastore is known for, the
    member [status <] of [filter(priority__gt=3).exclude(status="open")] is
    refused and no query is compiled. *)
Lemma second_inequality_property_is_refused :
  exists self,
    __init__ plain_connection range_and_exclude_query false false = Ok self
    /\ compile_query checking_library static_indexing no_indexes self
       = (Raise (LibraryError "BadFilterError"), no_indexes).
Proof.
  eexists. split; [vm_compute; reflexivity|]. vm_compute. reflexivity.
Qed.

(** ** C5 *)

Lemma parse_plain_leaves leaves :
  forall s,
    fst (parse_children (map leaf_of leaves) false s)
    = Ok (map (normalized (connection s) (model s)) leaves).
Proof.
  induction leaves as [|[[k op] v] rest IH]; intros s; [reflexivity|].
  cbn [map leaf_of]. rewrite parse_children_cons_eq. cbn [parse_child].
  rewrite parse_leaf_plain_run.
  pose proof (parse_leaf_frame k op v false s) as (Hc & Hm & _).
  specialize (IH (snd (parse_leaf k op v false s))). rewrite Hc, Hm in IH.
  destruct (parse_children (map leaf_of rest) false _) as [[r|e] s2];
    cbn [fst] in IH; [|discriminate].
  injection IH as ->. reflexivity.
Qed.

Lemma where_loop_exacts sdk ix self (eqs : list (string * Value)) :
  forall q cf reg q' cf' reg',
    where_loop sdk ix self q cf reg (map (fun p => (fst p, "exact", snd p)) eqs)
    = (Ok (q', cf'), reg') ->
    q' = with_equalities self eqs q /\ cf' = cf /\ reg' = reg.
Proof.
  induction eqs as [|[c v] rest IH]; intros q cf reg q' cf' reg' H.
  - injection H as <- <- <-. auto.
  - cbn [map where_loop fst snd] in H. rewrite where_step_exact in H.
    destruct (set_filter sdk (filter_key (datastore_column self c) "=") v q)
      as [q1|e] eqn:Hput; cbn [res_bind] in H; [|discriminate].
    apply set_filter_Ok in Hput as [_ ->]. now apply IH in H.
Qed.

Lemma with_equalities_cons self c v rest q :
  with_equalities self ((c, v) :: rest) q
  = with_equalities self rest
      (dict_setitem (filter_key (datastore_column self c) "=") v q).
Proof. reflexivity. Qed.

Lemma with_equalities_app self eqs eqs' q :
  with_equalities self (eqs ++ eqs') q
  = with_equalities self eqs' (with_equalities self eqs q).
Proof. apply fold_left_app. Qed.

Lemma with_equalities_other self eqs c :
  ~ In (datastore_column self c) (map (fun p => datastore_column self (fst p)) eqs) ->
  forall q,
    filters (with_equalities self eqs q) !! filter_key (datastore_column self c) "="
    = filters q !! filter_key (datastore_column self c) "=".
Proof.
  induction eqs as [|[c' v'] rest IH]; intros Hnot q; [reflexivity|].
  cbn [map fst In] in Hnot. rewrite with_equalities_cons, IH by tauto.
  cbn [filters dict_setitem]. apply lookup_insert_ne.
  intros Heq. apply filter_key_inj in Heq as [Heq _]; [tauto| |];
    unfold store_ops; simpl; tauto.
Qed.

Lemma with_equalities_lookup self eqs :
  List.NoDup (map (fun p => datastore_column self (fst p)) eqs) ->
  forall q p, In p eqs ->
    filters (with_equalities self eqs q) !! filter_key (datastore_column self (fst p)) "="
    = Some (snd p).
Proof.
  induction eqs as [|[c v] rest IH]; intros Hnd q p Hin; [contradiction|].
  cbn [map fst] in Hnd. apply List.NoDup_cons_iff in Hnd as [Hnot Hnd].
  rewrite with_equalities_cons.
  destruct Hin as [<-|Hin].
  - cbn [fst snd]. rewrite with_equalities_other by exact Hnot.
    apply lookup_insert_eq.
  - now apply IH.
Qed.

Lemma lookup_map {A B} (f : A -> B) (l : list A) (i : nat) :
  map f l !! i = f <$> l !! i.
Proof.
  revert i. induction l as [|x l IH]; intros [|i]; try reflexivity. apply IH.
Qed.

(** C5, as stated, fails: an equality on the primary key with a null value
    is an equality predicate, and with it next to the membership-in-set
    predicate over two values no query is compiled at all: [execute]
    returns the empty result at once. *)
Lemma C5_null_pk_equality_compiles_nothing :
  exists self self',
    __init__ plain_connection null_pk_in_query false false = Ok self
    /\ execute checking_library static_indexing warm_backend no_indexes self
       = (Ok self', [], no_indexes)
    /\ query self' = None
    /\ results self' = Some (Entities []).
Proof.
  eexists. eexists. split; [vm_compute; reflexivity|].
  split; [vm_compute; reflexivity|]. split; reflexivity.
Qed.

Lemma normalized_equalities conn m (eqs : list (Constraint * Value)) :
  map (normalized conn m) (map equality eqs)
  = map (fun p => (fst p, "exact", snd p)) (map (normalized_equality conn m) eqs).
Proof. rewrite !map_map. apply map_ext. intros [k v]. reflexivity. Qed.

(** The predicates of a constructed command are the leaves of its where
    tree, normalized. *)
Lemma init_where conn q k a self :
  __init__ conn q k a = Ok self ->
  where_ self = map (normalized_leaf conn (q_model q)) (tagged_leaves (q_where q) false).
Proof.
  intros Hinit. apply init_run_leaves in Hinit as (pf & w & s' & Hrun & ->).
  apply run_leaves_Ok in Hrun as (Hw & _).
  destruct (switch_pk_to_key_fields (set_where w s')) as (_ & _ & _ & -> & _).
  exact Hw.
Qed.

Lemma normalized_plain conn m (ts : list (Constraint * string * Value)) :
  map (normalized_leaf conn m) (map plain ts) = map (normalized conn m) ts.
Proof.
  rewrite map_map. apply map_ext. intros [[k op] v]. reflexivity.
Qed.

(** C5 (amended): take a constructed command whose where tree has, in
    the order of the walk and all outside negation, [exact] leaves around a
    single [in] leaf over the values [vals], however the leaves are nested
    under its nodes; that is not flagged empty (no [exact] leaf is a null
    primary key); whose leaves are on pairwise different columns; and whose
    [exact] predicates by themselves compile into the query [qe].  When the
    library accepts, for every value, the member that is a copy of the
    filters of [qe] on the model's own table with the [in] column equal to
    the prepared value, and the multi-query of these members, [execute]
    compiles a multi-query with as many members as [vals] has values; the
    member at position [i] is on the model's own table, has the [in] column
    equal to the prepared value at position [i], and has every [exact] leaf
    as an equality filter. *)
Theorem C5_membership_one_query_per_value
    (conn : Connection) (q : DjangoQuery) (keys_only_arg all_fields : bool)
    (self : SelectCommand) (sdk : Sdk) (ix : Indexing) (b : Backend)
    (reg reg' : Registry)
    (pre post : list (Constraint * Value)) (kin : Constraint) (vals : list scalar)
    (q0 qe : datastore_Query) :
  __init__ conn q keys_only_arg all_fields = Ok self ->
  tagged_leaves (q_where q) false
  = map plain (map equality pre ++ (kin, "in", Seq vals) :: map equality post) ->
  query_can_never_return_results self = false ->
  special_indexer (REQUIRES_SPECIAL_INDEXES ix) "in" = None ->
  List.NoDup (map (datastore_column self)
                  (col kin :: map (fun p => col (fst p)) (pre ++ post))) ->
  base_query sdk self = Ok q0 ->
  where_loop sdk ix self q0 [] reg
             (map (normalized conn (q_model q)) (map equality (pre ++ post)))
  = (Ok (qe, []), reg') ->
  let key := datastore_column self (col kin) +:+ " =" in
  let prepared := fun v => Scalar (prep_lookup_value conn (q_model q) v (field kin)) in
  let members := map (fun v => member self qe key (prepared v)) vals in
  (forall v, In v vals -> accepts_member sdk self qe key (prepared v)) ->
  check_multi sdk members (compiled_ordering self) = None ->
  exists self' qs,
    execute sdk ix b reg self
    = (Ok self', [store_call self (MultiQuery qs (compiled_ordering self))], reg')
    /\ query self' = Some (MultiQuery qs (compiled_ordering self))
    /\ List.length qs = List.length vals
    /\ forall (i : nat) (v : scalar), vals !! i = Some v ->
         exists member,
           qs !! i = Some member
           /\ kind member = db_table (model self)
           /\ filters member !! filter_key (datastore_column self (col kin)) "="
              = Some (Scalar (prep_lookup_value conn (q_model q) v (field kin)))
           /\ forall p, In p (pre ++ post) ->
                filters member !! filter_key (datastore_column self (col (fst p))) "="
                = Some (prep_value conn (q_model q) (field (fst p)) (snd p)).
Proof.
  intros Hinit Hleaves Hflag Hspecial Hnd Hbase Heqs key prepared members Hacc Hmulti.
  set (m := q_model q) in *.
  pose proof (init_where _ _ _ _ _ Hinit) as Hwhere.
  rewrite Hleaves, normalized_plain, map_app in Hwhere. cbn [map normalized] in Hwhere.
  fold m in Hwhere.
  rewrite map_app, map_app in Heqs.
  set (nvals := map (fun x => prep_lookup_value conn m x (field kin)) vals) in *.
  assert (where_loop sdk ix self q0 [] reg (where_ self)
          = (Ok (qe, [(datastore_column self (col kin), "in", Seq nvals)]), reg'))
    as Hloop.
  { rewrite Hwhere. apply where_loop_set_aside; [|exact Heqs].
    intros q1 cf1 reg1. now apply where_step_in. }
  assert (expand_query sdk self (datastore_column self (col kin), "in", Seq nvals) qe
          = Ok members) as Hexpand.
  { rewrite expand_query_in.
    - unfold members, nvals, prepared. now rewrite map_map.
    - intros val Hval. unfold nvals in Hval.
      apply in_map_iff in Hval as (v & <- & Hv). now apply Hacc. }
  pose proof (compile_one_combined sdk ix reg reg' self q0 qe _ members
                Hbase Hloop Hexpand Hmulti) as Hcompile.
  destruct (execute_multi sdk ix b reg reg' self _ _ Hflag Hcompile)
    as (self' & Hexec & Hq).
  exists self', members.
  split; [exact Hexec|]. split; [exact Hq|]. split.
  { unfold members. now rewrite length_map. }
  intros i v Hv. exists (member self qe key (prepared v)).
  split.
  { unfold members. rewrite lookup_map, Hv. reflexivity. }
  split; [reflexivity|]. split; [apply lookup_insert_eq|].
  intros p Hin. unfold member. cbn [filters].
  cbn [map] in Hnd. apply List.NoDup_cons_iff in Hnd as [Hnot Hnd].
  rewrite lookup_insert_ne.
  - rewrite <- !map_app, normalized_equalities in Heqs.
    apply where_loop_exacts in Heqs as (-> & _ & _).
    pose proof (in_map (normalized_equality conn m) _ _ Hin) as Hin'.
    pose proof (with_equalities_lookup self
                  (map (normalized_equality conn m) (pre ++ post))) as Hlook.
    rewrite map_map in Hlook. cbn [normalized_equality fst] in Hlook.
    rewrite map_map in Hnd.
    exact (Hlook Hnd q0 _ Hin').
  - unfold key.
    change (datastore_column self (col kin) +:+ " =")
      with (filter_key (datastore_column self (col kin)) "=").
    intros Heq. apply filter_key_inj in Heq as [Heq _];
      [|unfold store_ops; simpl; tauto|unfold store_ops; simpl; tauto].
    apply Hnot. rewrite Heq. apply in_map. apply (in_map (fun p => col (fst p))).
    exact Hin.
Qed.

Lemma C5_witness :
  let pre := [(on f_name, Scalar (PyStr "Ann"))] in
  let post := [(on f_priority, Scalar (PyInt 3))] in
  let vals := [PyStr "open"; PyStr "pending"] in
  exists self q0 qe,
    __init__ plain_connection nested_conjunction_query false false = Ok self
    /\ tagged_leaves (q_where nested_conjunction_query) false
       = map plain (map equality pre ++ (on f_status, "in", Seq vals)
                    :: map equality post)
    /\ query_can_never_return_results self = false
    /\ special_indexer (REQUIRES_SPECIAL_INDEXES static_indexing) "in" = None
    /\ List.NoDup (map (datastore_column self) ["status"; "name"; "priority"])
    /\ base_query checking_library self = Ok q0
    /\ where_loop checking_library static_indexing self q0 [] no_indexes
                  [("name", "exact", Scalar (PyStr "Ann"));
                   ("priority", "exact", Scalar (PyInt 3))]
       = (Ok (qe, []), no_indexes)
    /\ (forall v, In v vals ->
                  accepts_member checking_library self qe "status =" (Scalar v))
    /\ exists self' qs,
         execute checking_library static_indexing warm_backend no_indexes self
         = (Ok self', [StoreRun (MultiQuery qs [])], no_indexes)
         /\ List.length qs = 2%nat
         /\ forall (i : nat) (v : scalar), vals !! i = Some v ->
              exists member,
                qs !! i = Some member
                /\ kind member = "app_user"
                /\ filters member !! "status =" = Some (Scalar v)
                /\ filters member !! "name =" = Some (Scalar (PyStr "Ann"))
                /\ filters member !! "priority =" = Some (Scalar (PyInt 3)).
Proof.
  intros pre post vals.
  destruct (__init__ plain_connection nested_conjunction_query false false)
    as [self|e] eqn:Hinit; [|vm_compute in Hinit; discriminate Hinit].
  pose proof Hinit as Hself. vm_compute in Hself. injection Hself as Hself.
  assert (query_can_never_return_results self = false) as Hflag
    by (rewrite <- Hself; reflexivity).
  assert (pk_col self = "id") as Hpk by (rewrite <- Hself; reflexivity).
  assert (ordering self = []) as Hord by (rewrite <- Hself; reflexivity).
  assert (is_count self = []) as Hcount by (rewrite <- Hself; reflexivity).
  assert (db_table (model self) = "app_user") as Htable
    by (rewrite <- Hself; reflexivity).
  assert (List.NoDup (map (datastore_column self) ["status"; "name"; "priority"]))
    as Hnd.
  { unfold datastore_column. rewrite Hpk. cbn.
    repeat constructor; simpl; intuition discriminate. }
  destruct (base_query checking_library self) as [q0|e] eqn:Hbase;
    [|rewrite <- Hself in Hbase; vm_compute in Hbase; discriminate Hbase].
  destruct (where_loop checking_library static_indexing self q0 [] no_indexes
              [("name", "exact", Scalar (PyStr "Ann"));
               ("priority", "exact", Scalar (PyInt 3))])
    as [[[qe cf]|e] reg'] eqn:Heqs.
  2:{ rewrite <- Hself in Hbase. vm_compute in Hbase. injection Hbase as <-.
      rewrite <- Hself in Heqs. vm_compute in Heqs. discriminate Heqs. }
  assert (cf = [] /\ reg' = no_indexes
          /\ forall v, In v vals ->
                accepts_member checking_library self qe "status =" (Scalar v))
    as (-> & -> & Hacc).
  { pose proof Hbase as Hb. rewrite <- Hself in Hb. vm_compute in Hb.
    injection Hb as Hb. pose proof Heqs as Hr. rewrite <- Hb, <- Hself in Hr.
    vm_compute in Hr. injection Hr as Hr <- <-.
    split; [reflexivity|]. split; [reflexivity|].
    intros v Hv. unfold accepts_member. rewrite <- Hr, <- Hself.
    destruct Hv as [<-|[<-|[]]]; split; vm_compute; reflexivity. }
  exists self, q0, qe. split; [reflexivity|]. split; [reflexivity|].
  split; [exact Hflag|]. split; [reflexivity|]. split; [exact Hnd|].
  split; [exact Hbase|]. split; [exact Heqs|]. split; [exact Hacc|].
  pose proof (C5_membership_one_query_per_value plain_connection
                nested_conjunction_query false false self checking_library
                static_indexing warm_backend no_indexes no_indexes pre post
                (on f_status) vals q0 qe Hinit eq_refl Hflag eq_refl Hnd Hbase Heqs)
    as H.
  unfold datastore_column in H. rewrite Hpk in H.
  cbn [col on column f_status String.eqb Ascii.eqb Bool.eqb] in H.
  destruct (H Hacc eq_refl) as (self' & qs & Hexec & _ & Hlen & Hmem).
  exists self', qs.
  unfold store_call, compiled_ordering in Hexec. rewrite Hord, Hcount in Hexec.
  split; [exact Hexec|]. split; [exact Hlen|].
  intros i v Hv. destruct (Hmem i v Hv) as (member & Hi & Hkind & Hin & Heq).
  exists member. split; [exact Hi|]. split; [now rewrite Hkind|].
  split; [exact Hin|]. split.
  - exact (Heq (on f_name, Scalar (PyStr "Ann")) (or_introl eq_refl)).
  - exact (Heq (on f_priority, Scalar (PyInt 3)) (or_intror (or_introl eq_refl))).
Defined.

(** Outside the amended claim: a value the library does not take.  With a
    library that makes the check the datastore is known for, the member of
    [2 ** 64] is refused and no query is compiled. *)
Lemma value_out_of_range_is_refused :
  exists self,
    __init__ plain_connection overflow_in_query false false = Ok self
    /\ compile_query checking_library static_indexing no_indexes self
       = (Raise (LibraryError "OverflowError"), no_indexes).
Proof.
  eexists. split; [vm_compute; reflexivity|]. vm_compute. reflexivity.
Qed.

(** ** Predicates that end on the same filter key

    A datastore query is a dictionary, so a filter written on a key that
    is already there replaces it.  The two examples below are outside the
    amended C4 and C5, which ask for a fresh key. *)

(** The [<] member of a negated equal on [priority] replaces the range
    [priority < 3]: a row with priority 4 is selected by it. *)
Lemma negated_equal_overwrites_range_on_its_column :
  exists self below above,
    __init__ plain_connection range_and_exclude_same_column_query false false = Ok self
    /\ compile_query checking_library static_indexing no_indexes self
       = (Ok (MultiQuery [below; above] []), no_indexes)
    /\ filters below = {[ "priority <" := Scalar (PyInt 5) ]}
    /\ filters above = {[ "priority <" := Scalar (PyInt 3);
                          "priority >" := Scalar (PyInt 5) ]}
    /\ selects below {| row_kind := "app_user"; row_key := PyInt 1;
                        row_entity := {[ "priority" := PyInt 4 ]} |}.
Proof.
  eexists. eexists. eexists. split; [vm_compute; reflexivity|].
  split; [vm_compute; reflexivity|].
  split; [vm_compute; reflexivity|]. split; [vm_compute; reflexivity|].
  split; [reflexivity|]. unfold satisfies.
  change (filters _) with (<["priority <" := Scalar (PyInt 5)]>
                             (<["priority <" := Scalar (PyInt 3)]> (∅ ∪ ∅))
                           : gmap string Value).
  intros column op v Hop Hlook.
  rewrite (right_id_L ∅ (∪)), insert_insert_eq in Hlook.
  apply lookup_insert_Some in Hlook as [[Hkey <-]|[_ Hlook]];
    [|rewrite lookup_empty in Hlook; discriminate].
  change "priority <" with (filter_key "priority" "<") in Hkey.
  apply filter_key_inj in Hkey as [<- <-];
    [reflexivity|unfold store_ops; simpl; tauto|exact Hop].
Qed.

(** The members of a membership-in-set on [status] replace the equality
    [status = "closed"]: no member has it. *)
Lemma membership_overwrites_equality_on_its_column :
  exists self first second,
    __init__ plain_connection equality_and_in_same_column_query false false = Ok self
    /\ compile_query checking_library static_indexing no_indexes self
       = (Ok (MultiQuery [first; second] []), no_indexes)
    /\ filters first = {[ "status =" := Scalar (PyStr "open") ]}
    /\ filters second = {[ "status =" := Scalar (PyStr "pending") ]}.
Proof.
  eexists. eexists. eexists. split; [vm_compute; reflexivity|].
  split; [vm_compute; reflexivity|]. split; vm_compute; reflexivity.
Qed.

(** * Further properties of the select path *)

(** ** X1 to X4: what normalization leaves in a constructed command *)

Ltac from_init_leaves Hinit :=
  let pf := fresh "pf" in
  let w := fresh "w" in
  let s' := fresh "s'" in
  let Hrun := fresh "Hrun" in
  apply init_run_leaves in Hinit as (pf & w & s' & Hrun & ->);
  apply run_leaves_Ok in Hrun as (Hw & Hinc & Hexc & Hflag & Hineq & Hexact & Hcount);
  cbn [connection model included_pks excluded_pks query_can_never_return_results
       has_inequality_filter init_fields app orb] in Hw, Hinc, Hexc, Hflag, Hineq, Hcount.

(** X1: the predicates of a constructed command are the leaves of the where
    tree in the order of the walk, one predicate per leaf: a plain leaf keeps
    its operator, a leaf under negation becomes the open range, and every
    value is the prepared one. *)
Theorem X1_where_is_one_predicate_per_leaf
    (conn : Connection) (q : DjangoQuery) (keys_only_arg all_fields : bool)
    (self : SelectCommand) :
  __init__ conn q keys_only_arg all_fields = Ok self ->
  where_ self
  = map (normalized_leaf conn (q_model q)) (tagged_leaves (q_where q) false).
Proof.
  intros Hinit. from_init_leaves Hinit.
  destruct (switch_pk_to_key_fields (set_where w s')) as (_ & _ & _ & -> & _).
  exact Hw.
Qed.

Lemma X1_witness :
  exists self,
    __init__ plain_connection key_sets_query false false = Ok self
    /\ where_ self
       = [("id", "in", Seq [PyInt 1; PyInt 2]); ("id", "exact", Scalar (PyInt 5));
          ("name", "gt", Scalar (PyStr "a")); ("id", "gt_and_lt", Scalar (PyInt 9))].
Proof.
  destruct (__init__ plain_connection key_sets_query false false) as [self|e] eqn:Hinit;
    [|vm_compute in Hinit; discriminate Hinit].
  exists self. split; [reflexivity|].
  rewrite (X1_where_is_one_predicate_per_leaf _ _ _ _ _ Hinit). reflexivity.
Defined.

(** X2: the key sets of a constructed command.  [included_pks] holds, in
    the order of the walk, the values of the plain [exact] and [in] leaves on
    the primary key (the elements of a list, not the list), except the null
    [exact]; [excluded_pks] holds the values of the negated leaves on the
    primary key. *)
Theorem X2_key_sets_of_a_constructed_command
    (conn : Connection) (q : DjangoQuery) (keys_only_arg all_fields : bool)
    (self : SelectCommand) :
  __init__ conn q keys_only_arg all_fields = Ok self ->
  included_pks self
  = flat_map (included_of conn (q_model q)) (tagged_leaves (q_where q) false)
  /\ excluded_pks self
     = flat_map (excluded_of conn (q_model q)) (tagged_leaves (q_where q) false).
Proof.
  intros Hinit. from_init_leaves Hinit.
  destruct (switch_pk_to_key_sets (set_where w s')) as (-> & -> & _).
  split; [exact Hinc|exact Hexc].
Qed.

Lemma X2_witness :
  exists self,
    __init__ plain_connection key_sets_query false false = Ok self
    /\ included_pks self = [PyInt 1; PyInt 2; PyInt 5]
    /\ excluded_pks self = [Scalar (PyInt 9)].
Proof.
  destruct (__init__ plain_connection key_sets_query false false) as [self|e] eqn:Hinit;
    [|vm_compute in Hinit; discriminate Hinit].
  exists self. split; [reflexivity|].
  destruct (X2_key_sets_of_a_constructed_command _ _ _ _ _ Hinit) as [-> ->].
  split; reflexivity.
Defined.

(** X3: a constructed command is flagged as never returning results
    exactly when the where tree has, outside negation, a leaf on the primary
    key that is an [exact] with a null value or an [isnull]; nothing else
    sets the flag. *)
Theorem X3_flagged_empty_exactly_for_null_primary_key
    (conn : Connection) (q : DjangoQuery) (keys_only_arg all_fields : bool)
    (self : SelectCommand) :
  __init__ conn q keys_only_arg all_fields = Ok self ->
  query_can_never_return_results self
  = existsb (null_pk_leaf conn (q_model q)) (tagged_leaves (q_where q) false).
Proof.
  intros Hinit. from_init_leaves Hinit.
  destruct (switch_pk_to_key_fields (set_where w s')) as (_ & -> & _).
  exact Hflag.
Qed.

Lemma X3_witness :
  (exists self,
     __init__ plain_connection key_sets_query false false = Ok self
     /\ query_can_never_return_results self = false)
  /\ (exists self,
        __init__ plain_connection null_pk_in_query false false = Ok self
        /\ query_can_never_return_results self = true).
Proof.
  split.
  - destruct (__init__ plain_connection key_sets_query false false)
      as [self|e] eqn:Hinit; [|vm_compute in Hinit; discriminate Hinit].
    exists self. split; [reflexivity|].
    rewrite (X3_flagged_empty_exactly_for_null_primary_key _ _ _ _ _ Hinit).
    reflexivity.
  - destruct (__init__ plain_connection null_pk_in_query false false)
      as [self|e] eqn:Hinit; [|vm_compute in Hinit; discriminate Hinit].
    exists self. split; [reflexivity|].
    rewrite (X3_flagged_empty_exactly_for_null_primary_key _ _ _ _ _ Hinit).
    reflexivity.
Defined.

(** X4: a constructed command has at most one leaf under negation in its
    where tree, that leaf is an [exact], and [has_inequality_filter] says
    whether there is one. *)
Theorem X4_at_most_one_negated_leaf
    (conn : Connection) (q : DjangoQuery) (keys_only_arg all_fields : bool)
    (self : SelectCommand) :
  __init__ conn q keys_only_arg all_fields = Ok self ->
  let leaves := tagged_leaves (q_where q) false in
  (List.length (List.filter is_negated leaves) <= 1)%nat
  /\ List.Forall (fun t => is_negated t = true -> snd (fst t) = "exact") leaves
  /\ has_inequality_filter self = existsb is_negated leaves.
Proof.
  intros Hinit leaves. from_init_leaves Hinit.
  destruct (switch_pk_to_key_sets (set_where w s')) as (_ & _ & -> & _).
  split; [fold leaves in Hcount; lia|]. split; [exact Hexact|exact Hineq].
Qed.

Lemma X4_witness :
  exists self,
    __init__ plain_connection key_sets_query false false = Ok self
    /\ List.length (List.filter is_negated (tagged_leaves (q_where key_sets_query) false))
       = 1%nat
    /\ has_inequality_filter self = true.
Proof.
  destruct (__init__ plain_connection key_sets_query false false) as [self|e] eqn:Hinit;
    [|vm_compute in Hinit; discriminate Hinit].
  exists self. split; [reflexivity|]. split; [reflexivity|].
  destruct (X4_at_most_one_negated_leaf _ _ _ _ _ Hinit) as (_ & _ & ->).
  reflexivity.
Defined.

(** ** X5: connectors *)

(** X5: in the where tree of a constructed command every node that is not
    under negation has the connector [AND]; an [OR] is only accepted under
    negation. *)
Theorem X5_no_or_outside_negation
    (conn : Connection) (q : DjangoQuery) (keys_only_arg all_fields : bool)
    (self : SelectCommand) :
  __init__ conn q keys_only_arg all_fields = Ok self ->
  List.Forall (fun node => fst node = false -> snd node = AND)
              (tagged_nodes (q_where q) false).
Proof.
  intros Hinit. apply init_Ok in Hinit as (pf & r & s' & _ & Hparse & _).
  enough (forall w r s' n s,
            parse_where_and_check_projection w n s = (Ok r, s') ->
            List.Forall (fun node => fst node = false -> snd node = AND)
                        (tagged_nodes w n)) as Hgen by (eapply Hgen; eauto).
  clear. intros w.
  induction w as [c wn cs Hcs| |w IHw] using WhereNode_tree_ind
    with (Q := fun ch => forall r s' n s, parse_child ch n s = (Ok r, s') ->
                 List.Forall (fun node => fst node = false -> snd node = AND)
                             (child_nodes ch n)).
  - intros r s' n s Hparse. rewrite parse_where_node in Hparse.
    change (tagged_nodes (mkWhere c wn cs) n)
      with ((flip wn n, c) :: flat_map (fun ch => child_nodes ch (flip wn n)) cs).
    destruct (negb (flip wn n) && negb (Connector_eqb c AND)) eqn:Hguard;
      [discriminate|].
    constructor.
    + cbn [fst snd]. intros Hflag. rewrite Hflag in Hguard.
      destruct c; [reflexivity|discriminate Hguard].
    + clear Hguard. revert r s Hparse.
      induction Hcs as [|ch rest Hch _ IH]; intros r s Hparse; [constructor|].
      apply parse_children_cons in Hparse as (r1 & s1 & r2 & H1 & H2 & _).
      cbn [flat_map]. apply List.Forall_app. split; eauto.
  - intros r s' n s _. constructor.
  - intros r s' n s Hparse. cbn [parse_child child_nodes] in *. eauto.
Qed.

Lemma X5_witness :
  (exists self, __init__ plain_connection negated_or_query false false = Ok self)
  /\ List.Forall (fun node => fst node = false -> snd node = AND)
                 (tagged_nodes (q_where negated_or_query) false)
  /\ __init__ plain_connection or_query false false = Raise UnsupportedCombinator.
Proof.
  destruct (__init__ plain_connection negated_or_query false false)
    as [self|e] eqn:Hinit; [|vm_compute in Hinit; discriminate Hinit].
  split; [exists self; reflexivity|]. split.
  - exact (X5_no_or_outside_negation _ _ _ _ _ Hinit).
  - vm_compute. reflexivity.
Defined.

(** ** X6: the queried fields and [keys_only] *)

Lemma parse_where_queried_fields w n s :
  queried_fields (snd (parse_where_and_check_projection w n s)) = queried_fields s
  /\ keys_only (snd (parse_where_and_check_projection w n s)) = keys_only s.
Proof.
  apply (parse_where_R
           (fun s s' => queried_fields s' = queried_fields s
                        /\ keys_only s' = keys_only s)).
  - tauto.
  - intros s1 s2 s3 [? ?] [? ?]. split; congruence.
  - intros k op v n' s0. run_leaf. split_ifs; simpl; tauto.
Qed.

Lemma list_index_replace_first x y l :
  match list_index x l with
  | Some i => <[i := y]> l = replace_first x y l /\ existsb (String.eqb x) l = true
  | None => replace_first x y l = l /\ existsb (String.eqb x) l = false
  end.
Proof.
  induction l as [|z l IH]; cbn [list_index replace_first existsb]; [auto|].
  rewrite (String.eqb_sym x z).
  destruct (String.eqb z x); cbn [orb]; [auto|].
  destruct (list_index x l) as [i|]; cbn [fmap option_fmap option_map];
    destruct IH as [IH1 IH2]; split; try exact IH2.
  - change (<[S i := y]> (z :: l)) with (z :: <[i := y]> l). now rewrite IH1.
  - now rewrite IH1.
Qed.

Lemma length_replace_first x y l :
  List.length (replace_first x y l) = List.length l.
Proof.
  induction l as [|z l IH]; cbn [replace_first]; [reflexivity|].
  destruct (String.eqb z x); cbn [List.length]; congruence.
Qed.

(** X6: in a constructed command the queried fields are the selected
    columns (the primary key alone for [keys_only], every column of the model
    when nothing is selected) with the first occurrence of the primary key
    replaced by [__key__], and [keys_only] is set exactly when the primary
    key is the only queried field. *)
Theorem X6_queried_fields_and_keys_only
    (conn : Connection) (q : DjangoQuery) (keys_only_arg all_fields : bool)
    (self : SelectCommand) :
  __init__ conn q keys_only_arg all_fields = Ok self ->
  let fields := initial_queried_fields q keys_only_arg all_fields in
  let pk_column := column (pk (q_model q)) in
  queried_fields self = replace_first pk_column "__key__" fields
  /\ keys_only self = bool_decide (fields = [pk_column]).
Proof.
  intros Hinit fields pk_column.
  apply init_Ok in Hinit as (pf & w & s' & _ & Hparse & ->).
  pose proof (parse_where_queried_fields (q_where q) false
                (init_fields conn q keys_only_arg all_fields pf)) as [Hqf Hko].
  pose proof (parse_where_keeps (q_where q) false
                (init_fields conn q keys_only_arg all_fields pf))
    as ((_ & _ & Hpk & _) & _).
  rewrite Hparse in Hqf, Hko, Hpk. cbn [snd queried_fields keys_only pk_col init_fields]
    in Hqf, Hko, Hpk.
  unfold switch_pk_to_key. cbn [queried_fields pk_col set_where]. rewrite Hqf, Hpk.
  fold fields pk_column.
  pose proof (list_index_replace_first pk_column "__key__" fields) as Hidx.
  destruct (list_index pk_column fields) as [i|]; destruct Hidx as [Hrep Hin].
  - cbn [queried_fields keys_only set_keys_only set_queried_fields]. rewrite Hrep.
    split; [reflexivity|]. rewrite length_replace_first.
    destruct fields as [|f [|g rest]]; cbn [List.length Nat.eqb].
    + discriminate Hin.
    + cbn in Hin. rewrite orb_false_r in Hin. apply String.eqb_eq in Hin as <-.
      now rewrite bool_decide_eq_true_2.
    + symmetry. apply bool_decide_eq_false_2. discriminate.
  - cbn [queried_fields keys_only set_where]. rewrite Hko, Hrep, Hqf.
    split; [reflexivity|]. symmetry. apply bool_decide_eq_false_2.
    intros Heq. rewrite Heq in Hin. cbn in Hin.
    now rewrite String.eqb_refl in Hin.
Qed.

Lemma X6_witness :
  (exists self,
     __init__ plain_connection
              (select_where ["name"; "id"; "id"] []) false false = Ok self
     /\ queried_fields self = ["name"; "__key__"; "id"]
     /\ keys_only self = false)
  /\ (exists self,
        __init__ plain_connection (select_where ["id"] []) false false = Ok self
        /\ queried_fields self = ["__key__"]
        /\ keys_only self = true).
Proof.
  split.
  - destruct (__init__ plain_connection (select_where ["name"; "id"; "id"] [])
                       false false) as [self|e] eqn:Hinit;
      [|vm_compute in Hinit; discriminate Hinit].
    exists self. split; [reflexivity|].
    destruct (X6_queried_fields_and_keys_only _ _ _ _ _ Hinit) as [-> ->].
    split; reflexivity.
  - destruct (__init__ plain_connection (select_where ["id"] []) false false)
      as [self|e] eqn:Hinit; [|vm_compute in Hinit; discriminate Hinit].
    exists self. split; [reflexivity|].
    destruct (X6_queried_fields_and_keys_only _ _ _ _ _ Hinit) as [-> ->].
    split; reflexivity.
Defined.

(** ** X7 and X8: the where loop of [execute] *)

Ltac inv_put H :=
  match type of H with
  | context [set_filter ?s ?k ?v ?q] =>
    let Hput := fresh "Hput" in
    let Hacc := fresh "Hacc" in
    destruct (set_filter s k v q) eqn:Hput; cbn [res_bind] in H;
    [apply set_filter_Ok in Hput as [Hacc ->]|discriminate H]
  end.

Lemma where_loop_native sdk ix self w :
  List.Forall (fun f => native_predicate f = true) w ->
  forall q cf reg,
    (exists q',
       where_loop sdk ix self q cf reg w = (Ok (q', cf), reg)
       /\ kind q' = kind q /\ ds_projection q' = ds_projection q
       /\ orderings q' = orderings q
       /\ (forall key, is_Some (filters q !! key) -> is_Some (filters q' !! key))
       /\ (forall c op v, In (c, op, v) w ->
             exists final_op,
               dict_get OPERATORS_MAP op = Some final_op
               /\ is_Some (filters q' !! filter_key (datastore_column self c) final_op)))
    \/ (exists e q1 key value,
          where_loop sdk ix self q cf reg w = (Raise e, reg)
          /\ check_filter sdk q1 key value = Some e).
Proof.
  induction 1 as [|[[c op] v] rest Hnative _ IH]; intros q cf reg.
  - left. exists q. repeat split; auto. intros c op v [].
  - unfold native_predicate in Hnative. cbn [fst snd] in Hnative.
    destruct (dict_get OPERATORS_MAP op) as [final_op|] eqn:Hop; [|discriminate].
    cbn [where_loop]. unfold where_step. rewrite Hop.
    fold (datastore_column self c). unfold set_filter.
    destruct (check_filter sdk q (filter_key (datastore_column self c) final_op) v)
      as [e|] eqn:Hcheck; cbn [res_bind].
    { right. exists e, q, (filter_key (datastore_column self c) final_op), v. auto. }
    destruct (IH (dict_setitem (filter_key (datastore_column self c) final_op) v q)
                 cf reg)
      as [(q' & Hloop & Hk & Hp & Ho & Hmono & Hall)|(e & q1 & key & value & Hloop & He)].
    + left. exists q'. split; [exact Hloop|]. split; [exact Hk|]. split; [exact Hp|].
      split; [exact Ho|]. split.
      * intros key Hkey. apply Hmono. cbn [filters dict_setitem].
        rewrite lookup_insert. destruct (decide _); [eauto|exact Hkey].
      * intros c' op' v' [Heq|Hin]; [|exact (Hall _ _ _ Hin)].
        injection Heq as <- <- <-. exists final_op. split; [exact Hop|].
        apply Hmono. cbn [filters dict_setitem]. rewrite lookup_insert_eq. eauto.
    + right. exists e, q1, key, value. auto.
Qed.

(** X7: when every predicate of a command has a datastore operator
    ([exact], [gt], [gte], [lt], [lte]), compilation leaves the registry
    alone, whatever the special indexes are, and fails only with an
    exception of the library: when the library refuses the class filter,
    the filter of a predicate or the ordering.  Otherwise it gives a single
    query, on the table of the inheritance root, with the projection of the
    command and the compiled ordering, and with a filter for every
    predicate. *)
Theorem X7_native_predicates_compile_to_one_query
    (sdk : Sdk) (ix : Indexing) (reg reg' : Registry) (self : SelectCommand)
    (r : Res CompiledQuery) :
  List.Forall (fun f => native_predicate f = true) (where_ self) ->
  compile_query sdk ix reg self = (r, reg') ->
  reg' = reg
  /\ match r with
     | Ok cq =>
       exists q,
         cq = Query q
         /\ kind q = db_table (inheritance_root (model self))
         /\ ds_projection q = projection self
         /\ orderings q = compiled_ordering self
         /\ forall c op v, In (c, op, v) (where_ self) ->
              exists final_op,
                dict_get OPERATORS_MAP op = Some final_op
                /\ is_Some (filters q !! filter_key (datastore_column self c) final_op)
     | Raise e => library_refusal sdk e
     end.
Proof.
  intros Hnative H. unfold compile_query in H.
  destruct (base_query sdk self) as [q0|e] eqn:Hbase.
  2:{ injection H as <- <-. split; [reflexivity|]. left.
      unfold base_query in Hbase. destruct (negb _ && negb _); [|discriminate].
      apply set_filter_Raise in Hbase. eauto. }
  apply base_query_kind in Hbase as (Hk0 & Hp0 & Ho0).
  destruct (where_loop_native sdk ix self _ Hnative q0 [] reg)
    as [(q' & Hloop & Hk & Hp & _ & _ & Hall)|(e & q1 & key & value & Hloop & He)];
    rewrite Hloop in H.
  - unfold Order in H.
    destruct (check_order sdk q' (compiled_ordering self)) as [e|] eqn:Hcheck;
      cbn [res_bind] in H; injection H as <- <-; (split; [reflexivity|]).
    + right. right. left. eauto.
    + eexists. split; [reflexivity|]. cbn [kind ds_projection orderings filters].
      rewrite Hk, Hp. auto.
  - injection H as <- <-. split; [reflexivity|]. left. eauto.
Qed.

Lemma X7_witness :
  exists self q,
    __init__ plain_connection native_query false false = Ok self
    /\ List.Forall (fun f => native_predicate f = true) (where_ self)
    /\ compile_query checking_library static_indexing no_indexes self
       = (Ok (Query q), no_indexes)
    /\ kind q = "app_user"
    /\ ds_projection q = Some {[ "email" ]}
    /\ orderings q = [("priority", DESCENDING); ("__key__", ASCENDING)]
    /\ is_Some (filters q !! "priority >=") /\ is_Some (filters q !! "name =").
Proof.
  destruct (__init__ plain_connection native_query false false) as [self|e] eqn:Hinit;
    [|vm_compute in Hinit; discriminate Hinit].
  pose proof Hinit as Hself. vm_compute in Hself. injection Hself as Hself.
  assert (List.Forall (fun f => native_predicate f = true) (where_ self)) as Hnative
    by (rewrite <- Hself; repeat constructor).
  destruct (compile_query checking_library static_indexing no_indexes self)
    as [[cq|e] reg'] eqn:Hcompile;
    [|rewrite <- Hself in Hcompile; vm_compute in Hcompile; discriminate Hcompile].
  destruct (X7_native_predicates_compile_to_one_query checking_library static_indexing
              no_indexes reg' self (Ok cq) Hnative Hcompile)
    as (-> & q & -> & Hkind & Hproj & Hord & Hall).
  exists self, q. split; [reflexivity|]. split; [exact Hnative|].
  split; [exact Hcompile|].
  split; [rewrite Hkind, <- Hself; reflexivity|].
  split; [rewrite Hproj, <- Hself; vm_compute; reflexivity|].
  split; [rewrite Hord, <- Hself; reflexivity|].
  assert (pk_col self = "id") as Hpk by (rewrite <- Hself; reflexivity).
  split.
  - destruct (Hall "priority" "gte" (Scalar (PyInt 3))) as (fop & Hop & Hsome);
      [rewrite <- Hself; cbn; auto|].
    injection Hop as <-. unfold datastore_column in Hsome. rewrite Hpk in Hsome.
    exact Hsome.
  - destruct (Hall "name" "exact" (Scalar (PyStr "Ann"))) as (fop & Hop & Hsome);
      [rewrite <- Hself; cbn; auto|].
    injection Hop as <-. unfold datastore_column in Hsome. rewrite Hpk in Hsome.
    exact Hsome.
Defined.

(** X8: a predicate whose operator has no datastore operator, is not in
    [REQUIRES_SPECIAL_INDEXES] and is none of [in], [gt_and_lt] and
    [isnull] (a [startswith], [range] or [year] without an indexer, or an
    operator the map does not know) makes compilation raise
    [NotImplementedError] with the operator in the message, once the
    predicates before it are compiled. *)
Theorem X8_unimplemented_operator
    (sdk : Sdk) (ix : Indexing) (self : SelectCommand) (reg : Registry)
    (pre post : list Filter) (column0 op : string) (value : Value)
    (q0 q1 : datastore_Query) (cf1 : list Filter) (reg1 : Registry) :
  where_ self = pre ++ (column0, op, value) :: post ->
  base_query sdk self = Ok q0 ->
  where_loop sdk ix self q0 [] reg pre = (Ok (q1, cf1), reg1) ->
  dict_get OPERATORS_MAP op = None ->
  special_indexer (REQUIRES_SPECIAL_INDEXES ix) op = None ->
  str_in op ["in"; "gt_and_lt"; "isnull"] = false ->
  compile_query sdk ix reg self
  = (Raise (NotImplementedError ("Unimplemented operator " +:+ op)), reg1).
Proof.
  intros Hwhere Hbase Hpre Hnative Hspecial Hother.
  unfold compile_query. rewrite Hbase, Hwhere, where_loop_app, Hpre.
  cbn [where_loop]. unfold where_step. rewrite Hnative, Hspecial.
  cbn [str_in existsb] in Hother.
  apply orb_false_iff in Hother as [-> Hother].
  apply orb_false_iff in Hother as [-> Hother].
  apply orb_false_iff in Hother as [-> _]. reflexivity.
Qed.

Lemma X8_witness :
  exists self q0 q1,
    __init__ plain_connection startswith_query false false = Ok self
    /\ where_ self = [("name", "exact", Scalar (PyStr "Ann"))]
                     ++ ("email", "startswith", Scalar (PyStr "a")) :: []
    /\ base_query checking_library self = Ok q0
    /\ where_loop checking_library static_indexing self q0 [] no_indexes
                  [("name", "exact", Scalar (PyStr "Ann"))]
       = (Ok (q1, []), no_indexes)
    /\ dict_get OPERATORS_MAP "startswith" = None
    /\ special_indexer (REQUIRES_SPECIAL_INDEXES static_indexing) "startswith" = None
    /\ compile_query checking_library static_indexing no_indexes self
       = (Raise (NotImplementedError "Unimplemented operator startswith"), no_indexes).
Proof.
  destruct (__init__ plain_connection startswith_query false false)
    as [self|e] eqn:Hinit; [|vm_compute in Hinit; discriminate Hinit].
  pose proof Hinit as Hself. vm_compute in Hself. injection Hself as Hself.
  assert (where_ self = [("name", "exact", Scalar (PyStr "Ann"))]
                        ++ ("email", "startswith", Scalar (PyStr "a")) :: []) as Hwhere
    by (rewrite <- Hself; reflexivity).
  destruct (base_query checking_library self) as [q0|e] eqn:Hbase;
    [|rewrite <- Hself in Hbase; vm_compute in Hbase; discriminate Hbase].
  destruct (where_loop checking_library static_indexing self q0 [] no_indexes
              [("name", "exact", Scalar (PyStr "Ann"))])
    as [[[q1 cf1]|e] reg1] eqn:Hpre.
  2:{ rewrite <- Hself in Hbase. vm_compute in Hbase. injection Hbase as <-.
      rewrite <- Hself in Hpre. vm_compute in Hpre. discriminate Hpre. }
  assert (cf1 = [] /\ reg1 = no_indexes) as [-> ->].
  { pose proof Hbase as Hb. rewrite <- Hself in Hb. vm_compute in Hb.
    injection Hb as Hb. pose proof Hpre as Hr. rewrite <- Hb, <- Hself in Hr.
    vm_compute in Hr. injection Hr as _ <- <-. auto. }
  exists self, q0, q1. split; [reflexivity|]. split; [exact Hwhere|].
  split; [exact Hbase|]. split; [exact Hpre|].
  split; [reflexivity|]. split; [reflexivity|].
  exact (X8_unimplemented_operator checking_library static_indexing self no_indexes
           _ _ _ _ _ q0 q1 [] no_indexes Hwhere Hbase Hpre eq_refl eq_refl eq_refl).
Defined.

(** ** X9 to X11: the expansion *)

Lemma members_of_length self f query :
  List.length (members_of self f query) = alternatives f.
Proof.
  destruct f as [[c op] v]. unfold members_of, alternatives.
  destruct (String.eqb op "in").
  - destruct (iter_value v) as [vals|e]; [apply length_map|reflexivity].
  - destruct (String.eqb op "gt_and_lt"); reflexivity.
Qed.

Lemma expand_query_length sdk self f query out :
  expand_query sdk self f query = Ok out -> List.length out = alternatives f.
Proof. intros H. apply expand_query_Ok in H as ->. apply members_of_length. Qed.

Lemma expand_queries_length sdk self f queries out :
  expand_queries sdk self f queries = Ok out ->
  List.length out = (List.length queries * alternatives f)%nat.
Proof.
  revert out. induction queries as [|query rest IH]; cbn [expand_queries]; intros out H.
  - injection H as <-. reflexivity.
  - destruct (expand_query sdk self f query) as [a|e] eqn:Ha; cbn [res_bind] in H;
      [|discriminate].
    destruct (expand_queries sdk self f rest) as [b|e] eqn:Hb; cbn [res_bind] in H;
      [|discriminate].
    injection H as <-.
    rewrite length_app, (expand_query_length _ _ _ _ _ Ha), (IH _ eq_refl).
    cbn [List.length]. lia.
Qed.

Lemma expand_all_length sdk self cf :
  forall queries out,
    expand_all sdk self cf queries = Ok out ->
    List.length out = (List.length queries * product (map alternatives cf))%nat.
Proof.
  induction cf as [|f rest IH]; cbn [expand_all]; intros queries out H.
  - injection H as <-. cbn. lia.
  - destruct (expand_queries sdk self f queries) as [new|e] eqn:Hnew;
      cbn [res_bind] in H; [|discriminate].
    rewrite (IH _ _ H), (expand_queries_length _ _ _ _ _ Hnew).
    cbn [map product fold_right]. fold (product (map alternatives rest)). lia.
Qed.

Lemma native_is_not_expansion c op v :
  native_predicate (c, op, v) = true -> expansion_predicate (c, op, v) = false.
Proof.
  unfold native_predicate, expansion_predicate. cbn [fst snd].
  destruct (String.eqb op "in") eqn:Hin;
    [apply String.eqb_eq in Hin as ->; discriminate|].
  destruct (String.eqb op "gt_and_lt") eqn:Hgt;
    [apply String.eqb_eq in Hgt as ->; discriminate|reflexivity].
Qed.

(** The combined filters are the [in] and [gt_and_lt] predicates, in order. *)
Lemma where_loop_combined sdk ix self w :
  special_indexer (REQUIRES_SPECIAL_INDEXES ix) "in" = None ->
  special_indexer (REQUIRES_SPECIAL_INDEXES ix) "gt_and_lt" = None ->
  forall q cf reg q' cf' reg',
    where_loop sdk ix self q cf reg w = (Ok (q', cf'), reg') ->
    map alternatives cf'
    = map alternatives cf ++ map alternatives (List.filter expansion_predicate w).
Proof.
  intros Hin Hgt. induction w as [|[[c op] v] rest IH]; intros q cf reg q' cf' reg' H.
  - injection H as _ <- _. cbn. now rewrite app_nil_r.
  - cbn [where_loop] in H.
    destruct (where_step sdk ix self q cf reg (c, op, v))
      as [[[q1 cf1]|e] reg1] eqn:Hstep; [|discriminate].
    apply IH in H. rewrite H. clear H IH. cbn [List.filter].
    unfold where_step in Hstep.
    destruct (dict_get OPERATORS_MAP op) as [fop|] eqn:Hop.
    { inv_put Hstep. injection Hstep as _ <- _.
      rewrite (native_is_not_expansion c op v);
        [reflexivity|unfold native_predicate; cbn [fst snd]; now rewrite Hop]. }
    unfold expansion_predicate. cbn [fst snd].
    destruct (String.eqb op "in") eqn:Ein.
    { apply String.eqb_eq in Ein as ->. rewrite Hin in Hstep. cbn in Hstep.
      injection Hstep as _ <- _. cbn [orb map]. rewrite map_app, <- app_assoc.
      reflexivity. }
    destruct (String.eqb op "gt_and_lt") eqn:Egt.
    { apply String.eqb_eq in Egt as ->. rewrite Hgt in Hstep. cbn in Hstep.
      injection Hstep as _ <- _. cbn [orb map]. rewrite map_app, <- app_assoc.
      reflexivity. }
    cbn [orb].
    destruct (special_indexer (REQUIRES_SPECIAL_INDEXES ix) op).
    + destruct (negb _); [discriminate|]. inv_put Hstep.
      injection Hstep as _ <- _. reflexivity.
    + destruct (String.eqb op "isnull"); [|discriminate].
      inv_put Hstep. injection Hstep as _ <- _. reflexivity.
Qed.

(** X9: a compiled multi-query has as many members as the product of the
    numbers of alternatives of the [in] and open-range predicates of the
    command: the number of values of each [in], two for each open range.
    An [in] over no value therefore gives a multi-query without members. *)
Theorem X9_members_are_a_product
    (sdk : Sdk) (ix : Indexing) (reg reg' : Registry) (self : SelectCommand)
    (qs : list datastore_Query) (o : list (string * Direction)) :
  special_indexer (REQUIRES_SPECIAL_INDEXES ix) "in" = None ->
  special_indexer (REQUIRES_SPECIAL_INDEXES ix) "gt_and_lt" = None ->
  compile_query sdk ix reg self = (Ok (MultiQuery qs o), reg') ->
  List.length qs
  = product (map alternatives (List.filter expansion_predicate (where_ self))).
Proof.
  intros Hin Hgt H.
  apply compile_query_Ok in H as (q0 & q & cf & _ & Hloop & Hcf).
  pose proof (where_loop_combined sdk ix self _ Hin Hgt _ _ _ _ _ _ Hloop) as Hcomb.
  cbn [map app] in Hcomb.
  destruct cf as [|f rest]; [destruct Hcf as (q' & _ & [=])|].
  destruct Hcf as (out & Hex & _ & [= -> _]).
  rewrite (expand_all_length _ _ _ _ _ Hex), Hcomb. cbn [List.length]. lia.
Qed.

Lemma X9_witness :
  exists self qs,
    __init__ plain_connection product_query false false = Ok self
    /\ special_indexer (REQUIRES_SPECIAL_INDEXES static_indexing) "in" = None
    /\ special_indexer (REQUIRES_SPECIAL_INDEXES static_indexing) "gt_and_lt" = None
    /\ compile_query checking_library static_indexing no_indexes self
       = (Ok (MultiQuery qs []), no_indexes)
    /\ List.length qs = (3 * 2 * 2)%nat.
Proof.
  destruct (__init__ plain_connection product_query false false) as [self|e] eqn:Hinit;
    [|vm_compute in Hinit; discriminate Hinit].
  pose proof Hinit as Hself. vm_compute in Hself. injection Hself as Hself.
  destruct (compile_query checking_library static_indexing no_indexes self)
    as [[[dq|qs o]|e] reg'] eqn:Hcompile;
    try (rewrite <- Hself in Hcompile; vm_compute in Hcompile; discriminate Hcompile).
  exists self, qs.
  pose proof (X9_members_are_a_product checking_library static_indexing _ _ _ _ _
                eq_refl eq_refl Hcompile) as Hlen.
  assert (o = [] /\ reg' = no_indexes) as [-> ->].
  { pose proof (compile_query_Ok _ _ _ _ _ _ Hcompile) as (q0 & q & cf & _ & Hloop & Hcf).
    assert (ordering self = []) as Hord by (rewrite <- Hself; reflexivity).
    assert (reg' = no_indexes) as ->.
    { clear -Hloop. revert Hloop. generalize (where_ self), q0, ([] : list Filter).
      intros w. induction w as [|[[c op] v] w IH]; intros qa cfa H.
      - now injection H as _ _ <-.
      - cbn [where_loop] in H.
        destruct (where_step checking_library static_indexing self qa cfa no_indexes
                             (c, op, v)) as [[[q1 cf1]|e] reg1] eqn:Hstep;
          [|discriminate].
        assert (reg1 = no_indexes) as ->.
        { unfold where_step in Hstep. cbn [static_indexing add_special_index] in Hstep.
          destruct (dict_get OPERATORS_MAP op);
            [now injection Hstep as _ <-|].
          destruct (special_indexer _ op);
            [destruct (negb _); now injection Hstep as _ <-|].
          destruct (String.eqb op "in"); [now injection Hstep as _ <-|].
          destruct (String.eqb op "gt_and_lt"); [now injection Hstep as _ <-|].
          destruct (String.eqb op "isnull"); now injection Hstep as _ <-. }
        exact (IH _ _ H). }
    split; [|reflexivity].
    destruct cf as [|f rest]; [destruct Hcf as (q' & _ & [=])|].
    destruct Hcf as (out & _ & _ & [= _ ->]).
    unfold compiled_ordering. now rewrite Hord. }
  split; [reflexivity|]. split; [reflexivity|]. split; [reflexivity|].
  split; [exact Hcompile|].
  rewrite Hlen, <- Hself. reflexivity.
Defined.

Lemma members_of_fresh self f query :
  List.Forall (fun m => ds_projection m = None /\ orderings m = []
                        /\ keeps_filter_keys query m) (members_of self f query).
Proof.
  assert (forall key v, keeps_filter_keys query (member self query key v)) as Hkeep.
  { intros key v k Hk. cbn [filters member].
    rewrite lookup_insert. destruct (decide _); [eauto|exact Hk]. }
  destruct f as [[c op] v]. unfold members_of.
  destruct (String.eqb op "in").
  - destruct (iter_value v) as [vals|e]; [|constructor].
    apply List.Forall_forall. intros m Hm.
    apply in_map_iff in Hm as (val & <- & _). auto.
  - destruct (String.eqb op "gt_and_lt"); repeat constructor; auto.
Qed.

Lemma expand_query_fresh sdk self f query out :
  expand_query sdk self f query = Ok out ->
  List.Forall (fun m => ds_projection m = None /\ orderings m = []
                        /\ keeps_filter_keys query m) out.
Proof. intros H. apply expand_query_Ok in H as ->. apply members_of_fresh. Qed.

Lemma expand_queries_fresh sdk self f queries out :
  expand_queries sdk self f queries = Ok out ->
  List.Forall (fun m => ds_projection m = None /\ orderings m = []
                        /\ exists q0, In q0 queries /\ keeps_filter_keys q0 m) out.
Proof.
  revert out. induction queries as [|query rest IH]; cbn [expand_queries]; intros out H.
  - injection H as <-. constructor.
  - destruct (expand_query sdk self f query) as [a|e] eqn:Ha; cbn [res_bind] in H;
      [|discriminate].
    destruct (expand_queries sdk self f rest) as [b|e] eqn:Hb; cbn [res_bind] in H;
      [|discriminate].
    injection H as <-. apply List.Forall_app. split.
    + apply expand_query_fresh in Ha. eapply List.Forall_impl; [|exact Ha].
      intros m (Hp & Ho & Hk). repeat split; auto. exists query. split; [now left|auto].
    + eapply List.Forall_impl; [|exact (IH _ eq_refl)].
      intros m (Hp & Ho & q0 & Hin & Hk). repeat split; auto.
      exists q0. split; [now right|auto].
Qed.

Lemma expand_all_fresh sdk self cf :
  forall queries out,
    cf <> [] ->
    expand_all sdk self cf queries = Ok out ->
    List.Forall (fun m => ds_projection m = None /\ orderings m = []
                          /\ exists q0, In q0 queries /\ keeps_filter_keys q0 m) out.
Proof.
  induction cf as [|f rest IH]; intros queries out Hne H; [congruence|].
  cbn [expand_all] in H.
  destruct (expand_queries sdk self f queries) as [new|e] eqn:Hnew;
    cbn [res_bind] in H; [|discriminate].
  apply expand_queries_fresh in Hnew.
  destruct rest as [|g rest'].
  - injection H as <-. exact Hnew.
  - specialize (IH new out ltac:(discriminate) H).
    eapply List.Forall_impl; [|exact IH].
    intros m (Hp & Ho & q1 & Hin1 & Hk1). repeat split; auto.
    rewrite List.Forall_forall in Hnew.
    destruct (Hnew _ Hin1) as (_ & _ & q0 & Hin0 & Hk0).
    exists q0. split; [exact Hin0|]. intros key Hkey. auto.
Qed.

(** X10: the members of a compiled multi-query have no projection and no
    ordering of their own, also when the command has a projection: the
    compiled ordering is given to the multi-query, the projection is lost. *)
Theorem X10_expansion_drops_the_projection
    (sdk : Sdk) (ix : Indexing) (reg reg' : Registry) (self : SelectCommand)
    (qs : list datastore_Query) (o : list (string * Direction)) :
  compile_query sdk ix reg self = (Ok (MultiQuery qs o), reg') ->
  o = compiled_ordering self
  /\ List.Forall (fun m => ds_projection m = None /\ orderings m = []) qs.
Proof.
  intros H. apply compile_query_Ok in H as (q0 & q & cf & _ & _ & Hcf).
  destruct cf as [|f rest]; [destruct Hcf as (q' & _ & [=])|].
  destruct Hcf as (out & Hex & _ & [= -> ->]). split; [reflexivity|].
  apply expand_all_fresh in Hex; [|discriminate].
  eapply List.Forall_impl; [|exact Hex]. intros m (Hp & Ho & _). auto.
Qed.

Lemma X10_witness :
  exists self qs,
    __init__ plain_connection in_and_exclude_query false false = Ok self
    /\ projection self = Some {[ "name" ]}
    /\ compile_query checking_library static_indexing no_indexes self
       = (Ok (MultiQuery qs []), no_indexes)
    /\ List.Forall (fun m => ds_projection m = None /\ orderings m = []) qs.
Proof.
  destruct (__init__ plain_connection in_and_exclude_query false false)
    as [self|e] eqn:Hinit; [|vm_compute in Hinit; discriminate Hinit].
  pose proof Hinit as Hself. vm_compute in Hself. injection Hself as Hself.
  destruct (compile_query checking_library static_indexing no_indexes self)
    as [[[dq|qs o]|e] reg'] eqn:Hcompile;
    try (rewrite <- Hself in Hcompile; vm_compute in Hcompile; discriminate Hcompile).
  exists self, qs.
  destruct (X10_expansion_drops_the_projection _ _ _ _ _ _ _ Hcompile) as [Ho Hall].
  pose proof Hcompile as Hc. rewrite <- Hself in Hc. vm_compute in Hc.
  injection Hc as _ Ho' Hreg.
  split; [reflexivity|]. split; [rewrite <- Hself; vm_compute; reflexivity|].
  split; [rewrite Hcompile, <- Ho', <- Hreg; reflexivity|exact Hall].
Defined.

(** The where loop only adds filters, and adds one for every predicate
    with a datastore operator. *)
Lemma where_loop_keys sdk ix self w :
  forall q cf reg q' cf' reg',
    where_loop sdk ix self q cf reg w = (Ok (q', cf'), reg') ->
    keeps_filter_keys q q'
    /\ forall c op v final_op,
         In (c, op, v) w -> dict_get OPERATORS_MAP op = Some final_op ->
         is_Some (filters q' !! filter_key (datastore_column self c) final_op).
Proof.
  assert (forall key v q, keeps_filter_keys q (dict_setitem key v q)) as Hset.
  { intros key v q k Hk. cbn [filters dict_setitem].
    rewrite lookup_insert. destruct (decide _); [eauto|exact Hk]. }
  induction w as [|[[c op] v] rest IH]; intros q cf reg q' cf' reg' H.
  - injection H as <- _ _. split; [intros key Hk; exact Hk|intros c op v fop []].
  - cbn [where_loop] in H.
    destruct (where_step sdk ix self q cf reg (c, op, v))
      as [[[q1 cf1]|e] reg1] eqn:Hstep; [|discriminate].
    destruct (IH _ _ _ _ _ _ H) as [Hkeep Hall]. clear IH H.
    unfold where_step in Hstep. fold (datastore_column self c) in Hstep.
    assert (keeps_filter_keys q q1
            /\ forall final_op, dict_get OPERATORS_MAP op = Some final_op ->
                 is_Some (filters q1 !! filter_key (datastore_column self c) final_op))
      as [Hq1 Hhere].
    { destruct (dict_get OPERATORS_MAP op) as [fop|].
      - inv_put Hstep. injection Hstep as <- _ _. split; [apply Hset|].
        intros final_op [= <-]. cbn [filters dict_setitem]. rewrite lookup_insert_eq.
        eauto.
      - split; [|discriminate].
        destruct (special_indexer (REQUIRES_SPECIAL_INDEXES ix) op).
        + destruct (negb _); [discriminate|]. inv_put Hstep.
          injection Hstep as <- _ _. apply Hset.
        + destruct (String.eqb op "in");
            [injection Hstep as <- _ _; intros key Hk; exact Hk|].
          destruct (String.eqb op "gt_and_lt");
            [injection Hstep as <- _ _; intros key Hk; exact Hk|].
          destruct (String.eqb op "isnull"); [|discriminate].
          inv_put Hstep. injection Hstep as <- _ _. apply Hset. }
    split; [intros key Hk; auto|].
    intros c' op' v' fop [Heq|Hin] Hop; [|eauto].
    injection Heq as <- <- <-. apply Hkeep. auto.
Qed.

(** X11: every member of a compiled multi-query has each filter key of the
    query [execute] starts from (the class filter of a model with concrete
    parents among them) and a filter for every predicate of the command that
    has a datastore operator: expansion adds filters to copies, it removes
    none. *)
Theorem X11_members_keep_the_filters
    (sdk : Sdk) (ix : Indexing) (reg reg' : Registry) (self : SelectCommand)
    (qs : list datastore_Query) (o : list (string * Direction)) :
  compile_query sdk ix reg self = (Ok (MultiQuery qs o), reg') ->
  exists q0,
    base_query sdk self = Ok q0
    /\ List.Forall
         (fun m =>
            keeps_filter_keys q0 m
            /\ forall c op v final_op,
                 In (c, op, v) (where_ self) ->
                 dict_get OPERATORS_MAP op = Some final_op ->
                 is_Some (filters m !! filter_key (datastore_column self c) final_op))
         qs.
Proof.
  intros H. apply compile_query_Ok in H as (q0 & q & cf & Hbase & Hloop & Hcf).
  exists q0. split; [exact Hbase|].
  destruct (where_loop_keys _ _ _ _ _ _ _ _ _ _ Hloop) as [Hkeep Hall].
  destruct cf as [|f rest]; [destruct Hcf as (q' & _ & [=])|].
  destruct Hcf as (out & Hex & _ & [= -> _]).
  apply expand_all_fresh in Hex; [|discriminate].
  eapply List.Forall_impl; [|exact Hex].
  intros m (_ & _ & q1 & [<-|[]] & Hk). split.
  - intros key Hkey. auto.
  - intros c op v fop Hin Hop. apply Hk. eauto.
Qed.

Lemma X11_witness :
  exists self qs q0,
    __init__ plain_connection employee_query false false = Ok self
    /\ compile_query checking_library static_indexing no_indexes self
       = (Ok (MultiQuery qs []), no_indexes)
    /\ base_query checking_library self = Ok q0
    /\ filters q0 !! "class =" = Some (Scalar (PyStr "app_employee"))
    /\ List.length qs = 2%nat
    /\ List.Forall (fun m => is_Some (filters m !! "class =")) qs.
Proof.
  destruct (__init__ plain_connection employee_query false false) as [self|e] eqn:Hinit;
    [|vm_compute in Hinit; discriminate Hinit].
  pose proof Hinit as Hself. vm_compute in Hself. injection Hself as Hself.
  destruct (compile_query checking_library static_indexing no_indexes self)
    as [[[dq|qs o]|e] reg'] eqn:Hcompile;
    try (rewrite <- Hself in Hcompile; vm_compute in Hcompile; discriminate Hcompile).
  pose proof (X11_members_keep_the_filters _ _ _ _ _ _ _ Hcompile)
    as (q0 & Hbase & Hall).
  exists self, qs, q0.
  pose proof Hcompile as Hc. rewrite <- Hself in Hc. vm_compute in Hc.
  injection Hc as Hqs Ho Hreg.
  assert (filters q0 !! "class =" = Some (Scalar (PyStr "app_employee"))) as Hclass.
  { pose proof Hbase as Hb. rewrite <- Hself in Hb. vm_compute in Hb.
    injection Hb as <-. vm_compute. reflexivity. }
  split; [reflexivity|]. split; [rewrite Hcompile, <- Ho, <- Hreg; reflexivity|].
  split; [exact Hbase|].
  split; [exact Hclass|]. split; [rewrite <- Hqs; reflexivity|].
  eapply List.Forall_impl; [|exact Hall].
  intros m [Hkeep _]. apply Hkeep. rewrite Hclass. eauto.
Defined.

(** ** X12: the compiled ordering *)

Lemma lstrip_dash_no_dash s : startswith_dash (lstrip_dash s) = false.
Proof.
  induction s as [|c s IH]; [reflexivity|].
  cbn [lstrip_dash].
  destruct c as [[] [] [] [] [] [] [] []]; try reflexivity. exact IH.
Qed.

(** X12: the compiled ordering has one entry for every ordering of the
    command, in order; an entry is descending exactly when the ordering
    starts with a dash, and its column never starts with a dash, however
    many dashes the ordering had. *)
Theorem X12_compiled_ordering (self : SelectCommand) :
  map snd (compiled_ordering self)
  = map (fun order => if startswith_dash order then DESCENDING else ASCENDING)
        (ordering self)
  /\ List.Forall (fun entry => startswith_dash (fst entry) = false)
                 (compiled_ordering self).
Proof.
  unfold compiled_ordering. split.
  - rewrite map_map. apply map_ext. intros order. reflexivity.
  - apply List.Forall_forall. intros entry Hin.
    apply in_map_iff in Hin as (order & <- & _).
    unfold order_entry. cbn [fst].
    destruct (String.eqb _ _); [reflexivity|apply lstrip_dash_no_dash].
Qed.

(** ** X13: what [execute] stores *)

(** X13: for a constructed command that is not flagged empty and whose
    query compiles, [execute] does not fail: it stores the compiled query,
    makes one datastore request, and [results] is what that request
    returned, a count when the query has aggregates and the entities
    otherwise; [query_done] is set for a multi-query only. *)
Theorem X13_execute_stores_the_answer
    (conn : Connection) (q : DjangoQuery) (keys_only_arg all_fields : bool)
    (self : SelectCommand) (sdk : Sdk) (ix : Indexing) (b : Backend)
    (reg reg' : Registry) (cq : CompiledQuery) :
  __init__ conn q keys_only_arg all_fields = Ok self ->
  query_can_never_return_results self = false ->
  compile_query sdk ix reg self = (Ok cq, reg') ->
  exists self',
    execute sdk ix b reg self = (Ok self', [store_call self cq], reg')
    /\ query self' = Some cq
    /\ results self'
       = Some (if is_empty (aggregates q) then Entities (Run b cq)
               else Count (Count_ b cq))
    /\ query_done self' = match cq with MultiQuery _ _ => true | Query _ => false end.
Proof.
  intros Hinit Hflag Hcompile.
  pose proof (init_all_filters _ _ _ _ _ Hinit) as Hall.
  assert (is_count self = aggregates q) as Hcount.
  { apply init_Ok in Hinit as (pf & w & s' & _ & Hparse & ->).
    destruct (switch_pk_to_key_sets (set_where w s')) as (_&_&_&_&_& ->).
    pose proof (parse_where_keeps (q_where q) false
                  (init_fields conn q keys_only_arg all_fields pf)) as Hk.
    rewrite Hparse in Hk. cbn [snd] in Hk.
    destruct Hk as ((_&_&_&_&_&_&_& Hc) & _). cbn [is_count set_where].
    rewrite Hc. reflexivity. }
  unfold execute. rewrite Hflag, Hcompile.
  unfold _do_fetch, _run_query, store_call.
  cbn [results query aggregate_type set_aggregate_type set_query_done set_results
       set_query is_count all_filters truthy].
  rewrite Hall, Hcount. cbn [is_empty negb].
  destruct cq as [dq|qs o]; destruct (is_empty (aggregates q)); cbn; eauto 6.
Qed.

Lemma X13_witness :
  exists self qs self',
    __init__ plain_connection count_query false false = Ok self
    /\ query_can_never_return_results self = false
    /\ compile_query checking_library static_indexing no_indexes self
       = (Ok (MultiQuery qs []), no_indexes)
    /\ execute checking_library static_indexing one_user_backend no_indexes self
       = (Ok self', [StoreCount (MultiQuery qs [])], no_indexes)
    /\ results self' = Some (Count 7)
    /\ query_done self' = true.
Proof.
  destruct (__init__ plain_connection count_query false false) as [self|e] eqn:Hinit;
    [|vm_compute in Hinit; discriminate Hinit].
  pose proof Hinit as Hself. vm_compute in Hself. injection Hself as Hself.
  assert (query_can_never_return_results self = false) as Hflag
    by (rewrite <- Hself; reflexivity).
  assert (is_count self = ["id__count"]) as Hcount by (rewrite <- Hself; reflexivity).
  destruct (compile_query checking_library static_indexing no_indexes self)
    as [[[dq|qs o]|e] reg'] eqn:Hcompile;
    try (rewrite <- Hself in Hcompile; vm_compute in Hcompile; discriminate Hcompile).
  pose proof Hcompile as Hc. rewrite <- Hself in Hc. vm_compute in Hc.
  injection Hc as _ Ho Hreg.
  destruct (X13_execute_stores_the_answer _ _ _ _ _ checking_library static_indexing
              one_user_backend _ _ _ Hinit Hflag Hcompile)
    as (self' & Hexec & _ & Hres & Hdone).
  exists self, qs, self'. split; [reflexivity|]. split; [exact Hflag|].
  split; [rewrite Hcompile, <- Ho, <- Hreg; reflexivity|].
  split; [|split; [exact Hres|exact Hdone]].
  rewrite Hexec. unfold store_call. rewrite Hcount, <- Ho, <- Hreg. reflexivity.
Defined.

(** ** X14: the unique-lookup loop of [_do_fetch] *)

Lemma collect_key_covered lookup fields :
  forall acc,
    if covered lookup fields
    then exists key,
           collect_key lookup fields acc = Some (acc ++ key)
           /\ map fst key = fields
           /\ List.Forall (fun p => lookup !! fst p = Some (snd p)) key
    else collect_key lookup fields acc = None.
Proof.
  induction fields as [|f rest IH]; intros acc; cbn [covered forallb collect_key].
  - exists []. rewrite app_nil_r. repeat split. constructor.
  - destruct (lookup !! f) as [v|] eqn:Hf.
    + rewrite bool_decide_eq_true_2 by eauto. cbn [andb].
      specialize (IH (acc ++ [(f, v)])). fold (covered lookup rest).
      destruct (covered lookup rest); [|exact IH].
      destruct IH as (key & Hkey & Hfst & Hall).
      exists ((f, v) :: key). rewrite Hkey, <- app_assoc. cbn [app map fst].
      rewrite Hfst. repeat split. constructor; [exact Hf|exact Hall].
    + rewrite bool_decide_eq_false_2 by (intros [? ?]; discriminate). reflexivity.
Qed.

Lemma unique_loop_requests b m lookup combos :
  forall e,
    List.length (snd (unique_loop b m lookup combos e))
    = List.length (List.filter (covered lookup) combos).
Proof.
  induction combos as [|fields rest IH]; intros e; [reflexivity|].
  cbn [unique_loop List.filter].
  pose proof (collect_key_covered lookup fields []) as Hkey.
  destruct (covered lookup fields).
  - destruct Hkey as (key & -> & _). cbn [app].
    specialize (IH (get_entity_from_cache b (generate_unique_key b m key))).
    destruct (unique_loop b m lookup rest _) as [e' t]. cbn [snd List.length] in *.
    now rewrite IH.
  - rewrite Hkey. apply IH.
Qed.

Lemma unique_loop_uncovered b m lookup combos e :
  List.Forall (fun fields => covered lookup fields = false) combos ->
  unique_loop b m lookup combos e = (e, []).
Proof.
  induction 1 as [|fields rest Hf _ IH]; [reflexivity|].
  cbn [unique_loop].
  pose proof (collect_key_covered lookup fields []) as Hkey.
  rewrite Hf in Hkey. rewrite Hkey. exact IH.
Qed.

(** X14: the loop over the unique combinations asks the cache once for
    every combination whose fields all have an equality filter, not once in
    all, and the entity it ends with is the answer of the cache for the last
    such combination, whatever the answers before were: a miss for a later
    combination discards an earlier hit.  The key is built from the fields of
    the combination in order, each with its filter value. *)
Theorem X14_last_covered_combination_decides
    (b : Backend) (m : Model) (lookup : gmap string Value)
    (pre post : list (list string)) (fields : list string) (e : option Entity) :
  covered lookup fields = true ->
  List.Forall (fun other => covered lookup other = false) post ->
  exists key,
    collect_key lookup fields [] = Some key
    /\ map fst key = fields
    /\ List.Forall (fun p => lookup !! fst p = Some (snd p)) key
    /\ fst (unique_loop b m lookup (pre ++ fields :: post) e)
       = get_entity_from_cache b (generate_unique_key b m key)
    /\ List.length (snd (unique_loop b m lookup (pre ++ fields :: post) e))
       = S (List.length (List.filter (covered lookup) pre)).
Proof.
  intros Hcov Hpost.
  pose proof (collect_key_covered lookup fields []) as Hkey. rewrite Hcov in Hkey.
  destruct Hkey as (key & Hkey & Hfst & Hall). cbn [app] in Hkey.
  exists key. split; [exact Hkey|]. split; [exact Hfst|]. split; [exact Hall|].
  split.
  - revert e. induction pre as [|p pre IH]; intros e; cbn [app unique_loop].
    + rewrite Hkey, (unique_loop_uncovered _ _ _ _ _ Hpost). reflexivity.
    + destruct (collect_key lookup p []) as [k|].
      * specialize (IH (get_entity_from_cache b (generate_unique_key b m k))).
        destruct (unique_loop b m lookup (pre ++ fields :: post) _) as [e' t].
        exact IH.
      * apply IH.
  - rewrite unique_loop_requests, List.filter_app. cbn [List.filter]. rewrite Hcov.
    rewrite length_app. cbn [List.length].
    assert (List.filter (covered lookup) post = []) as ->.
    { clear -Hpost. induction Hpost as [|x l Hx _ IH]; [reflexivity|].
      cbn [List.filter]. now rewrite Hx. }
    cbn [List.length]. lia.
Qed.

Lemma X14_witness :
  let lookup := exact_lookup [("email", "=", Scalar (PyStr "a@b.com"));
                              ("priority", ">", Scalar (PyInt 3));
                              ("name", "=", Scalar (PyStr "Ann"));
                              ("status", "=", Scalar (PyStr "open"))] in
  covered lookup ["name"; "status"] = true
  /\ get_entity_from_cache two_uniques_backend "User|email" = Some cached_user
  /\ unique_loop two_uniques_backend User lookup
                 ([["email"]] ++ ["name"; "status"] :: []) None
     = (None, [CacheGet "User|email"; CacheGet "User|name|status"]).
Proof.
  intros lookup.
  assert (covered lookup ["name"; "status"] = true) as Hcov by (vm_compute; reflexivity).
  split; [exact Hcov|]. split; [reflexivity|].
  destruct (X14_last_covered_combination_decides two_uniques_backend User lookup
              [["email"]] [] ["name"; "status"] None Hcov (List.Forall_nil _))
    as (key & Hkey & _ & _ & Hfst & Hlen).
  vm_compute. reflexivity.
Defined.

(** ** X15: the assertion of the projection loop *)

Lemma projection_fields_loop_raises m pkc pre c post :
  String.eqb c pkc = false ->
  get_field_from_column m c = None ->
  List.Forall (fun x => String.eqb x pkc = true \/ unindexed m x = false
                        /\ is_Some (get_field_from_column m x)) pre ->
  forall acc,
    projection_fields_loop m pkc (pre ++ c :: post) acc = Raise AssertionError.
Proof.
  intros Hc Hnone. induction 1 as [|x pre Hx _ IH]; intros acc;
    cbn [app projection_fields_loop].
  - now rewrite Hc, Hnone.
  - destruct Hx as [-> |[Hun [f Hf]]]; [apply IH|].
    destruct (String.eqb x pkc); [apply IH|].
    unfold unindexed in Hun. rewrite Hf in Hun |- *. rewrite Hun. apply IH.
Qed.

(** X15: when a queried column other than the primary key has no field on
    the model (a select across tables), and no queried column before it is a
    [bytes] or [text] column, construction fails on the assertion, before the
    where tree is looked at and whatever it holds. *)
Theorem X15_select_across_tables_fails_the_assertion
    (conn : Connection) (q : DjangoQuery) (keys_only_arg all_fields : bool)
    (pre post : list string) (c : string) :
  projection_input q keys_only_arg all_fields = pre ++ c :: post ->
  String.eqb c (column (pk (q_model q))) = false ->
  get_field_from_column (q_model q) c = None ->
  List.Forall (fun x => String.eqb x (column (pk (q_model q))) = true
                        \/ unindexed (q_model q) x = false
                           /\ is_Some (get_field_from_column (q_model q) x)) pre ->
  __init__ conn q keys_only_arg all_fields = Raise AssertionError.
Proof.
  intros Hinput Hc Hnone Hpre. unfold __init__.
  rewrite Hinput, (projection_fields_loop_raises _ _ _ _ _ Hc Hnone Hpre). reflexivity.
Qed.

Lemma X15_witness :
  projection_input cross_table_query false false = ["name"] ++ "title" :: ["bio"]
  /\ String.eqb "title" (column (pk (q_model cross_table_query))) = false
  /\ get_field_from_column (q_model cross_table_query) "title" = None
  /\ __init__ plain_connection cross_table_query false false = Raise AssertionError
  /\ (exists self,
        __init__ plain_connection (select_where ["name"; "bio"; "title"] [])
                 false false = Ok self
        /\ projection self = None).
Proof.
  split; [reflexivity|]. split; [reflexivity|]. split; [reflexivity|]. split.
  - apply (X15_select_across_tables_fails_the_assertion plain_connection
             cross_table_query false false ["name"] ["bio"] "title");
      try reflexivity.
    constructor; [|constructor]. right. split; [reflexivity|]. cbn. eauto.
  - eexists. split; [vm_compute; reflexivity|]. reflexivity.
Defined.

(** ** X16: [get_field_from_column] *)

(** X16: [get_field_from_column] returns the first field of the model
    with the column, and [None] only when no field of the model has it. *)
Theorem X16_get_field_from_column_is_the_first_match (m : Model) (c : string) :
  match get_field_from_column m c with
  | Some f =>
    column f = c
    /\ exists before after,
         fields m = before ++ f :: after
         /\ List.Forall (fun g => column g <> c) before
  | None => List.Forall (fun g => column g <> c) (fields m)
  end.
Proof.
  unfold get_field_from_column. induction (fields m) as [|g rest IH];
    cbn [find_field]; [constructor|].
  destruct (String.eqb (column g) c) eqn:Hg.
  - apply String.eqb_eq in Hg. split; [exact Hg|].
    exists [], rest. split; [reflexivity|constructor].
  - apply String.eqb_neq in Hg. destruct (find_field rest c) as [f|].
    + destruct IH as (Hf & before & after & -> & Hbefore). split; [exact Hf|].
      exists (g :: before), after. split; [reflexivity|]. now constructor.
    + now constructor.
Qed.

(** * Properties of the write path *)

(** ** X17: [FlushCommand] *)

Lemma flush_loop_empties {S} (ds : Datastore S) (table : string) :
  (forall s, 0 <= ds_count ds s table)%Z ->
  (forall s, ds_count ds s table <> 0%Z ->
             (ds_count ds (ds_delete_keys ds s (ds_run_keys ds s table)) table
              < ds_count ds s table)%Z) ->
  forall rounds st,
    (Z.to_nat (ds_count ds st table) < rounds)%nat ->
    exists st' t,
      flush_loop ds table rounds st = Some (st', t ++ [DsCount table])
      /\ ds_count ds st' table = 0%Z
      /\ (List.length (List.filter is_key_deletion t)
          <= Z.to_nat (ds_count ds st table))%nat
      /\ List.Forall (fun ev => ev <> CacheClear) t.
Proof.
  intros Hnonneg Hless rounds.
  induction rounds as [|rounds IH]; intros st Hrounds; [lia|].
  cbn [flush_loop].
  destruct (Z.eqb (ds_count ds st table) 0) eqn:Hc.
  - apply Z.eqb_eq in Hc. exists st, [].
    split; [reflexivity|]. split; [exact Hc|]. split; [cbn; lia|constructor].
  - apply Z.eqb_neq in Hc.
    pose proof (Hless st Hc) as Hlt.
    pose proof (Hnonneg st) as H0.
    pose proof (Hnonneg (ds_delete_keys ds st (ds_run_keys ds st table))) as H1.
    destruct (IH (ds_delete_keys ds st (ds_run_keys ds st table)))
      as (st' & t & Hrun & Hzero & Hlen & Hno); [lia|].
    rewrite Hrun.
    exists st', (DsCount table :: DsRunKeys table
                 :: DsDeleteKeys (ds_run_keys ds st table) :: t).
    split; [reflexivity|]. split; [exact Hzero|]. split.
    + cbn [List.filter is_key_deletion List.length]. lia.
    + repeat (constructor; [discriminate|]). exact Hno.
Qed.

(** X17: on a datastore where the count of a table is never negative and
    every deletion of a fetched batch lowers it, a flush that is given more
    rounds than the table counts returns: it leaves a table that counts
    empty, deletes batches at most as many times as the table counted,
    and clears the cache once, as its last request, after a count. *)
Theorem X17_flush_empties_the_table_then_clears_the_cache
    {S : Type} (ds : Datastore S) (table : string) (rounds : nat) (st : S) :
  (forall s, 0 <= ds_count ds s table)%Z ->
  (forall s, ds_count ds s table <> 0%Z ->
             (ds_count ds (ds_delete_keys ds s (ds_run_keys ds s table)) table
              < ds_count ds s table)%Z) ->
  (Z.to_nat (ds_count ds st table) < rounds)%nat ->
  exists st' t,
    FlushCommand_execute ds table rounds st
    = Some (cache_clear ds st', t ++ [DsCount table; CacheClear])
    /\ ds_count ds st' table = 0%Z
    /\ (List.length (List.filter is_key_deletion t)
        <= Z.to_nat (ds_count ds st table))%nat
    /\ List.Forall (fun ev => ev <> CacheClear) t.
Proof.
  intros Hnonneg Hless Hrounds.
  destruct (flush_loop_empties ds table Hnonneg Hless rounds st Hrounds)
    as (st' & t & Hrun & Hzero & Hlen & Hno).
  exists st', t. unfold FlushCommand_execute. rewrite Hrun.
  rewrite <- app_assoc. auto.
Qed.

Lemma mem_store_count_nonneg table s : (0 <= ds_count mem_store s table)%Z.
Proof. cbn. lia. Qed.

Lemma mem_store_batch_lowers_count table s :
  ds_count mem_store s table <> 0%Z ->
  (ds_count mem_store (ds_delete_keys mem_store s (ds_run_keys mem_store s table)) table
   < ds_count mem_store s table)%Z.
Proof.
  cbn. destruct (rows s) as [|r [|r' rs]]; cbn; [lia|lia|].
  rewrite ?length_drop. lia.
Qed.

Lemma X17_witness :
  exists st' t,
    FlushCommand_execute mem_store "app_user" 4 three_users
    = Some (cache_clear mem_store st', t ++ [DsCount "app_user"; CacheClear])
    /\ ds_count mem_store st' "app_user" = 0%Z
    /\ (List.length (List.filter is_key_deletion t)
        <= Z.to_nat (ds_count mem_store three_users "app_user"))%nat
    /\ List.Forall (fun ev => ev <> CacheClear) t.
Proof.
  apply (X17_flush_empties_the_table_then_clears_the_cache
           mem_store "app_user" 4 three_users).
  - intros s. apply mem_store_count_nonneg.
  - intros s. apply mem_store_batch_lowers_count.
  - cbn. lia.
Defined.

(** ** X18 to X20: [InsertCommand] *)

Lemma insert_loop_app {S} (ds : Datastore S) p1 :
  forall p2 st results,
    insert_loop ds (p1 ++ p2) st results =
    match insert_loop ds p1 st results with
    | (inr results1, st1, t1) =>
      let '(r, st2, t2) := insert_loop ds p2 st1 results1 in (r, st2, t1 ++ t2)
    | (inl e, st1, t1) => (inl e, st1, t1)
    end.
Proof.
  induction p1 as [|[key ent] p1 IH]; intros p2 st results.
  - cbn [app insert_loop]. destruct (insert_loop ds p2 st results) as [[r st2] t2].
    reflexivity.
  - cbn [app insert_loop].
    destruct (match ds_get ds st key with
              | Some existing => negb (existing_is_parent ent existing)
              | None => false
              end); [reflexivity|].
    destruct (ds_put ds st ent) as [st' k]. rewrite IH.
    destruct (insert_loop ds p1 st' (results ++ [k])) as [[[e|results1] st1] t1];
      [reflexivity|].
    destruct (insert_loop ds p2 st1 results1) as [[r st2] t2]. reflexivity.
Qed.

Lemma insert_loop_inr {S} (ds : Datastore S) pairs :
  forall st results keys st' t,
    insert_loop ds pairs st results = (inr keys, st', t) ->
    List.length keys = (List.length results + List.length pairs)%nat
    /\ t = flat_map get_then_put pairs.
Proof.
  induction pairs as [|[key ent] pairs IH]; intros st results keys st' t H.
  - cbn [insert_loop] in H. injection H as <- _ <-. cbn. split; [lia|reflexivity].
  - cbn [insert_loop] in H.
    destruct (match ds_get ds st key with
              | Some existing => negb (existing_is_parent ent existing)
              | None => false
              end); [discriminate|].
    destruct (ds_put ds st ent) as [st1 k].
    destruct (insert_loop ds pairs st1 (results ++ [k])) as [[r st2] t2] eqn:Hrest.
    injection H as -> _ <-.
    apply IH in Hrest as [Hlen ->]. rewrite length_app in Hlen.
    cbn [List.length flat_map get_then_put fst snd app] in *. split; [lia|reflexivity].
Qed.

Lemma combine_map {A B C} (f : A -> B) (g : A -> C) (l : list A) :
  combine (map f l) (map g l) = map (fun x => (f x, g x)) l.
Proof. induction l as [|x l IH]; cbn; [reflexivity|now rewrite IH]. Qed.

Lemma insert_pairs base conn m objs fields raw :
  existsb primary_key fields = true ->
  let self := InsertCommand_init base conn m objs fields raw in
  has_pk self = true
  /\ combine (included_keys self) (entities self)
     = map (fun obj => (insert_key base m obj,
                        django_instance_to_entity base conn m fields raw obj)) objs.
Proof.
  intros Hpk. cbn [InsertCommand_init has_pk included_keys entities].
  rewrite Hpk. split; [reflexivity|]. apply combine_map.
Qed.

(** X18: when a primary key is among the fields, an insert that returns
    has made, for every object in turn, one read of the key of the object
    followed by one put of its entity, and nothing else; it returns one
    key for every object. *)
Theorem X18_insert_reads_every_key_before_its_put
    {S : Type} (ds : Datastore S) (base : Base) (conn : Connection) (m : Model)
    (objs : list Instance) (fields : list Field) (raw : bool)
    (st st' : S) (keys : list Key) (t : list WriteEvent) :
  existsb primary_key fields = true ->
  InsertCommand_execute ds (InsertCommand_init base conn m objs fields raw) st
  = (inr keys, st', t) ->
  List.length keys = List.length objs
  /\ t = flat_map (fun obj =>
                     [DsGet (insert_key base m obj);
                      DsPut (django_instance_to_entity base conn m fields raw obj)])
                  objs.
Proof.
  intros Hpk Hrun.
  destruct (insert_pairs base conn m objs fields raw Hpk) as [Hhas Hpairs].
  unfold InsertCommand_execute in Hrun. rewrite Hhas, Hpairs in Hrun.
  apply insert_loop_inr in Hrun as [Hlen ->].
  rewrite length_map in Hlen. split; [exact Hlen|].
  clear. induction objs as [|obj objs IH]; [reflexivity|].
  cbn [map flat_map get_then_put fst snd app]. now rewrite IH.
Qed.

Lemma X18_witness :
  exists keys st' t,
    InsertCommand_execute mem_store
      (InsertCommand_init plain_base plain_connection User [ann; bob]
                          [f_id; f_name] false) empty_store
    = (inr keys, st', t)
    /\ List.length keys = 2%nat
    /\ t = [DsGet ("app_user", PyInt 1); DsPut (snd ann_row);
            DsGet ("app_user", PyInt 2); DsPut (snd bob_row)].
Proof.
  destruct (InsertCommand_execute mem_store
              (InsertCommand_init plain_base plain_connection User [ann; bob]
                                  [f_id; f_name] false) empty_store)
    as [[[e|keys] st'] t] eqn:Hrun; [vm_compute in Hrun; discriminate Hrun|].
  exists keys, st', t. split; [reflexivity|].
  destruct (X18_insert_reads_every_key_before_its_put
              mem_store plain_base plain_connection User [ann; bob]
              [f_id; f_name] false empty_store st' keys t eq_refl Hrun) as [Hlen Ht].
  split; [exact Hlen|]. rewrite Ht. vm_compute. reflexivity.
Defined.

(** X19: an insert stops at the first object whose key is stored with an
    entity that is not taken for its parent.  It raises the integrity
    error after the read of that key; the objects before it stay written,
    the state being the one their insert alone leaves, and no later object
    is read or written. *)
Theorem X19_insert_stops_at_the_first_existing_key
    {S : Type} (ds : Datastore S) (base : Base) (conn : Connection) (m : Model)
    (before after : list Instance) (obj : Instance) (fields : list Field) (raw : bool)
    (st st1 : S) (keys1 : list Key) (t1 : list WriteEvent) (existing : Entity) :
  existsb primary_key fields = true ->
  InsertCommand_execute ds (InsertCommand_init base conn m before fields raw) st
  = (inr keys1, st1, t1) ->
  ds_get ds st1 (insert_key base m obj) = Some existing ->
  existing_is_parent (django_instance_to_entity base conn m fields raw obj) existing
  = false ->
  InsertCommand_execute ds
    (InsertCommand_init base conn m (before ++ obj :: after) fields raw) st
  = (inl (IntegrityError "Tried to INSERT with existing key"), st1,
     t1 ++ [DsGet (insert_key base m obj)]).
Proof.
  intros Hpk Hbefore Hget Hparent.
  destruct (insert_pairs base conn m before fields raw Hpk) as [Hhas1 Hpairs1].
  destruct (insert_pairs base conn m (before ++ obj :: after) fields raw Hpk)
    as [Hhas Hpairs].
  unfold InsertCommand_execute in *. rewrite Hhas1, Hpairs1 in Hbefore.
  rewrite Hhas, Hpairs, map_app, insert_loop_app, Hbefore.
  cbn [map insert_loop]. rewrite Hget, Hparent. reflexivity.
Qed.

Lemma X19_witness :
  InsertCommand_execute mem_store
    (InsertCommand_init plain_base plain_connection User ([ann] ++ bob :: [ann])
                        [f_id; f_name] false)
    {| rows := [bob_row]; cached := [] |}
  = (inl (IntegrityError "Tried to INSERT with existing key"),
     {| rows := [bob_row; ann_row]; cached := [] |},
     [DsGet (fst ann_row); DsPut (snd ann_row); DsGet (fst bob_row)]).
Proof.
  apply (X19_insert_stops_at_the_first_existing_key
           mem_store plain_base plain_connection User [ann] [ann] bob
           [f_id; f_name] false {| rows := [bob_row]; cached := [] |}
           {| rows := [bob_row; ann_row]; cached := [] |}
           [("app_user", PyInt 1)]
           [DsGet (fst ann_row); DsPut (snd ann_row)] (snd bob_row)).
  - reflexivity.
  - vm_compute. reflexivity.
  - vm_compute. reflexivity.
  - vm_compute. reflexivity.
Defined.

Lemma existing_is_parent_false ent existing :
  existing_is_parent ent existing = false <-> not_a_child_of ent existing.
Proof.
  unfold existing_is_parent, not_a_child_of. split.
  - intros H. destruct (ent !! "class") as [c|] eqn:Hc.
    + apply andb_false_iff in H as [H|H].
      * left. intros c' [= <-]. exact H.
      * right. apply bool_decide_eq_false in H.
        destruct (decide (set_Forall (fun k => k ∈ dom ent) (dom existing)))
          as [Hall|Hnot].
        { exfalso. apply H. intros k Hk. now apply Hall. }
        apply not_set_Forall_Exists in Hnot; [|apply _].
        destruct Hnot as (k & Hk & Hnk). exists k. split.
        -- now apply elem_of_dom in Hk.
        -- now apply not_elem_of_dom in Hnk.
    + left. intros c [=].
  - intros [H|(k & Hk & Hnone)].
    + destruct (ent !! "class") as [c|]; [|reflexivity].
      rewrite (H c eq_refl). reflexivity.
    + destruct (ent !! "class") as [c|]; [|reflexivity].
      apply andb_false_iff. right. apply bool_decide_eq_false.
      intros Hsub. apply (proj2 (elem_of_dom existing k)) in Hk. apply Hsub in Hk.
      apply (proj1 (elem_of_dom ent k)) in Hk as [x Hx].
      pose proof (eq_trans (eq_sym Hx) Hnone) as Habsurd. discriminate Habsurd.
Qed.

(** X20: the transaction of one object refuses the insert exactly when
    the key is stored and the new entity has no truthy [class] or lacks a
    property of the stored entity; a key that is not stored, or one stored
    with a subset of the properties of an entity that has a class, is
    written over. *)
Theorem X20_insert_is_refused_exactly_for_a_stored_stranger
    {S : Type} (ds : Datastore S) (key : Key) (ent : Entity)
    (rest : list (Key * Entity)) (st : S) (results : list Key) :
  insert_loop ds ((key, ent) :: rest) st results
  = (inl (IntegrityError "Tried to INSERT with existing key"), st, [DsGet key])
  <-> exists existing, ds_get ds st key = Some existing /\ not_a_child_of ent existing.
Proof.
  cbn [insert_loop]. split.
  - intros H. destruct (ds_get ds st key) as [existing|].
    + destruct (existing_is_parent ent existing) eqn:Hp.
      * cbn [negb] in H. destruct (ds_put ds st ent) as [st1 k].
        destruct (insert_loop ds rest st1 (results ++ [k])) as [[r st2] t2].
        discriminate H.
      * exists existing. split; [reflexivity|]. now apply existing_is_parent_false.
    + destruct (ds_put ds st ent) as [st1 k].
      destruct (insert_loop ds rest st1 (results ++ [k])) as [[r st2] t2].
      discriminate H.
  - intros (existing & -> & Hnot). apply existing_is_parent_false in Hnot.
    rewrite Hnot. reflexivity.
Qed.

(** ** X21 to X24: [DeleteCommand] and the select of [UpdateCommand] *)

(** What [execute] does on a command without collected filters. *)
Lemma execute_cases sdk ix b reg self r t reg' :
  all_filters self = [] ->
  execute sdk ix b reg self = (r, t, reg') ->
  (query_can_never_return_results self = true
   /\ r = Ok (set_results (Some (Entities [])) self) /\ t = [] /\ reg' = reg)
  \/ (query_can_never_return_results self = false
      /\ exists e, compile_query sdk ix reg self = (Raise e, reg')
                   /\ r = Raise e /\ t = [])
  \/ (query_can_never_return_results self = false
      /\ exists cq self',
           compile_query sdk ix reg self = (Ok cq, reg') /\ r = Ok self'
           /\ model self' = model self
           /\ ((is_count self = [] /\ results self' = Some (Entities (Run b cq))
                /\ t = [StoreRun cq])
               \/ (is_count self <> [] /\ results self' = Some (Count (Count_ b cq))
                   /\ t = [StoreCount cq]))).
Proof.
  intros Hall H. unfold execute in H.
  destruct (query_can_never_return_results self) eqn:Hflag.
  - injection H as <- <- <-. left. auto.
  - right. destruct (compile_query sdk ix reg self) as [[cq|e] reg1] eqn:Hcompile.
    + right. split; [reflexivity|].
      unfold _do_fetch, _run_query in H.
      cbn [results query aggregate_type set_aggregate_type set_query_done set_results
           set_query is_count truthy all_filters model] in H.
      rewrite Hall in H. cbn [is_empty negb] in H.
      destruct (is_count self) as [|a l] eqn:Hcount; cbn [is_empty] in H.
      * destruct cq as [dq|qs o]; cbn in H; injection H as <- <- <-;
          eexists _, _; (split; [reflexivity|]); (split; [reflexivity|]);
          (split; [reflexivity|]); left; auto.
      * destruct cq as [dq|qs o]; cbn in H; injection H as <- <- <-;
          eexists _, _; (split; [reflexivity|]); (split; [reflexivity|]);
          (split; [reflexivity|]); right; (split; [discriminate|]); auto.
    + left. injection H as <- <- <-. split; [reflexivity|]. eauto.
Qed.

Lemma init_queried_fields conn q k a self :
  __init__ conn q k a = Ok self ->
  queried_fields self
  = replace_first (column (pk (q_model q))) "__key__" (initial_queried_fields q k a)
  /\ keys_only self
     = bool_decide (initial_queried_fields q k a = [column (pk (q_model q))]).
Proof.
  intros Hinit.
  set (fields := initial_queried_fields q k a).
  set (pk_column := column (pk (q_model q))).
  apply init_Ok in Hinit as (pf & w & s' & _ & Hparse & ->).
  pose proof (parse_where_queried_fields (q_where q) false
                (init_fields conn q k a pf)) as [Hqf Hko].
  pose proof (parse_where_keeps (q_where q) false (init_fields conn q k a pf))
    as ((_ & _ & Hpk & _) & _).
  rewrite Hparse in Hqf, Hko, Hpk. cbn [snd queried_fields keys_only pk_col init_fields]
    in Hqf, Hko, Hpk.
  unfold switch_pk_to_key. cbn [queried_fields pk_col set_where]. rewrite Hqf, Hpk.
  fold fields pk_column.
  pose proof (list_index_replace_first pk_column "__key__" fields) as Hidx.
  destruct (list_index pk_column fields) as [i|]; destruct Hidx as [Hrep Hin].
  - cbn [queried_fields keys_only set_keys_only set_queried_fields]. rewrite Hrep.
    split; [reflexivity|]. rewrite length_replace_first.
    destruct fields as [|f [|g rest]]; cbn [List.length Nat.eqb].
    + discriminate Hin.
    + cbn in Hin. rewrite orb_false_r in Hin. apply String.eqb_eq in Hin as <-.
      now rewrite bool_decide_eq_true_2.
    + symmetry. apply bool_decide_eq_false_2. discriminate.
  - cbn [queried_fields keys_only set_where]. rewrite Hko, Hrep, Hqf.
    split; [reflexivity|]. symmetry. apply bool_decide_eq_false_2.
    intros Heq. rewrite Heq in Hin. cbn in Hin.
    now rewrite String.eqb_refl in Hin.
Qed.

Lemma init_frame conn q k a self :
  __init__ conn q k a = Ok self ->
  model self = q_model q /\ is_count self = aggregates q /\ connection self = conn.
Proof.
  intros Hinit. apply init_Ok in Hinit as (pf & w & s' & _ & Hparse & ->).
  destruct (switch_pk_to_key_fields (set_where w s')) as (_ & _ & _ & _ & -> & _).
  destruct (switch_pk_to_key_sets (set_where w s')) as (_ & _ & _ & -> & _ & ->).
  pose proof (parse_where_keeps (q_where q) false (init_fields conn q k a pf))
    as ((Hc & Hm & _ & _ & _ & _ & _ & Hn) & _).
  rewrite Hparse in Hc, Hm, Hn. cbn [snd] in Hc, Hm, Hn.
  cbn [model is_count connection set_where]. rewrite Hc, Hm, Hn. auto.
Qed.

(** X21: the select of a delete is a keys-only select: whatever the query
    selects, its only queried field is [__key__], [keys_only] is set and
    there is no projection. *)
Theorem X21_delete_selects_keys_only
    (conn : Connection) (q : DjangoQuery) (select_ : SelectCommand) :
  DeleteCommand_init conn q = Ok select_ ->
  queried_fields select_ = ["__key__"]
  /\ keys_only select_ = true
  /\ projection select_ = None.
Proof.
  unfold DeleteCommand_init. intros Hinit.
  destruct (init_queried_fields _ _ _ _ _ Hinit) as [Hqf Hko].
  destruct (init_projection _ _ _ _ _ Hinit) as (pf & Hloop & Hproj).
  unfold projection_input, initial_queried_fields in Hloop. cbn in Hloop.
  rewrite String.eqb_refl in Hloop. injection Hloop as <-.
  unfold initial_queried_fields in Hqf, Hko. cbn [replace_first] in Hqf.
  rewrite String.eqb_refl in Hqf. split; [exact Hqf|]. split.
  - rewrite Hko. now apply bool_decide_eq_true_2.
  - rewrite Hproj. cbn [projection_of].
    destruct (parents (q_model q)); apply fold_drop_None.
Qed.

Lemma X21_witness :
  exists select_,
    DeleteCommand_init plain_connection email_query = Ok select_
    /\ queried_fields select_ = ["__key__"]
    /\ keys_only select_ = true
    /\ projection select_ = None.
Proof.
  destruct (DeleteCommand_init plain_connection email_query) as [select_|e] eqn:Hinit;
    [|vm_compute in Hinit; discriminate Hinit].
  exists select_. split; [reflexivity|].
  exact (X21_delete_selects_keys_only _ _ _ Hinit).
Defined.

(** X22: a delete that goes through removes exactly what its select
    returned on the state it started from, in one request that follows the
    single read of the select, and makes no cache request; when the select
    is flagged empty it reads nothing and deletes the empty list. *)
Theorem X22_delete_removes_what_its_select_returned
    {S : Type} (ds : Datastore S) (sdk : Sdk) (ix : Indexing)
    (reg reg' : Registry)
    (conn : Connection) (q : DjangoQuery) (select_ : SelectCommand)
    (st st' : S) (t : list WriteEvent) :
  DeleteCommand_init conn q = Ok select_ ->
  DeleteCommand_execute ds sdk ix reg select_ st = (inr tt, st', t, reg') ->
  (query_can_never_return_results select_ = true
   /\ st' = ds_delete ds st [] /\ t = [DsDelete []] /\ reg' = reg)
  \/ (query_can_never_return_results select_ = false
      /\ exists cq,
           compile_query sdk ix reg select_ = (Ok cq, reg')
           /\ st' = ds_delete ds st (Run (ds_backend ds st) cq)
           /\ t = [Read (StoreRun cq); DsDelete (Run (ds_backend ds st) cq)]).
Proof.
  unfold DeleteCommand_init. intros Hinit Hrun.
  pose proof (init_all_filters _ _ _ _ _ Hinit) as Hall.
  unfold DeleteCommand_execute in Hrun.
  destruct (execute sdk ix (ds_backend ds st) reg select_) as [[r t0] reg0] eqn:Hexec.
  destruct (execute_cases _ _ _ _ _ _ _ _ Hall Hexec)
    as [(Hflag & -> & -> & ->)
       |[(Hflag & e & Hcompile & -> & ->)
        |(Hflag & cq & self' & Hcompile & -> & _ & Hres)]].
  - cbn [results set_results] in Hrun. injection Hrun as <- <- <-. left. auto.
  - discriminate Hrun.
  - right. split; [exact Hflag|].
    destruct Hres as [(_ & Hr & ->)|(_ & Hr & ->)]; rewrite Hr in Hrun.
    + injection Hrun as <- <- <-. exists cq. auto.
    + discriminate Hrun.
Qed.

Lemma X22_witness :
  (exists select_ cq,
     DeleteCommand_init plain_connection all_users_query = Ok select_
     /\ DeleteCommand_execute mem_store checking_library static_indexing no_indexes
          select_ three_users
        = (inr tt,
           {| rows := []; cached := [cached_user] |},
           [Read (StoreRun cq); DsDelete (map snd [ann_row; bob_row; cid_row])],
           no_indexes))
  /\ (exists select_,
        DeleteCommand_init plain_connection null_pk_query = Ok select_
        /\ DeleteCommand_execute mem_store checking_library static_indexing
             no_indexes select_ three_users
           = (inr tt, three_users, [DsDelete []], no_indexes)).
Proof.
  split.
  - destruct (DeleteCommand_init plain_connection all_users_query)
      as [select_|e] eqn:Hinit; [|vm_compute in Hinit; discriminate Hinit].
    destruct (DeleteCommand_execute mem_store checking_library static_indexing
                no_indexes select_ three_users) as [[[r st'] t] reg'] eqn:Hrun.
    pose proof Hinit as Hself. vm_compute in Hself. injection Hself as Hself.
    assert (r = inr tt /\ reg' = no_indexes
            /\ query_can_never_return_results select_ = false) as (-> & -> & Hflag).
    { rewrite <- Hself in Hrun. rewrite <- Hself.
      vm_compute in Hrun. injection Hrun as <- _ _ <-. auto. }
    destruct (X22_delete_removes_what_its_select_returned
                mem_store checking_library static_indexing no_indexes no_indexes
                plain_connection
                all_users_query select_ three_users st' t Hinit Hrun)
      as [(Hflag' & _)|(_ & cq & Hcompile & -> & ->)]; [congruence|].
    exists select_, cq. split; [reflexivity|]. rewrite Hrun. vm_compute. reflexivity.
  - destruct (DeleteCommand_init plain_connection null_pk_query)
      as [select_|e] eqn:Hinit; [|vm_compute in Hinit; discriminate Hinit].
    destruct (DeleteCommand_execute mem_store checking_library static_indexing
                no_indexes select_ three_users) as [[[r st'] t] reg'] eqn:Hrun.
    pose proof Hinit as Hself. vm_compute in Hself. injection Hself as Hself.
    assert (r = inr tt /\ query_can_never_return_results select_ = true)
      as (-> & Hflag).
    { rewrite <- Hself in Hrun. rewrite <- Hself.
      vm_compute in Hrun. injection Hrun as <- _ _ _. auto. }
    destruct (X22_delete_removes_what_its_select_returned
                mem_store checking_library static_indexing no_indexes reg'
                plain_connection
                null_pk_query select_ three_users st' t Hinit Hrun)
      as [(_ & -> & -> & ->)|(Hflag' & _)]; [|congruence].
    exists select_. split; [reflexivity|]. rewrite Hrun. vm_compute. reflexivity.
Defined.

(** X23: a delete that fails leaves the state as it was and deletes
    nothing.  It fails either because the select does not compile, before
    any request, or, for a query with aggregates, with the datastore's
    argument error after the count of the select. *)
Theorem X23_failed_delete_deletes_nothing
    {S : Type} (ds : Datastore S) (sdk : Sdk) (ix : Indexing)
    (reg reg' : Registry)
    (conn : Connection) (q : DjangoQuery) (select_ : SelectCommand)
    (st st' : S) (t : list WriteEvent) (e : WriteError) :
  DeleteCommand_init conn q = Ok select_ ->
  DeleteCommand_execute ds sdk ix reg select_ st = (inl e, st', t, reg') ->
  st' = st
  /\ ((exists e', e = SelectError e'
                  /\ compile_query sdk ix reg select_ = (Raise e', reg') /\ t = [])
      \/ (e = BadArgumentError /\ aggregates q <> []
          /\ exists cq, compile_query sdk ix reg select_ = (Ok cq, reg')
                        /\ t = [Read (StoreCount cq)])).
Proof.
  unfold DeleteCommand_init. intros Hinit Hrun.
  pose proof (init_all_filters _ _ _ _ _ Hinit) as Hall.
  destruct (init_frame _ _ _ _ _ Hinit) as (_ & Hcount & _).
  unfold DeleteCommand_execute in Hrun.
  destruct (execute sdk ix (ds_backend ds st) reg select_) as [[r t0] reg0] eqn:Hexec.
  destruct (execute_cases _ _ _ _ _ _ _ _ Hall Hexec)
    as [(Hflag & -> & -> & ->)
       |[(Hflag & e' & Hcompile & -> & ->)
        |(Hflag & cq & self' & Hcompile & -> & _ & Hres)]].
  - cbn [results set_results] in Hrun. discriminate Hrun.
  - injection Hrun as <- <- <- <-. split; [reflexivity|]. left. eauto.
  - destruct Hres as [(_ & Hr & ->)|(Hagg & Hr & ->)]; rewrite Hr in Hrun.
    + discriminate Hrun.
    + injection Hrun as <- <- <- <-. split; [reflexivity|]. right.
      rewrite <- Hcount. eauto.
Qed.

Lemma X23_witness :
  exists select_ cq,
    DeleteCommand_init plain_connection count_query = Ok select_
    /\ DeleteCommand_execute mem_store checking_library static_indexing no_indexes
         select_ three_users
       = (inl BadArgumentError, three_users, [Read (StoreCount cq)], no_indexes).
Proof.
  destruct (DeleteCommand_init plain_connection count_query) as [select_|e] eqn:Hinit;
    [|vm_compute in Hinit; discriminate Hinit].
  destruct (DeleteCommand_execute mem_store checking_library static_indexing
              no_indexes select_ three_users) as [[[r st'] t] reg'] eqn:Hrun.
  pose proof Hinit as Hself. vm_compute in Hself. injection Hself as Hself.
  assert (r = inl BadArgumentError /\ reg' = no_indexes) as (-> & ->).
  { rewrite <- Hself in Hrun. vm_compute in Hrun. injection Hrun as <- _ _ <-. auto. }
  destruct (X23_failed_delete_deletes_nothing
              mem_store checking_library static_indexing no_indexes no_indexes
              plain_connection
              count_query select_ three_users st' t BadArgumentError Hinit Hrun)
    as [-> [(e' & He & _)|(_ & _ & cq & _ & ->)]]; [discriminate He|].
  exists select_, cq. split; [reflexivity|]. exact Hrun.
Defined.

(** X24: the select of an update reads whole entities: whatever the
    query selects, the queried fields are the columns of the model with
    the primary key replaced by [__key__] and there is no projection; the
    model of the update is the one of its select. *)
Theorem X24_update_selects_whole_entities
    (conn : Connection) (q : DjangoQuery) (values : list (Field * scalar))
    (u : UpdateCommand) :
  UpdateCommand_init conn q values = Ok u ->
  projection (update_select u) = None
  /\ queried_fields (update_select u)
     = replace_first (column (pk (q_model q))) "__key__"
                     (map column (fields (q_model q)))
  /\ model (update_select u) = update_model u
  /\ update_values u = values.
Proof.
  unfold UpdateCommand_init. intros H.
  destruct (__init__ conn q false true) as [select_|e] eqn:Hinit; [|discriminate H].
  injection H as <-. cbn [update_select update_model update_values].
  destruct (init_queried_fields _ _ _ _ _ Hinit) as [Hqf _].
  destruct (init_projection _ _ _ _ _ Hinit) as (pf & Hloop & Hproj).
  destruct (init_frame _ _ _ _ _ Hinit) as (Hmodel & _).
  cbn in Hloop. injection Hloop as <-.
  split; [|split; [|split]].
  - rewrite Hproj. cbn [projection_of].
    destruct (parents (q_model q)); apply fold_drop_None.
  - rewrite Hqf. unfold initial_queried_fields. cbn [negb].
    destruct (map column (fields (q_model q))); reflexivity.
  - exact Hmodel.
  - reflexivity.
Qed.

Lemma X24_witness :
  exists u,
    UpdateCommand_init plain_connection email_query [(f_name, PyStr "Zoe")] = Ok u
    /\ projection (update_select u) = None
    /\ queried_fields (update_select u)
       = ["__key__"; "email"; "name"; "status"; "priority"; "bio"].
Proof.
  destruct (UpdateCommand_init plain_connection email_query [(f_name, PyStr "Zoe")])
    as [u|e] eqn:Hinit; [|vm_compute in Hinit; discriminate Hinit].
  exists u. split; [reflexivity|].
  destruct (X24_update_selects_whole_entities _ _ _ _ Hinit) as (Hp & Hq & _).
  split; [exact Hp|]. rewrite Hq. reflexivity.
Defined.

(** ** X25 to X28: [UpdateCommand.execute] *)

Lemma update_results_length base ix reg u rs :
  forall es, update_results base ix reg u rs = inr es ->
             List.length es = List.length rs.
Proof.
  induction rs as [|r rs IH]; intros es H; cbn [update_results] in H.
  - injection H as <-. reflexivity.
  - destruct (assign_values base ix reg u (update_values u) r) as [e|r']; [discriminate|].
    destruct (update_results base ix reg u rs) as [e|es']; [discriminate|].
    injection H as <-. cbn [List.length]. now rewrite (IH es' eq_refl).
Qed.

Lemma cache_loop_spec {S} (ds : Datastore S) base m pairs :
  forall st, cache_loop ds base m pairs st
             = (cache_all ds base m pairs st, cache_requests base m pairs).
Proof.
  induction pairs as [|[key entity] pairs IH]; intros st; [reflexivity|].
  cbn [cache_loop]. rewrite IH. reflexivity.
Qed.

(** X25: an update that goes through returns the number of entities its
    select fetched on the state it started from.  After the single read
    of the select (none when the select is flagged empty) it puts, in one
    request, as many entities as it fetched, and then caches one entity
    for every returned key: the entity that was put with the key stored
    under the primary-key column. *)
Theorem X25_update_puts_once_then_caches
    {S : Type} (ds : Datastore S) (base : Base) (sdk : Sdk) (ix : Indexing)
    (reg reg' : Registry) (conn : Connection) (q : DjangoQuery)
    (values : list (Field * scalar)) (u : UpdateCommand)
    (st st' : S) (t : list WriteEvent) (n : nat) :
  UpdateCommand_init conn q values = Ok u ->
  UpdateCommand_execute ds base sdk ix reg u st = (inr n, st', t, reg') ->
  exists reads fetched entities st1 ids,
    ((query_can_never_return_results (update_select u) = true
      /\ reads = [] /\ fetched = [] /\ reg' = reg)
     \/ (exists cq, compile_query sdk ix reg (update_select u) = (Ok cq, reg')
                    /\ reads = [Read (StoreRun cq)]
                    /\ fetched = Run (ds_backend ds st) cq))
    /\ update_results base ix reg' u fetched = inr entities
    /\ n = List.length fetched
    /\ List.length entities = n
    /\ ds_put_multi ds st entities = (st1, ids)
    /\ t = reads ++ DsPutMulti entities
                 :: cache_requests base (q_model q) (combine ids entities)
    /\ st' = cache_all ds base (q_model q) (combine ids entities) st1.
Proof.
  unfold UpdateCommand_init. intros H Hrun.
  destruct (__init__ conn q false true) as [select_|e] eqn:Hinit; [|discriminate H].
  injection H as <-. cbn [update_select].
  pose proof (init_all_filters _ _ _ _ _ Hinit) as Hall.
  destruct (init_frame _ _ _ _ _ Hinit) as (Hmodel & _).
  unfold UpdateCommand_execute in Hrun. cbn [update_select] in Hrun.
  destruct (execute sdk ix (ds_backend ds st) reg select_) as [[r t0] reg0] eqn:Hexec.
  set (u := {| update_model := q_model q; update_select := select_;
               update_values := values; update_connection := conn |}) in *.
  assert (forall fetched (self' : SelectCommand) reads,
             model self' = q_model q ->
             match update_results base ix reg0 u fetched with
             | inl e => (inl e, st, reads, reg0)
             | inr entities =>
               let '(st1, returned_ids) := ds_put_multi ds st entities in
               let '(st2, t') :=
                 cache_loop ds base (model self') (combine returned_ids entities) st1 in
               (inr (List.length fetched), st2, reads ++ DsPutMulti entities :: t', reg0)
             end = (inr n, st', t, reg') ->
             reg' = reg0
             /\ exists entities st1 ids,
                  update_results base ix reg' u fetched = inr entities
                  /\ n = List.length fetched
                  /\ List.length entities = n
                  /\ ds_put_multi ds st entities = (st1, ids)
                  /\ t = reads ++ DsPutMulti entities
                               :: cache_requests base (q_model q) (combine ids entities)
                  /\ st' = cache_all ds base (q_model q) (combine ids entities) st1)
    as Hput.
  { intros fetched self' reads Hm Heq.
    destruct (update_results base ix reg0 u fetched) as [e|entities] eqn:Hup;
      [discriminate Heq|].
    destruct (ds_put_multi ds st entities) as [st1 ids] eqn:Hids.
    rewrite cache_loop_spec, Hm in Heq. injection Heq as <- <- <- <-.
    split; [reflexivity|]. exists entities, st1, ids.
    rewrite (update_results_length _ _ _ _ _ _ Hup). auto 10. }
  destruct (execute_cases _ _ _ _ _ _ _ _ Hall Hexec)
    as [(Hflag & -> & -> & ->)
       |[(Hflag & e' & Hcompile & -> & ->)
        |(Hflag & cq & self' & Hcompile & -> & Hm & Hres)]].
  - cbn [results set_results] in Hrun.
    apply (Hput [] (set_results (Some (Entities [])) select_) []) in Hrun;
      [|exact Hmodel].
    destruct Hrun as (-> & entities & st1 & ids & Hrest).
    exists [], [], entities, st1, ids. split; [left; auto|exact Hrest].
  - discriminate Hrun.
  - destruct Hres as [(_ & Hr & ->)|(_ & Hr & ->)]; rewrite Hr in Hrun;
      [|discriminate Hrun].
    apply (Hput (Run (ds_backend ds st) cq) self' [Read (StoreRun cq)]) in Hrun;
      [|congruence].
    destruct Hrun as (-> & entities & st1 & ids & Hrest).
    exists [Read (StoreRun cq)], (Run (ds_backend ds st) cq), entities, st1, ids.
    split; [right; eauto|exact Hrest].
Qed.

Lemma X25_witness :
  exists u st' t entities,
    UpdateCommand_init plain_connection all_users_query [(f_status, PyStr "gone")]
    = Ok u
    /\ UpdateCommand_execute mem_store plain_base checking_library static_indexing
         no_indexes u {| rows := [ann_row; bob_row]; cached := [] |}
       = (inr 2%nat, st', t, no_indexes)
    /\ List.length entities = 2%nat
    /\ exists cq ids, t = [Read (StoreRun cq); DsPutMulti entities]
                          ++ cache_requests plain_base User (combine ids entities).
Proof.
  destruct (UpdateCommand_init plain_connection all_users_query
                               [(f_status, PyStr "gone")])
    as [u|e] eqn:Hinit; [|vm_compute in Hinit; discriminate Hinit].
  destruct (UpdateCommand_execute mem_store plain_base checking_library static_indexing
              no_indexes u {| rows := [ann_row; bob_row]; cached := [] |})
    as [[[r st'] t] reg'] eqn:Hrun.
  pose proof Hinit as Hself. vm_compute in Hself. injection Hself as Hself.
  assert (r = inr 2%nat /\ reg' = no_indexes
          /\ query_can_never_return_results (update_select u) = false)
    as (-> & -> & Hflag).
  { rewrite <- Hself in Hrun. rewrite <- Hself.
    vm_compute in Hrun. injection Hrun as <- _ _ <-. auto. }
  destruct (X25_update_puts_once_then_caches
              mem_store plain_base checking_library static_indexing no_indexes
              no_indexes plain_connection all_users_query [(f_status, PyStr "gone")] u
              {| rows := [ann_row; bob_row]; cached := [] |} st' t 2 Hinit Hrun)
    as (reads & fetched & entities & st1 & ids & Hread & _ & _ & Hlen & _ & Ht & _).
  destruct Hread as [(Hflag' & _)|(cq & _ & -> & _)]; [congruence|].
  exists u, st', t, entities. split; [reflexivity|]. split; [exact Hrun|].
  split; [exact Hlen|]. exists cq, ids. exact Ht.
Defined.

Lemma add_indexed_fields_inl base ix column0 value indexes :
  forall result e,
    add_indexed_fields base ix column0 value indexes result = inl e ->
    exists index, e = KeyError index /\ In index indexes
                  /\ special_indexer (REQUIRES_SPECIAL_INDEXES ix) index = None.
Proof.
  induction indexes as [|index rest IH]; intros result e H;
    cbn [add_indexed_fields] in H; [discriminate H|].
  destruct (special_indexer (REQUIRES_SPECIAL_INDEXES ix) index) as [indexer|] eqn:Hix.
  - apply IH in H as (index' & -> & Hin & Hnone). exists index'.
    split; [reflexivity|]. split; [now right|exact Hnone].
  - injection H as <-. exists index. split; [reflexivity|]. split; [now left|exact Hix].
Qed.

Lemma assign_values_inl base ix reg u values :
  forall result e,
    assign_values base ix reg u values result = inl e ->
    exists index f v,
      e = KeyError index /\ In (f, v) values
      /\ In index (special_indexes_for_column reg (update_model u) (column f))
      /\ special_indexer (REQUIRES_SPECIAL_INDEXES ix) index = None.
Proof.
  induction values as [|[f v] rest IH]; intros result e H;
    cbn [assign_values] in H; [discriminate H|].
  destruct (add_indexed_fields base ix (column f) v _ _) as [e'|result'] eqn:Hadd.
  - injection H as <-. apply add_indexed_fields_inl in Hadd as (index & -> & Hin & Hnone).
    exists index, f, v. split; [reflexivity|]. split; [now left|]. auto.
  - apply IH in H as (index & f' & v' & -> & Hin & Hrest).
    exists index, f', v'. split; [reflexivity|]. split; [now right|exact Hrest].
Qed.

Lemma update_results_inl base ix reg u rs :
  forall e, update_results base ix reg u rs = inl e ->
    rs <> []
    /\ exists index f v,
         e = KeyError index /\ In (f, v) (update_values u)
         /\ In index (special_indexes_for_column reg (update_model u) (column f))
         /\ special_indexer (REQUIRES_SPECIAL_INDEXES ix) index = None.
Proof.
  induction rs as [|r rs IH]; intros e H; cbn [update_results] in H; [discriminate H|].
  split; [discriminate|].
  destruct (assign_values base ix reg u (update_values u) r) as [e'|r'] eqn:Hassign.
  - injection H as <-. now apply assign_values_inl in Hassign.
  - destruct (update_results base ix reg u rs) as [e'|es]; [|discriminate H].
    injection H as <-. now apply IH.
Qed.

(** X26: an update that fails leaves the state as it was: nothing is
    put and nothing is cached, because every assignment is applied to every
    fetched entity before the put.  It fails because the select does not
    compile, before any request; or, for a query with aggregates, after the
    count of the select; or, after the fetch, with a key error for a
    special index that the registry lists for the column of an assignment
    and that the table of indexers does not have. *)
Theorem X26_failed_update_writes_nothing
    {S : Type} (ds : Datastore S) (base : Base) (sdk : Sdk) (ix : Indexing)
    (reg reg' : Registry) (conn : Connection) (q : DjangoQuery)
    (values : list (Field * scalar)) (u : UpdateCommand)
    (st st' : S) (t : list WriteEvent) (e : WriteError) :
  UpdateCommand_init conn q values = Ok u ->
  UpdateCommand_execute ds base sdk ix reg u st = (inl e, st', t, reg') ->
  st' = st
  /\ ((exists e', e = SelectError e'
                  /\ compile_query sdk ix reg (update_select u) = (Raise e', reg')
                  /\ t = [])
      \/ (e = NotIterable /\ aggregates q <> []
          /\ exists cq, t = [Read (StoreCount cq)])
      \/ (exists index f v cq,
            e = KeyError index /\ t = [Read (StoreRun cq)]
            /\ In (f, v) values
            /\ In index (special_indexes_for_column reg' (q_model q) (column f))
            /\ special_indexer (REQUIRES_SPECIAL_INDEXES ix) index = None)).
Proof.
  unfold UpdateCommand_init. intros H Hrun.
  destruct (__init__ conn q false true) as [select_|e0] eqn:Hinit; [|discriminate H].
  injection H as <-.
  pose proof (init_all_filters _ _ _ _ _ Hinit) as Hall.
  destruct (init_frame _ _ _ _ _ Hinit) as (_ & Hcount & _).
  unfold UpdateCommand_execute in Hrun. cbn [update_select] in *.
  destruct (execute sdk ix (ds_backend ds st) reg select_) as [[r t0] reg0] eqn:Hexec.
  set (u := {| update_model := q_model q; update_select := select_;
               update_values := values; update_connection := conn |}) in *.
  destruct (execute_cases _ _ _ _ _ _ _ _ Hall Hexec)
    as [(Hflag & -> & -> & ->)
       |[(Hflag & e' & Hcompile & -> & ->)
        |(Hflag & cq & self' & Hcompile & -> & Hm & Hres)]].
  - cbn [results set_results update_results] in Hrun.
    destruct (ds_put_multi ds st []) as [st1 ids].
    destruct (cache_loop ds base _ _ st1) as [st2 t']. discriminate Hrun.
  - injection Hrun as <- <- <- <-. split; [reflexivity|]. left. eauto.
  - destruct Hres as [(_ & Hr & ->)|(Hagg & Hr & ->)]; rewrite Hr in Hrun.
    + destruct (update_results base ix reg0 u (Run (ds_backend ds st) cq))
        as [e'|entities] eqn:Hup.
      * injection Hrun as <- <- <- <-. split; [reflexivity|]. right. right.
        apply update_results_inl in Hup as (_ & index & f & v & -> & Hin & Hidx & Hno).
        exists index, f, v, cq. auto.
      * destruct (ds_put_multi ds st entities) as [st1 ids].
        destruct (cache_loop ds base _ _ st1) as [st2 t']. discriminate Hrun.
    + injection Hrun as <- <- <- <-. split; [reflexivity|]. right. left.
      rewrite <- Hcount. eauto.
Qed.

Lemma X26_witness :
  exists u cq,
    UpdateCommand_init plain_connection all_users_query [(f_status, PyStr "gone")]
    = Ok u
    /\ UpdateCommand_execute mem_store plain_base checking_library
         static_indexing stale_registry u
         three_users
       = (inl (KeyError "regex"), three_users, [Read (StoreRun cq)], stale_registry).
Proof.
  destruct (UpdateCommand_init plain_connection all_users_query
                               [(f_status, PyStr "gone")])
    as [u|e] eqn:Hinit; [|vm_compute in Hinit; discriminate Hinit].
  destruct (UpdateCommand_execute mem_store plain_base checking_library
         static_indexing stale_registry u
              three_users) as [[[r st'] t] reg'] eqn:Hrun.
  pose proof Hinit as Hself. vm_compute in Hself. injection Hself as Hself.
  assert (r = inl (KeyError "regex") /\ reg' = stale_registry) as (-> & ->).
  { rewrite <- Hself in Hrun. vm_compute in Hrun. injection Hrun as <- _ _ <-. auto. }
  destruct (X26_failed_update_writes_nothing
              mem_store plain_base checking_library static_indexing stale_registry
              stale_registry
              plain_connection all_users_query [(f_status, PyStr "gone")] u
              three_users st' t (KeyError "regex") Hinit Hrun)
    as [-> [(e' & He & _)|[(He & _)|(index & f & v & cq & _ & -> & _)]]];
    [discriminate He|discriminate He|].
  exists u, cq. split; [reflexivity|]. exact Hrun.
Defined.

Lemma add_indexed_fields_frame base ix column0 value indexes :
  forall result result' k,
    add_indexed_fields base ix column0 value indexes result = inr result' ->
    ~ In k (flat_map (fun index =>
                        match special_indexer (REQUIRES_SPECIAL_INDEXES ix) index with
                        | Some indexer => [indexed_column_name indexer column0]
                        | None => []
                        end) indexes) ->
    result' !! k = result !! k.
Proof.
  induction indexes as [|index rest IH]; intros result result' k H Hk;
    cbn [add_indexed_fields flat_map] in H, Hk.
  - now injection H as <-.
  - destruct (special_indexer (REQUIRES_SPECIAL_INDEXES ix) index) as [indexer|];
      [|discriminate H].
    rewrite (IH _ _ k H); [|intros Hin; apply Hk; apply in_or_app; now right].
    apply lookup_insert_ne. intros Heq. apply Hk. left. exact Heq.
Qed.

Lemma assign_values_frame base ix reg u values :
  forall result result' k,
    assign_values base ix reg u values result = inr result' ->
    ~ In k (flat_map (fun p => written_columns ix reg (update_model u) (fst p)) values) ->
    result' !! k = result !! k.
Proof.
  induction values as [|[f v] rest IH]; intros result result' k H Hk;
    cbn [assign_values flat_map fst] in H, Hk.
  - now injection H as <-.
  - destruct (add_indexed_fields base ix (column f) v _ _) as [e|result1] eqn:Hadd;
      [discriminate H|].
    rewrite (IH _ _ k H); [|intros Hin; apply Hk; apply in_or_app; now right].
    rewrite (add_indexed_fields_frame _ _ _ _ _ _ _ k Hadd).
    + apply lookup_insert_ne. intros Heq. apply Hk. apply in_or_app. left.
      left. exact Heq.
    + intros Hin. apply Hk. apply in_or_app. left. right. exact Hin.
Qed.

Lemma assign_values_app base ix reg u before :
  forall after result result',
    assign_values base ix reg u (before ++ after) result = inr result' ->
    exists result1,
      assign_values base ix reg u before result = inr result1
      /\ assign_values base ix reg u after result1 = inr result'.
Proof.
  induction before as [|[f v] before IH]; intros after result result' H.
  - exists result. auto.
  - cbn [app assign_values] in *.
    destruct (add_indexed_fields base ix (column f) v _ _) as [e|result1];
      [discriminate H|]. now apply IH.
Qed.

(** X27: the assignments of an update on one fetched entity.  A property
    that is neither the column nor a special indexed column of an assigned
    field keeps the fetched value; and the column of a field holds the
    prepared value of its last assignment, provided none of its own
    indexed columns and no column written by a later assignment is that
    column. *)
Theorem X27_assignments_frame_and_last_value
    (base : Base) (ix : Indexing) (reg : Registry) (u : UpdateCommand)
    (values : list (Field * scalar)) (fetched assigned : Entity) :
  assign_values base ix reg u values fetched = inr assigned ->
  (forall k,
      ~ In k (flat_map (fun p => written_columns ix reg (update_model u) (fst p))
                       values) ->
      assigned !! k = fetched !! k)
  /\ (forall before f v after,
         values = before ++ (f, v) :: after ->
         ~ In (column f) (tl (written_columns ix reg (update_model u) f)) ->
         ~ In (column f)
              (flat_map (fun p => written_columns ix reg (update_model u) (fst p))
                        after) ->
         assigned !! column f
         = Some (get_prepared_db_value base (update_connection u) f v)).
Proof.
  intros H. split.
  - intros k Hk. now apply (assign_values_frame _ _ _ _ _ _ _ k H).
  - intros before f v after -> Hown Hlater.
    apply assign_values_app in H as (result1 & _ & H).
    cbn [assign_values] in H.
    destruct (add_indexed_fields base ix (column f) v _ _) as [e|result2] eqn:Hadd;
      [discriminate H|].
    rewrite (assign_values_frame _ _ _ _ _ _ _ (column f) H Hlater).
    rewrite (add_indexed_fields_frame _ _ _ _ _ _ _ (column f) Hadd Hown).
    apply lookup_insert_eq.
Qed.

Lemma X27_witness :
  exists u assigned,
    UpdateCommand_init plain_connection all_users_query
      [(f_name, PyStr "Zed"); (f_status, PyStr "gone"); (f_name, PyStr "Zoe")] = Ok u
    /\ assign_values plain_base static_indexing name_iexact_index u (update_values u)
         (snd ann_row) = inr assigned
    /\ assigned !! "id" = Some (PyInt 1)
    /\ assigned !! "name" = Some (PyStr "Zoe")
    /\ assigned !! "status" = Some (PyStr "gone").
Proof.
  destruct (UpdateCommand_init plain_connection all_users_query
              [(f_name, PyStr "Zed"); (f_status, PyStr "gone"); (f_name, PyStr "Zoe")])
    as [u|e] eqn:Hinit; [|vm_compute in Hinit; discriminate Hinit].
  pose proof Hinit as Hself. vm_compute in Hself. injection Hself as Hself.
  assert (update_model u = User
          /\ update_values u
             = [(f_name, PyStr "Zed"); (f_status, PyStr "gone"); (f_name, PyStr "Zoe")])
    as [Hmodel Hvalues].
  { rewrite <- Hself. split; reflexivity. }
  destruct (assign_values plain_base static_indexing name_iexact_index u
              (update_values u) (snd ann_row)) as [e|assigned] eqn:Hassign;
    [rewrite <- Hself in Hassign; vm_compute in Hassign; discriminate Hassign|].
  exists u, assigned. split; [reflexivity|]. split; [exact Hassign|].
  destruct (X27_assignments_frame_and_last_value _ _ _ _ _ _ _ Hassign)
    as [Hframe Hlast].
  rewrite Hmodel in Hframe, Hlast. rewrite Hvalues in Hframe.
  split; [|split].
  - rewrite (Hframe "id"); [reflexivity|].
    vm_compute. intros H. repeat (destruct H as [H|H]; [discriminate H|]). exact H.
  - apply (Hlast [(f_name, PyStr "Zed"); (f_status, PyStr "gone")] f_name
                 (PyStr "Zoe") []); [exact Hvalues| |].
    + vm_compute. intros H. repeat (destruct H as [H|H]; [discriminate H|]). exact H.
    + intros H. exact H.
  - apply (Hlast [(f_name, PyStr "Zed")] f_status (PyStr "gone")
                 [(f_name, PyStr "Zoe")]); [exact Hvalues| |].
    + intros H. exact H.
    + vm_compute. intros H. repeat (destruct H as [H|H]; [discriminate H|]). exact H.
Defined.

Lemma last_cons {A} (l : list A) :
  forall a d, List.last (a :: l) d = List.last l a.
Proof.
  induction l as [|b l IH]; intros a d; [reflexivity|].
  change (List.last (a :: b :: l) d) with (List.last (b :: l) d).
  rewrite (IH b d). symmetry. apply IH.
Qed.

(** X28: the column under which an update stores the key in the entity
    it caches is the primary-key column of the last parent whose primary
    key is no relation, and the primary-key column of the model when there
    is no such parent. *)
Theorem X28_cached_key_column_is_of_the_last_own_parent
    (base : Base) (m : Model) :
  cache_pk_column base m = last_own_pk_column base m.
Proof.
  unfold cache_pk_column, last_own_pk_column.
  generalize (column (pk m)) as d.
  induction (parents m) as [|p ps IH]; intros d; [reflexivity|].
  cbn [fold_left List.filter]. rewrite IH.
  destruct (pk_is_relation base p); cbn [negb map]; [reflexivity|].
  now rewrite last_cons.
Qed.

Lemma X28_witness :
  column (pk Manager) = "person_ptr_id"
  /\ cache_pk_column plain_base Manager = "id".
Proof.
  split; [reflexivity|].
  rewrite (X28_cached_key_column_is_of_the_last_own_parent plain_base Manager).
  reflexivity.
Defined.

